(* ===== verification/_CoqProject ===== *)
-Q . S2P
Prelude.v
PyExc.v
PyValue.v
Json.v
Namespace.v
PurePath.v
FileSystem.v
Flask.v
Features.v
Checkpoint.v
Legacy.v
App.v
Typing.v
Concurrency.v
