(* ===== verification/Prelude.v ===== *)
(** * A verification development of the DDN QR-code backend

    ** The program

    The repository holds three near-duplicate Flask services that turn an
    entry identifier into a QR-code PNG on disk:
    - [src/project-root/features/backend.py], the current handler:
      [generate_qr_code] (lines 8-28) checks [request.is_json], reads
      [request.json], looks up ["_id"], converts it with [str()], rejects
      the empty string, calls [qrcode.make], creates [imgs] when
      [os.path.exists] says it is missing, saves the image under
      [PurePath("imgs", entry_id + ".png")] and maps [ValueError] to 400
      and [OSError] to 500; [main] (lines 30-35) returns an HTML page;
    - [src/project-root/features/.ipynb_checkpoints/backend-checkpoint.py],
      an earlier draft: it reads [request.form.get("_id")], never creates
      [imgs], answers with [{"status": ..., "message": ...}] dicts (HTTP
      200) and guards the [try] with [except ValueError():];
    - [src/backend.py], the first draft: it never imports [request], its
      view [def qrcode()] rebinds the module name [qrcode], and its dict
      keys [status] and [message] are unbound names.
    The three files register the same two routes, [POST /qrcode] and
    [GET /], on a Flask application.

    ** The files

    - [Prelude] (this file): Python strings as [list ascii] ([pystr]),
      literals [«"..."»], [str.split]/[str.join] on one character,
      [utf8_len], the state-and-exception monad [SE] with its notations
      [x <- m ;; k] and [m ;;; k], the tactics [se_unfold], [invc],
      [decide_closed], the hint databases [pydb], [pyrw] and [se_typing],
      the typing judgement [se_returns] of [SE] computations with one rule
      per construct, and the list and string lemmas the components share.
    - [PyExc] (Module [PyExc]): the exception classes met on the three
      paths, their MRO, [issubclass], and [try]/[except] ([try_except],
      [run_handlers]) including an [except] expression that evaluates to an
      instance, with the typing rule of [try].  The MRO table is proved equal to the C3 linearisation of
      the declared bases.
    - [PyValue] (Module [PyValue]): JSON documents, [json.loads] into
      Python values ([json_decode], dicts keep the last value of a repeated
      key), [in], subscription and [str()]/[repr()] as CPython prints them.
    - [Json] (Module [Json]): [json.loads] on text as CPython's C scanner
      runs it ([json_loads]: strict strings, [\uXXXX], the 4300-digit
      limit of [int()], [RecursionError] beyond a recursion budget, floats
      reported as outside the model) and the text of Flask's [jsonify]
      ([json_dumps], [to_json] with sorted keys).
    - [Namespace] (Module [Namespace]): the objects module-level names
      denote ([gobj]), global name lookup ([load_global]), and the
      namespaces built by the imports and top-level statements of the
      current handler's file and the checkpoint draft, with the names each
      view reads.
    - [PurePath] (Module [PurePath]): [pathlib.PurePosixPath] after CPython
      3.12 ([posixpath.join], [splitroot], [_parse_path], [__str__]).
    - [FileSystem] (Module [FileSystem]): the interface [OS] of the three
      calls the handlers make ([os.path.exists], [os.mkdir], [Image.save])
      with its laws [OSLaws], and the in-memory Linux file system [memfs]
      implementing both (path walk, [NAME_MAX], [PATH_MAX], NUL,
      permissions).
    - [Flask] (Module [Flask]): requests, [is_json], [request.json],
      [request.form], view return values and [make_response], the error
      page of an escaping exception, and the encoder interface
      [QREncoder] with a stand-in instance.
    - [Features], [Checkpoint], [Legacy]: the three [qrcode] views, each
      statement of the source as one step of [SE], written over any [OS]
      and any [QREncoder] and proved on [memfs].
    - [App] (Module [App]): werkzeug routing and Flask dispatch
      ([dispatch]: 404, 405, [HEAD], automatic [OPTIONS]), [main], the three
      applications, the server as a step relation [server_step] (a request,
      or the operator deleting [imgs]), and the table of section 4.1 of the
      specification as the relation [spec_handle], which fixes for every
      state whether a valid request may end in [StorageFailure] or
      [Success] ([spec_can_write]: [imgs] exists or can be created and
      [imgs/<id>.png] can be written), with the refinement theorem.
    - [Typing] (Module [Typing]): the response types of the API
      ([api_response]) and of the checkpoint draft ([draft_response]), and
      their derivation from [se_returns] through [run_view] and
      [dispatch].
    - [Concurrency] (Module [Race]): the three OS calls of lines 21-23 of
      the current handler as atomic steps ([save_step]) of a request at a
      program point ([phase]), and any number of requests run under a
      schedule, the list of the indices of the requests making the
      successive calls ([run_sched]), as Flask's threaded server runs them.

    ** The theorems

    - The current handler: the success case ([features_success]); each row
      of the error table ([features_not_json], [features_missing_id],
      [features_empty_id], [features_encoder_error],
      [features_storage_error]); the behaviours the table does not foresee
      ([features_bad_json], [features_nul_name], [features_long_name]);
      that names are not confined to [imgs] ([features_path_escape]); that
      only a 200 changes the files ([features_files_only_on_success]); and
      idempotence ([features_idempotent]).
    - The application: the refinement of the specification's table in
      every state ([features_refines_spec]): every answer is the row of an
      outcome the table allows, with its effect on the files, and for an
      identifier naming a file of [imgs] the outcome is [Success] exactly
      when the file system lets the handler create [imgs] and write the
      file; the store invariant along any run of the
      server, for the current handler and the checkpoint
      ([store_invariant], by rule induction on [rtc server_step]); the
      re-creation of [imgs] after it is deleted
      ([features_recreates_imgs]); [GET /] in every state
      ([main_page_always_200]); routing errors ([routing_errors]).
    - Types: every answer of the current application has the API's
      response type ([features_app_typed]), and on the wire every JSON
      answer is the text [{"message":"m"}] that [json.loads] reads back
      ([features_app_wire]); every JSON answer of the checkpoint is sent
      with HTTP 200 ([checkpoint_app_typed]).
    - Concurrency: the check-then-create of [imgs] is a race that
      makes one of two first requests fail ([mkdir_race]); once [imgs]
      exists, no schedule of any number of requests makes one fail
      ([no_race_with_imgs]) or loses the file of another
      ([no_lost_write]).
    - The drafts: the checkpoint answers every JSON request outside the
      table ([checkpoint_violates_spec]) and a missing identifier with HTTP 200,
      turns every exception into a 500, never creates [imgs] and accepts
      the empty identifier; the first draft answers every request with 500,
      even with the missing import repaired.
    - The library models carry lemmas that check them against the
      libraries they stand for, used as such and not as claims about the
      program: the MRO table is the C3 linearisation, decoded objects keep
      the last value of a key, the [str()] digit loop always has enough
      fuel ([int_to_dec_value]), paths and JSON text print and parse back
      ([json_roundtrip]), and [memfs] operations keep it well formed.

    ** Bounds and fuel

    - [n_to_dec] (the digits of [str(int)]) runs on fuel
      [S (N.size_nat n)], one more than the number of binary digits of [n],
      which bounds its number of decimal digits; [int_to_dec_value] proves
      the fuel always suffices.
    - File names are limited to [NAME_MAX] = 255 bytes and paths to
      [PATH_MAX] = 4096 bytes, counted in UTF-8 ([utf8_len]), as Linux does;
      hence the bound of 251 bytes on an identifier stored under [imgs].
    - The stand-in encoder [byte_mode_encoder] accepts at most 2331 bytes,
      the byte-mode capacity of a version-40 symbol at level M (qrcode's
      default), and raises [DataOverflowError] beyond; the handler theorems
      hold for every encoder.
    - The C3 linearisation runs on fuel 8 (more than the depth of the class
      table), checked for every class.
    - [json_loads] runs the scanner on fuel three times the length of the
      text plus three: a chain of nested calls consumes a character every
      three calls at most, and any more fuel gives the same outcome
      ([json_loads_fuel]).  A printed document needs at most twice its
      length ([json_size_le]).  The recursion budget of the scanner is a
      parameter: CPython's limit depends on the depth of the stack when
      the view runs, so the theorems hold for every budget that covers the
      nesting of the document.

    ** Not modelled

    The QR-code algorithm and PNG encoding (the image is an abstract value
    of the encoder's type); JSON floats, [NaN] and [Infinity] (parsing
    decimal text into IEEE-754 doubles and [str(float)]'s shortest repr are
    not modelled: [json_loads] reports them as [JOutside]); code points
    above 255 (a [pystr] holds Latin-1 characters, and the body is taken
    as already decoded text); symbolic links, quotas
    and a full disk; HTTP headers, the HTML of error pages, the bodies of
    [HEAD] answers and the
    WSGI transport ([app.run] is never called in the files); Python's
    builtins namespace (the views read [str], [ValueError] and [OSError]
    from it, and the models use their meaning directly).  Concurrency is
    modelled only on lines 21-23: the rest of a request touches no shared
    state, so [App]'s server runs whole requests in sequence. *)

From Stdlib Require Import Ascii String ZArith Lia.
From stdpp Require Export base list gmap strings options finite.

(** ** Python strings

    A Python [str] is a sequence of code points.  We model it as a list of
    [ascii] characters, each read as the Latin-1 code point 0..255. *)

Abbreviation pystr := (list ascii).

Declare Scope py_scope.
Delimit Scope py_scope with py.
Open Scope py_scope.

Definition lit (s : string) : pystr := list_ascii_of_string s.

(** The path separator. *)
Definition slash : ascii := "/"%char.

Notation "« s »" := (lit s%string) (format "« s »") : py_scope.

(** [str.split(sep)] for a one-character separator: never empty. *)
Fixpoint split_on (c : ascii) (s : pystr) : list pystr :=
  match s with
  | [] => [[]]
  | x :: r =>
      let parts := split_on c r in
      if ascii_dec x c then [] :: parts
      else match parts with
           | p :: ps => (x :: p) :: ps
           | [] => [[x]]
           end
  end.

(** [sep.join(parts)] for a one-character separator. *)
Fixpoint join_with (c : ascii) (parts : list pystr) : pystr :=
  match parts with
  | [] => []
  | [p] => p
  | p :: ps => p ++ c :: join_with c ps
  end.

Fixpoint is_prefixb (p s : pystr) : bool :=
  match p, s with
  | [], _ => true
  | a :: p', b :: s' => bool_decide (a = b) && is_prefixb p' s'
  | _ :: _, [] => false
  end.

(** [needle in hay] on two [str]s: a substring test. *)
Fixpoint contains_sub (needle hay : pystr) : bool :=
  is_prefixb needle hay ||
  match hay with
  | [] => false
  | _ :: hay' => contains_sub needle hay'
  end.

(** Number of bytes of a code point 0..255 in UTF-8, the file-system
    encoding of CPython on Linux. *)
Definition utf8_char_len (a : ascii) : nat :=
  if nat_of_ascii a <? 128 then 1 else 2.

Definition utf8_len (s : pystr) : nat := sum_list (map utf8_char_len s).

(** ** A state and exception monad

    [SE E S A] threads a state [S] and may raise an exception of type [E];
    it is the effect of a Python function body that mutates the outside
    world and raises. *)

Definition SE (E S A : Type) : Type := S -> (E + A) * S.

Definition se_ret {E S A} (a : A) : SE E S A := fun s => (inr a, s).
Definition se_raise {E S A} (e : E) : SE E S A := fun s => (inl e, s).
Definition se_bind {E S A B} (m : SE E S A) (k : A -> SE E S B) : SE E S B :=
  fun s => match m s with
           | (inr a, s') => k a s'
           | (inl e, s') => (inl e, s')
           end.
Definition se_lift {E S A} (r : E + A) : SE E S A := fun s => (r, s).
Definition se_get {E S} : SE E S S := fun s => (inr s, s).

Notation "x <- m ;; k" := (se_bind m (fun x => k))
  (at level 100, m at next level, right associativity) : py_scope.
Notation "m ;;; k" := (se_bind m (fun _ => k))
  (at level 100, right associativity) : py_scope.

(** ** Tactics and hints shared by the development *)

Create HintDb pydb.
Create HintDb se_typing.
Create Rewrite HintDb pyrw.

Ltac se_unfold := unfold se_bind, se_ret, se_raise, se_lift, se_get in *.

Ltac invc H := inversion H; subst; clear H.

(** Close a closed decidable goal by evaluating its [Decision] instance. *)
Ltac decide_closed := refine (bool_decide_unpack _ _); vm_compute; exact I.

(** ** Generic lemmas *)

Section Strings.
Implicit Types (c : ascii) (s p : pystr).

Lemma split_on_cons_nonempty c s : split_on c s ≠ [].
Proof. induction s as [|x r IH]; simpl; [done|]. case_match; [done|]. by case_match. Qed.

Lemma join_split c s : join_with c (split_on c s) = s.
Proof.
  induction s as [|x r IH]; [done|]. simpl.
  destruct (split_on c r) as [|p ps] eqn:E; [by destruct (split_on_cons_nonempty c r)|].
  destruct (ascii_dec x c) as [->|Hne].
  - simpl. destruct ps; simpl in *; by rewrite IH.
  - destruct ps; simpl in *; by rewrite IH.
Qed.

Lemma split_on_no_sep c s : c ∉ s -> split_on c s = [s].
Proof.
  induction s as [|x r IH]; intros Hn; [done|]. simpl.
  rewrite IH by set_solver. destruct (ascii_dec x c); [set_solver|done].
Qed.

Lemma split_on_parts_no_sep c s p : p ∈ split_on c s -> c ∉ p.
Proof.
  revert p. induction s as [|x r IH]; intros p Hp; simpl in Hp.
  - apply list_elem_of_singleton in Hp as ->. apply not_elem_of_nil.
  - destruct (ascii_dec x c).
    + apply elem_of_cons in Hp as [->|Hp]; [apply not_elem_of_nil|auto].
    + destruct (split_on c r) as [|q qs] eqn:E;
        [by destruct (split_on_cons_nonempty c r)|].
      apply elem_of_cons in Hp as [->|Hp].
      * apply not_elem_of_cons. split; [congruence|]. apply IH. left.
      * apply IH. by right.
Qed.

Lemma split_on_app_sep c s r :
  c ∉ s -> split_on c (s ++ c :: r) = s :: split_on c r.
Proof.
  induction s as [|x s IH]; intros Hn; simpl.
  - by destruct (ascii_dec c c).
  - rewrite IH by set_solver. destruct (ascii_dec x c); [set_solver|done].
Qed.

Lemma split_join c parts :
  parts ≠ [] -> Forall (fun p => c ∉ p) parts -> split_on c (join_with c parts) = parts.
Proof.
  induction parts as [|p [|q ps] IH]; intros Hne Hall; [done| |].
  - apply Forall_cons in Hall as [Hp _]. by apply split_on_no_sep.
  - apply Forall_cons in Hall as [Hp Hall].
    change (split_on c (p ++ c :: join_with c (q :: ps)) = p :: q :: ps).
    rewrite split_on_app_sep by done. by rewrite IH.
Qed.

Lemma join_with_head c p ps x r :
  p = x :: r -> join_with c (p :: ps) = x :: r ++ (match ps with [] => [] | _ => c :: join_with c ps end).
Proof. intros ->. destruct ps; simpl; by rewrite ?app_nil_r. Qed.

Lemma is_prefixb_spec p s : is_prefixb p s = true <-> exists r, s = p ++ r.
Proof.
  revert s. induction p as [|a p IH]; intros [|b s]; simpl.
  - split; eauto.
  - split; eauto.
  - split; [done|]. by intros [r ?].
  - rewrite andb_true_iff, bool_decide_eq_true, IH. split.
    + intros [-> [r ->]]. eauto.
    + intros [r Hr]. injection Hr as -> ->. eauto.
Qed.

Lemma contains_sub_spec n h :
  contains_sub n h = true <-> exists l r, h = l ++ n ++ r.
Proof.
  induction h as [|b h IH]; simpl; rewrite orb_true_iff, is_prefixb_spec.
  - split.
    + intros [[r Hr]|?]; [|done]. by exists [], r.
    + intros ([|x l] & r & Hr); [left; eauto|done].
  - rewrite IH. split.
    + intros [[r Hr]|(l & r & ->)]; [exists [], r; done|]. by exists (b :: l), r.
    + intros ([|x l] & r & Hr); [left; eauto|].
      injection Hr as -> ->. right. eauto.
Qed.

Lemma utf8_len_app s p : utf8_len (s ++ p) = utf8_len s + utf8_len p.
Proof. unfold utf8_len. by rewrite map_app, sum_list_with_app. Qed.

Lemma utf8_len_ge s : length s <= utf8_len s.
Proof.
  induction s as [|a s IH]; [done|]. unfold utf8_len in *. simpl.
  unfold utf8_char_len at 1. case_match; lia.
Qed.

(** The last piece of [s ++ t] split at [c] ends with [t] when [t] holds
    no [c]. *)
Lemma split_on_last_app c s t :
  c ∉ t -> exists l, last (split_on c (s ++ t)) = Some (l ++ t).
Proof.
  intros Ht. induction s as [|x s [l Hl]].
  - exists []. simpl. by rewrite (split_on_no_sep c t Ht).
  - simpl. destruct (ascii_dec x c).
    + exists l. by rewrite last_cons, Hl.
    + destruct (split_on c (s ++ t)) as [|p [|q qs]]; [done| |].
      * injection Hl as ->. by exists (x :: l).
      * exists l. rewrite last_cons_cons in Hl |- *. done.
Qed.

Lemma join_with_last c parts x :
  last parts = Some x -> exists u, join_with c parts = u ++ x.
Proof.
  induction parts as [|p [|q ps] IH]; intros Hl; [done| |].
  - injection Hl as ->. by exists [].
  - rewrite last_cons_cons in Hl. destruct (IH Hl) as [u Hu].
    exists (p ++ c :: u). change (join_with c (p :: q :: ps)) with (p ++ c :: join_with c (q :: ps)).
    rewrite Hu. by rewrite <- app_assoc.
Qed.

Lemma elem_of_join_with c ps x : x ∈ join_with c ps -> x = c \/ exists p, p ∈ ps /\ x ∈ p.
Proof.
  induction ps as [|p [|q qs] IH]; [set_solver| |].
  - intros Hx. right. exists p. set_solver.
  - change (join_with c (p :: q :: qs)) with (p ++ c :: join_with c (q :: qs)).
    rewrite elem_of_app, elem_of_cons. intros [Hx|[->|Hx]]; [right; exists p; set_solver|by left|].
    destruct (IH Hx) as [->|(p' & Hp' & Hx')]; [by left|right; exists p'; set_solver].
Qed.

Lemma join_with_elem_of c ps p x : p ∈ ps -> x ∈ p -> x ∈ join_with c ps.
Proof.
  induction ps as [|q [|q' qs] IH]; intros Hp Hx; [set_solver| |].
  - by apply list_elem_of_singleton in Hp as ->.
  - change (join_with c (q :: q' :: qs)) with (q ++ c :: join_with c (q' :: qs)).
    rewrite elem_of_app, elem_of_cons. apply elem_of_cons in Hp as [->|Hp]; auto.
Qed.

Lemma elem_of_split_on c s p x : p ∈ split_on c s -> x ∈ p -> x ∈ s.
Proof. intros Hp Hx. rewrite <- (join_split c s). by eapply join_with_elem_of. Qed.
End Strings.

Lemma filter_Forall_id {A} (P : A -> Prop) `{forall x, Decision (P x)} (l : list A) :
  Forall P l -> filter P l = l.
Proof.
  induction 1 as [|x l Hx _ IH]; [done|]. by rewrite filter_cons_True, IH.
Qed.

Lemma last_filter_kept {A} (P : A -> Prop) `{forall x, Decision (P x)} (l : list A) x :
  last l = Some x -> P x -> last (filter P l) = Some x.
Proof.
  intros Hl Hx. apply last_Some in Hl as [l' ->].
  rewrite filter_app, filter_cons_True, filter_nil by done. apply last_snoc.
Qed.

Section Monad.
Context {E S : Type}.

Lemma se_bind_ret {A B} (a : A) (k : A -> SE E S B) s :
  se_bind (se_ret a) k s = k a s.
Proof. done. Qed.

Lemma se_bind_raise {A B} (e : E) (k : A -> SE E S B) s :
  se_bind (se_raise e) k s = (inl e, s).
Proof. done. Qed.

Lemma se_bind_assoc {A B C} (m : SE E S A) (k : A -> SE E S B)
      (h : B -> SE E S C) s :
  se_bind (se_bind m k) h s = se_bind m (fun a => se_bind (k a) h) s.
Proof. unfold se_bind. by destruct (m s) as [[e|a] s']. Qed.
End Monad.

#[export] Hint Rewrite @se_bind_ret @se_bind_raise @se_bind_assoc : pyrw.

(** ** What a computation may return

    [se_returns P m]: every value that [m] returns, from any state,
    satisfies [P]; what it raises and the state it leaves are free.  The
    lemmas below are the typing rules of the monad, one per construct, and
    [se_typing] applies them. *)
Definition se_returns {E S A} (P : A -> Prop) (m : SE E S A) : Prop :=
  forall s a s', m s = (inr a, s') -> P a.

Section Returns.
Context {E S A : Type} (P : A -> Prop).

Lemma se_returns_ret a : P a -> se_returns P (@se_ret E S A a).
Proof. by intros Ha s b s' [= <- _]. Qed.

Lemma se_returns_raise e : se_returns P (@se_raise E S A e).
Proof. by intros s b s' [=]. Qed.

Lemma se_returns_bind {B} (m : SE E S B) (k : B -> SE E S A) :
  (forall b, se_returns P (k b)) -> se_returns P (se_bind m k).
Proof.
  intros Hk s a s'. unfold se_bind. destruct (m s) as [[e|b] s1]; [by intros [=]|apply Hk].
Qed.

Lemma se_returns_if (b : bool) (m1 m2 : SE E S A) :
  se_returns P m1 -> se_returns P m2 -> se_returns P (if b then m1 else m2).
Proof. by destruct b. Qed.

Lemma se_returns_decide (Q : Prop) `{Decision Q} (m1 m2 : SE E S A) :
  se_returns P m1 -> se_returns P m2 -> se_returns P (if decide Q then m1 else m2).
Proof. by destruct (decide Q). Qed.
End Returns.

#[export] Hint Resolve se_returns_ret se_returns_raise se_returns_bind se_returns_if se_returns_decide : se_typing.
#[export] Hint Constructors Forall : se_typing.
#[export] Hint Resolve split_on_cons_nonempty : pydb.
