(* ===== verification/PyExc.v ===== *)
(** * Python exceptions

    The exception classes raised on the paths of the three handlers, with
    their bases as CPython, werkzeug and qrcode declare them, the method
    resolution order (MRO) that [issubclass] consults, and the semantics
    of a [try ... except] statement, including an [except] clause whose
    expression evaluates to an exception instance instead of a class
    ([except ValueError():], which the two draft handlers write). *)

From S2P Require Import Prelude.

Module PyExc.

(** The classes, with the module that declares each. *)
Inductive exc_class :=
| BaseException | Exception
| ValueError | UnicodeError | UnicodeEncodeError          (* builtins *)
| TypeError | LookupError | KeyError | NameError | AttributeError
| OSError | FileNotFoundError | FileExistsError | PermissionError
| IsADirectoryError | NotADirectoryError
| DataOverflowError                                      (* qrcode.exceptions *)
| HTTPException | BadRequest | BadRequestKeyError        (* werkzeug.exceptions *)
| NotFound | MethodNotAllowed.

#[export] Instance exc_class_eq_dec : EqDecision exc_class.
Proof. solve_decision. Defined.

Definition all_exc_classes : list exc_class :=
  [BaseException; Exception; ValueError; UnicodeError; UnicodeEncodeError;
   TypeError; LookupError; KeyError; NameError; AttributeError; OSError;
   FileNotFoundError; FileExistsError; PermissionError; IsADirectoryError;
   NotADirectoryError; DataOverflowError; HTTPException; BadRequest;
   BadRequestKeyError; NotFound; MethodNotAllowed].

#[export] Program Instance exc_class_finite : Finite exc_class :=
  {| enum := all_exc_classes |}.
Next Obligation. decide_closed. Qed.
Next Obligation. intros []; vm_compute; repeat first [left | right]. Qed.

(** [cls.__bases__]. *)
Definition bases (c : exc_class) : list exc_class :=
  match c with
  | BaseException => []
  | Exception => [BaseException]
  | ValueError | TypeError | LookupError | NameError | AttributeError
  | OSError | DataOverflowError | HTTPException => [Exception]
  | UnicodeError => [ValueError]
  | UnicodeEncodeError => [UnicodeError]
  | KeyError => [LookupError]
  | FileNotFoundError | FileExistsError | PermissionError
  | IsADirectoryError | NotADirectoryError => [OSError]
  | BadRequest | NotFound | MethodNotAllowed => [HTTPException]
  | BadRequestKeyError => [BadRequest; KeyError]
  end.

(** [cls.__mro__] (without [object]), the table CPython stores in
    [tp_mro] and walks in [PyType_IsSubtype]. *)
Definition mro (c : exc_class) : list exc_class :=
  match c with
  | BaseException => [BaseException]
  | Exception => [Exception; BaseException]
  | ValueError => [ValueError; Exception; BaseException]
  | UnicodeError => [UnicodeError; ValueError; Exception; BaseException]
  | UnicodeEncodeError =>
      [UnicodeEncodeError; UnicodeError; ValueError; Exception; BaseException]
  | TypeError => [TypeError; Exception; BaseException]
  | LookupError => [LookupError; Exception; BaseException]
  | KeyError => [KeyError; LookupError; Exception; BaseException]
  | NameError => [NameError; Exception; BaseException]
  | AttributeError => [AttributeError; Exception; BaseException]
  | OSError => [OSError; Exception; BaseException]
  | FileNotFoundError => [FileNotFoundError; OSError; Exception; BaseException]
  | FileExistsError => [FileExistsError; OSError; Exception; BaseException]
  | PermissionError => [PermissionError; OSError; Exception; BaseException]
  | IsADirectoryError => [IsADirectoryError; OSError; Exception; BaseException]
  | NotADirectoryError => [NotADirectoryError; OSError; Exception; BaseException]
  | DataOverflowError => [DataOverflowError; Exception; BaseException]
  | HTTPException => [HTTPException; Exception; BaseException]
  | BadRequest => [BadRequest; HTTPException; Exception; BaseException]
  | BadRequestKeyError =>
      [BadRequestKeyError; BadRequest; HTTPException; KeyError; LookupError;
       Exception; BaseException]
  | NotFound => [NotFound; HTTPException; Exception; BaseException]
  | MethodNotAllowed => [MethodNotAllowed; HTTPException; Exception; BaseException]
  end.

(** [issubclass(c, d)]. *)
Definition issubclass (c d : exc_class) : bool := bool_decide (d ∈ mro c).

(** ** C3 linearisation, the reference definition of the MRO *)

Definition c3_tail_free (h : exc_class) (seqs : list (list exc_class)) : bool :=
  forallb (fun s => negb (bool_decide (h ∈ tail s))) seqs.

Definition c3_pick (seqs : list (list exc_class)) : option exc_class :=
  head (omap (fun s => match s with
                       | h :: _ => if c3_tail_free h seqs then Some h else None
                       | [] => None
                       end) seqs).

Definition c3_drop (h : exc_class) (s : list exc_class) : list exc_class :=
  match s with
  | x :: r => if decide (x = h) then r else s
  | [] => []
  end.

Fixpoint c3_merge (fuel : nat) (seqs : list (list exc_class))
  : option (list exc_class) :=
  match fuel with
  | 0 => None
  | S f =>
      let seqs := filter (fun s => s ≠ []) seqs in
      match seqs with
      | [] => Some []
      | _ => h ← c3_pick seqs;
             r ← c3_merge f (map (c3_drop h) seqs);
             Some (h :: r)
      end
  end.

Fixpoint c3_mro (fuel : nat) (c : exc_class) : option (list exc_class) :=
  match fuel with
  | 0 => None
  | S f =>
      ls ← mapM (c3_mro f) (bases c);
      r ← c3_merge 64 (ls ++ [bases c]);
      Some (c :: r)
  end.

(** ** The [try] statement

    An [except] clause names a class, a tuple of classes, or (by mistake)
    any other expression; CPython evaluates it only when an exception
    reaches it, and raises [TypeError] ("catching classes that do not
    inherit from BaseException is not allowed") when the value is not a
    class or a tuple of classes. *)
Inductive except_spec :=
| ExceptClass (c : exc_class)
| ExceptTuple (cs : list exc_class)
| ExceptInstance (c : exc_class).

(** [inr b]: the clause matches when [b]; [inl e]: evaluating the clause
    raises [e]. *)
Definition except_match (h : except_spec) (e : exc_class) : exc_class + bool :=
  match h with
  | ExceptClass c => inr (issubclass e c)
  | ExceptTuple cs => inr (existsb (issubclass e) cs)
  | ExceptInstance _ => inl TypeError
  end.

Section Try.
Context {S A : Type}.

Fixpoint run_handlers (hs : list (except_spec * SE exc_class S A))
         (e : exc_class) : SE exc_class S A :=
  match hs with
  | [] => se_raise e
  | (h, body) :: hs' =>
      match except_match h e with
      | inl e' => se_raise e'
      | inr true => body
      | inr false => run_handlers hs' e
      end
  end.

(** [try: m  except h1: b1  except h2: b2 ...] *)
Definition try_except (m : SE exc_class S A)
           (hs : list (except_spec * SE exc_class S A)) : SE exc_class S A :=
  fun s => match m s with
           | (inr a, s') => (inr a, s')
           | (inl e, s') => run_handlers hs e s'
           end.
End Try.

(** The typing rule of [try]: what the [try] block and every handler
    return, the statement returns. *)
Section TryTyping.
Context {S A : Type} (P : A -> Prop).

Lemma se_returns_run_handlers (hs : list (except_spec * SE exc_class S A)) e :
  Forall (fun h => se_returns P h.2) hs -> se_returns P (run_handlers hs e).
Proof.
  induction 1 as [|[h b] hs Hb _ IH]; simpl; [apply se_returns_raise|].
  destruct (except_match h e) as [e'|[|]]; auto with se_typing.
Qed.

Lemma se_returns_try (m : SE exc_class S A) hs :
  se_returns P m -> Forall (fun h => se_returns P h.2) hs -> se_returns P (try_except m hs).
Proof.
  intros Hm Hhs s a s'. unfold try_except. destruct (m s) as [[e|a'] s1] eqn:Hs.
  - by apply se_returns_run_handlers.
  - intros [= <- _]. by eapply Hm.
Qed.
End TryTyping.

#[export] Hint Resolve se_returns_try : se_typing.

(** ** Properties of the class table *)

(** The MRO table is the C3 linearisation of the bases: for every
    class, CPython's algorithm applied to [bases] yields exactly [mro]. *)
Theorem mro_is_c3_linearisation : forall c, c3_mro 8 c = Some (mro c).
Proof. decide_closed. Qed.

Lemma mro_head c : head (mro c) = Some c.
Proof. by destruct c. Qed.

Lemma issubclass_refl c : issubclass c c = true.
Proof. revert c. decide_closed. Qed.

Lemma issubclass_trans c d e :
  issubclass c d = true -> issubclass d e = true -> issubclass c e = true.
Proof. revert c d e. decide_closed. Qed.

Lemma issubclass_antisym c d :
  issubclass c d = true -> issubclass d c = true -> c = d.
Proof. revert c d. decide_closed. Qed.

Lemma issubclass_bases c b : b ∈ bases c -> issubclass c b = true.
Proof. revert c b. decide_closed. Qed.

Lemma issubclass_base_exception c : issubclass c BaseException = true.
Proof. by destruct c. Qed.

#[export] Hint Resolve issubclass_refl issubclass_base_exception : pydb.

(** ** The [try] statement, clause by clause *)
Section TryLemmas.
Context {S A : Type}.
Implicit Types (m b : SE exc_class S A) (hs : list (except_spec * SE exc_class S A)).

Lemma try_except_ok m hs s a s' :
  m s = (inr a, s') -> try_except m hs s = (inr a, s').
Proof. unfold try_except. by intros ->. Qed.

Lemma try_except_raise m hs s e s' :
  m s = (inl e, s') -> try_except m hs s = run_handlers hs e s'.
Proof. unfold try_except. by intros ->. Qed.

Lemma run_handlers_match c b hs e :
  issubclass e c = true -> run_handlers ((ExceptClass c, b) :: hs) e = b.
Proof. simpl. by intros ->. Qed.

Lemma run_handlers_skip c b hs e :
  issubclass e c = false ->
  run_handlers ((ExceptClass c, b) :: hs) e = run_handlers hs e.
Proof. simpl. by intros ->. Qed.

Lemma run_handlers_instance c b hs e :
  run_handlers ((ExceptInstance c, b) :: hs) e = se_raise TypeError.
Proof. done. Qed.
End TryLemmas.

End PyExc.
