(* ===== verification/PyValue.v ===== *)
(** * Python values of a JSON request body

    [request.json] decodes the body with Python's [json] module: objects
    become [dict]s (duplicate keys: the last value wins, at the position of
    the first occurrence), arrays [list]s, strings [str], integers [int],
    [true]/[false]/[null] the singletons.  The handler of
    [features/backend.py] then applies three Python operations to the
    decoded value: ["_id" in data], [data["_id"]] and [str(entry_id)].
    This file models the decoding and those three operations.

    JSON numbers with a fraction or exponent decode to [float]; their
    [str()] is never empty and they are not modelled (see the header of
    [Prelude]). *)

From S2P Require Import Prelude PyExc.
From Stdlib Require Import Ascii ZArith Lia.
Import PyExc.

#[local] Set Warnings "-register-all".

Module PyValue.

(** ** JSON documents and Python values *)

Inductive json :=
| JNull | JBool (b : bool) | JNum (z : Z) | JStr (s : pystr)
| JArr (xs : list json) | JObj (kvs : list (pystr * json)).

Inductive pyval :=
| PyNone | PyBool (b : bool) | PyInt (z : Z) | PyStr (s : pystr)
| PyList (xs : list pyval) | PyDict (kvs : list (pystr * pyval)).

(** ** [dict] as an insertion-ordered association list *)
Section Dict.
Context {A : Type}.

(** [d[k] = v]: update in place, or append a new key. *)
Fixpoint dict_set (k : pystr) (v : A) (d : list (pystr * A)) : list (pystr * A) :=
  match d with
  | [] => [(k, v)]
  | (k', v') :: d' =>
      if decide (k = k') then (k', v) :: d' else (k', v') :: dict_set k v d'
  end.

(** [dict(pairs)]. *)
Definition dict_of_pairs (ps : list (pystr * A)) : list (pystr * A) :=
  foldl (fun d kv => dict_set kv.1 kv.2 d) [] ps.

Fixpoint dict_get (k : pystr) (d : list (pystr * A)) : option A :=
  match d with
  | [] => None
  | (k', v) :: d' => if decide (k = k') then Some v else dict_get k d'
  end.
End Dict.

(** [json.loads] on a parsed document. *)
Fixpoint json_decode (j : json) : pyval :=
  match j with
  | JNull => PyNone
  | JBool b => PyBool b
  | JNum z => PyInt z
  | JStr s => PyStr s
  | JArr xs => PyList (map json_decode xs)
  | JObj kvs => PyDict (dict_of_pairs (map (fun kv => (kv.1, json_decode kv.2)) kvs))
  end.

(** ** [str()] and [repr()] *)

Definition hex_digit (n : nat) : ascii :=
  if n <? 10 then ascii_of_nat (48 + n) else ascii_of_nat (87 + n).

(** [\xHH], lower-case hexadecimal. *)
Definition hex_escape (a : ascii) : pystr :=
  let n := nat_of_ascii a in
  ["\"%char; "x"%char; hex_digit (n / 16); hex_digit (n mod 16)].

(** [str.isprintable()] on a Latin-1 code point. *)
Definition latin1_printable (a : ascii) : bool :=
  let n := nat_of_ascii a in
  (32 <=? n) && (n <? 127) || (161 <=? n) && negb (n =? 173).

(** One character of [repr(s)], inside quotes [q]
    (CPython [unicode_repr]). *)
Definition repr_char (q a : ascii) : pystr :=
  if decide (a = q) then ["\"%char; a]
  else if decide (a = "\"%char) then ["\"%char; "\"%char]
  else if decide (a = "009"%char) then «"\t"»
  else if decide (a = "010"%char) then «"\n"»
  else if decide (a = "013"%char) then «"\r"»
  else if latin1_printable a then [a]
  else hex_escape a.

(** [repr(s)] for a [str]: single quotes, unless the string holds a single
    quote and no double quote. *)
Definition str_repr (s : pystr) : pystr :=
  let q := if bool_decide ("'"%char ∈ s) && negb (bool_decide ("034"%char ∈ s))
           then "034"%char else "'"%char in
  q :: flat_map (repr_char q) s ++ [q].

Definition digit_char (n : N) : ascii := ascii_of_N (48 + n).

(** Decimal digits of [n], most significant first; [fuel] bounds the number
    of digits. *)
Fixpoint n_digits (fuel : nat) (n : N) : pystr :=
  match fuel with
  | O => []
  | S f =>
      if (n <? 10)%N then [digit_char n]
      else n_digits f (n / 10)%N ++ [digit_char (n mod 10)%N]
  end.

(** A number below [2 ^ k] has at most [k] decimal digits, so
    [N.size_nat n + 1] is enough fuel (see [n_digits_value]). *)
Definition n_to_dec (n : N) : pystr := n_digits (S (N.size_nat n)) n.

(** [str(z)] for an [int]. *)
Definition int_to_dec (z : Z) : pystr :=
  match z with
  | Z0 => «"0"»
  | Zpos p => n_to_dec (Npos p)
  | Zneg p => "-"%char :: n_to_dec (Npos p)
  end.

Fixpoint join_str (sep : pystr) (parts : list pystr) : pystr :=
  match parts with
  | [] => []
  | [p] => p
  | p :: ps => p ++ sep ++ join_str sep ps
  end.

(** [repr(v)], the form [str()] gives the items of a container. *)
Fixpoint py_repr (v : pyval) : pystr :=
  match v with
  | PyNone => «"None"»
  | PyBool true => «"True"»
  | PyBool false => «"False"»
  | PyInt z => int_to_dec z
  | PyStr s => str_repr s
  | PyList xs => "["%char :: join_str «", "» (map py_repr xs) ++ ["]"%char]
  | PyDict kvs =>
      "{"%char :: join_str «", "» (map (fun kv => str_repr kv.1 ++ «": "» ++ py_repr kv.2) kvs)
        ++ ["}"%char]
  end.

(** [str(v)]: the string itself for a [str], its [repr] otherwise. *)
Definition py_str (v : pyval) : pystr :=
  match v with
  | PyStr s => s
  | _ => py_repr v
  end.

(** ** [needle in v] and [v[key]] for a [str] needle and key *)

Definition is_str_eq (needle : pystr) (x : pyval) : bool :=
  match x with
  | PyStr s => bool_decide (s = needle)
  | _ => false
  end.

(** [dict]: key membership; [list]: an item equal to the needle; [str]:
    substring; anything else is not iterable and raises [TypeError]. *)
Definition py_contains (needle : pystr) (v : pyval) : exc_class + bool :=
  match v with
  | PyDict kvs => inr (bool_decide (needle ∈ kvs.*1))
  | PyList xs => inr (existsb (is_str_eq needle) xs)
  | PyStr s => inr (contains_sub needle s)
  | _ => inl TypeError
  end.

(** [list] and [str] indices must be integers; [None], [bool] and [int]
    are not subscriptable: both raise [TypeError]. *)
Definition py_getitem_str (v : pyval) (key : pystr) : exc_class + pyval :=
  match v with
  | PyDict kvs =>
      match dict_get key kvs with
      | Some x => inr x
      | None => inl KeyError
      end
  | _ => inl TypeError
  end.

(** [int(s)] on a string of decimal digits: the reference reading of a
    decimal numeral, against which [n_digits] is checked. *)
Definition dec_value (s : pystr) : N :=
  foldl (fun acc a => acc * 10 + (N_of_ascii a - 48))%N 0%N s.

(** ** Dictionaries *)
Section DictLemmas.
Context {A : Type}.
Implicit Types (d : list (pystr * A)) (ps : list (pystr * A)).

Lemma dict_get_set k k' v d :
  dict_get k (dict_set k' v d) = if decide (k = k') then Some v else dict_get k d.
Proof.
  induction d as [|[k0 v0] d IH]; simpl.
  - by repeat case_decide.
  - repeat (case_decide; simplify_eq/=); rewrite ?IH; repeat case_decide; congruence.
Qed.

Lemma dict_set_keys k v d :
  (dict_set k v d).*1 = if decide (k ∈ d.*1) then d.*1 else d.*1 ++ [k].
Proof.
  induction d as [|[k0 v0] d IH]; [done|].
  cbn [dict_set]. destruct (decide (k = k0)) as [->|Hk]; rewrite !fmap_cons; simpl fst.
  - rewrite decide_True; [done|set_solver].
  - rewrite IH. destruct (decide (k ∈ d.*1)), (decide (k ∈ k0 :: d.*1));
      set_solver.
Qed.

Lemma dict_set_nodup k v d : NoDup d.*1 -> NoDup (dict_set k v d).*1.
Proof.
  rewrite dict_set_keys. case_decide; [done|].
  intros Hd. apply NoDup_app. split_and!; [done| |by apply NoDup_singleton].
  set_solver.
Qed.

Lemma dict_get_elem k d : k ∈ d.*1 <-> is_Some (dict_get k d).
Proof.
  induction d as [|[k0 v0] d IH]; simpl.
  - split; [set_solver|]. by intros [? ?].
  - case_decide; subst; [split; [eauto|set_solver]|].
    rewrite <- IH. set_solver.
Qed.

Lemma foldl_dict_set_nodup ps d :
  NoDup d.*1 -> NoDup (foldl (fun d kv => dict_set kv.1 kv.2 d) d ps).*1.
Proof.
  revert d. induction ps as [|kv ps IH]; intros d Hd; [done|].
  apply IH, dict_set_nodup, Hd.
Qed.

Definition last_value k ps : option A :=
  last (omap (fun kv => if decide (k = kv.1) then Some kv.2 else None) ps).

Lemma dict_get_foldl k ps d :
  dict_get k (foldl (fun d kv => dict_set kv.1 kv.2 d) d ps) =
  match last_value k ps with Some v => Some v | None => dict_get k d end.
Proof.
  revert d. induction ps as [|[k0 v0] ps IH] using rev_ind; intros d; [done|].
  rewrite foldl_app. simpl. rewrite dict_get_set, IH.
  unfold last_value. rewrite omap_app. simpl.
  case_decide; simpl; rewrite ?last_app; simpl; [done|].
  by rewrite ?app_nil_r.
Qed.
End DictLemmas.

(** [dict(pairs)], as [json.loads] builds an object, keeps each key
    once and maps it to the value of its last occurrence in the document. *)
Theorem dict_of_pairs_spec {A} (ps : list (pystr * A)) :
  NoDup ((dict_of_pairs ps).*1) /\
  (forall k, dict_get k (dict_of_pairs ps) = last_value k ps).
Proof.
  split.
  - apply foldl_dict_set_nodup. constructor.
  - intros k. unfold dict_of_pairs. rewrite dict_get_foldl. by destruct (last_value k ps).
Qed.

(** ** [str()] *)

Lemma n_digits_nonempty f n : n_digits (S f) n ≠ [].
Proof. simpl. case_match; [done|]. intros Hn. by apply app_nil in Hn as [_ ?]. Qed.

Lemma int_to_dec_nonempty z : int_to_dec z ≠ [].
Proof. destruct z; [done|apply n_digits_nonempty|done]. Qed.

Lemma py_repr_nonempty v : py_repr v ≠ [].
Proof. destruct v as [|[]|z| | |]; try done. apply int_to_dec_nonempty. Qed.

(** [str(v)] is empty exactly for the empty string: the emptiness test
    of the handler ([if not entry_id]) rejects [""] and nothing else. *)
Theorem py_str_empty_iff v : py_str v = [] <-> v = PyStr [].
Proof.
  split; [|by intros ->].
  destruct v; simpl; intros H; try by destruct (py_repr_nonempty (PyNone)).
  all: try (exfalso; revert H; apply (py_repr_nonempty (PyBool _))).
  all: try (exfalso; revert H; apply int_to_dec_nonempty).
  all: by subst.
Qed.

Lemma dec_value_snoc s a :
  dec_value (s ++ [a]) = (dec_value s * 10 + (N_of_ascii a - 48))%N.
Proof. unfold dec_value. by rewrite foldl_app. Qed.

Lemma digit_char_value n : (n < 10)%N -> (N_of_ascii (digit_char n) - 48)%N = n.
Proof. intros Hn. unfold digit_char. rewrite N_ascii_embedding; lia. Qed.

Lemma n_digits_value f n : (n < 10 ^ N.of_nat f)%N -> dec_value (n_digits f n) = n.
Proof.
  revert n. induction f as [|f IH]; intros n Hn; simpl.
  - simpl in Hn. unfold dec_value. simpl. lia.
  - destruct (N.ltb_spec n 10).
    + unfold dec_value. simpl. rewrite digit_char_value; lia.
    + rewrite dec_value_snoc, IH, digit_char_value.
      * pose proof (N.div_mod n 10). lia.
      * apply N.mod_lt. lia.
      * apply N.Div0.div_lt_upper_bound. rewrite Nat2N.inj_succ, N.pow_succ_r' in Hn. lia.
Qed.

Lemma pos_lt_pow10_size p : (Npos p < 10 ^ N.of_nat (Pos.size_nat p))%N.
Proof.
  induction p as [p IH|p IH|]; simpl; rewrite ?Nat2N.inj_succ, ?N.pow_succ_r'; lia.
Qed.

Lemma n_to_dec_pos_value p : dec_value (n_to_dec (Npos p)) = Npos p.
Proof.
  apply n_digits_value. pose proof (pos_lt_pow10_size p).
  change (N.size_nat (Npos p)) with (Pos.size_nat p).
  rewrite Nat2N.inj_succ, N.pow_succ_r'. lia.
Qed.

(** [str(z)] of an [int] is a sign for negative numbers followed by a
    non-empty numeral whose decimal value is [|z|]: the fuel
    [N.size_nat n + 1] of [n_to_dec] is always enough. *)
Theorem int_to_dec_value z :
  exists d, int_to_dec z = (if (z <? 0)%Z then ["-"%char] else []) ++ d /\ d ≠ [] /\ dec_value d = Z.to_N (Z.abs z).
Proof.
  destruct z as [|p|p]; simpl.
  - by exists «"0"».
  - exists (n_to_dec (Npos p)). split_and!; [done|apply n_digits_nonempty|].
    apply n_to_dec_pos_value.
  - exists (n_to_dec (Npos p)). split_and!; [done|apply n_digits_nonempty|].
    apply n_to_dec_pos_value.
Qed.

(** ** [in] and subscription *)

Lemma py_contains_getitem_dict kvs k :
  py_contains k (PyDict kvs) = inr true ->
  exists v, py_getitem_str (PyDict kvs) k = inr v /\ dict_get k kvs = Some v.
Proof.
  simpl. intros [= Hb%bool_decide_eq_true]. apply dict_get_elem in Hb as [v Hv].
  exists v. by rewrite Hv.
Qed.

End PyValue.
