(* ===== verification/Json.v ===== *)
(** * JSON text: [json.loads] and Flask's [jsonify]

    Line 12 of [features/backend.py] reads [request.json]: Flask decodes
    the body and calls [json.loads] on it, and answers 400 when that
    raises a [ValueError].  Every [jsonify(...)] of the handler (lines 11,
    15, 19, 24, 26, 28) serialises a dict with Flask's default JSON
    provider: [json.dumps(obj, ensure_ascii=True, sort_keys=True,
    separators=(",", ":")) + "\n"] outside debug mode.

    This file models the two directions on text ([pystr], code points up to
    255) as CPython's C accelerator does them ([Modules/_json.c]):
    - [json_loads]: the scanner [scan_once_unicode] ([parse_value]) with
      [_parse_array_unicode] ([parse_elems_start], [parse_elems]),
      [_parse_object_unicode] ([parse_members_start], [parse_members]),
      [scanstring_unicode] in strict mode ([scan_string]) and
      [_match_number_unicode] ([parse_number]), then [JSONDecoder.decode]
      (surrounding whitespace, "Extra data").  Its outcome ([jresult]) is a
      document, a [ValueError] ([JError]: [JSONDecodeError], or [int()]
      refusing more than 4300 digits), a [RecursionError] ([JRecursion]:
      arrays and objects nested deeper than the interpreter's remaining
      recursion budget, a parameter), or [JOutside]: the text reaches a
      value the model does not represent (a float, [NaN], [Infinity], or a
      code point above 255), and the model does not say what follows.
    - [jsonify]: [to_json] turns a Python value into a document, sorting
      the keys of dicts, and [json_dumps] prints it with the compact
      separators and [ensure_ascii] ([py_encode_basestring_ascii]).

    Recursion in [parse_value] runs on fuel, which decreases along a chain
    of nested calls: [parse_value] consumes a character before it calls
    anything, and at most two calls ([parse_elems_start], [parse_elems])
    separate it from the next [parse_value], so three times the length of
    the text plus three is enough: any more fuel gives the same outcome
    ([parse_fuel], [json_loads_fuel]).  A printed document needs at most
    twice its length ([json_size_le]). *)

From S2P Require Import Prelude PyValue.
From Stdlib Require Import Ascii ZArith Lia.
Import PyValue.

Module Json.

(** ** Characters *)

Definition dquote : ascii := "034"%char.
Definition bslash : ascii := "092"%char.
Definition newline : ascii := "010"%char.

(** The JSON whitespace, [' \t\n\r']. *)
Definition is_ws (a : ascii) : bool :=
  bool_decide (a ∈ [" "%char; "009"%char; "010"%char; "013"%char]).

Fixpoint skip_ws (s : pystr) : pystr :=
  match s with
  | a :: s' => if is_ws a then skip_ws s' else s
  | [] => []
  end.

Definition is_digit (a : ascii) : bool := (48 <=? nat_of_ascii a) && (nat_of_ascii a <=? 57).

(** The digits at the front of [s], and what follows them. *)
Fixpoint span_digits (s : pystr) : pystr * pystr :=
  match s with
  | a :: s' => if is_digit a then let '(ds, r) := span_digits s' in (a :: ds, r) else ([], s)
  | [] => ([], [])
  end.

(** The value of one hexadecimal digit of a [\uXXXX] escape. *)
Definition hex_value (a : ascii) : option nat :=
  let n := nat_of_ascii a in
  if (48 <=? n) && (n <=? 57) then Some (n - 48)
  else if (97 <=? n) && (n <=? 102) then Some (n - 87)
  else if (65 <=? n) && (n <=? 70) then Some (n - 55)
  else None.

Definition hex4 (h1 h2 h3 h4 : ascii) : option nat :=
  match hex_value h1, hex_value h2, hex_value h3, hex_value h4 with
  | Some a, Some b, Some c, Some d => Some (((a * 16 + b) * 16 + c) * 16 + d)
  | _, _, _, _ => None
  end.

(** The one-character escapes: backslash followed by a double quote, a
    backslash, a slash, or one of [b f n r t]. *)
Definition simple_escape (e : ascii) : option ascii :=
  if decide (e = dquote) then Some dquote
  else if decide (e = bslash) then Some bslash
  else if decide (e = "/"%char) then Some "/"%char
  else if decide (e = "b"%char) then Some "008"%char
  else if decide (e = "f"%char) then Some "012"%char
  else if decide (e = "n"%char) then Some "010"%char
  else if decide (e = "r"%char) then Some "013"%char
  else if decide (e = "t"%char) then Some "009"%char
  else None.

(** ** The outcome of [json.loads] *)

Inductive jresult (A : Type) :=
| JOk (a : A)
| JError
| JRecursion
| JOutside.
Arguments JOk {A} a.
Arguments JError {A}.
Arguments JRecursion {A}.
Arguments JOutside {A}.

#[export] Instance jresult_ret : MRet jresult := @JOk.
#[export] Instance jresult_bind : MBind jresult := fun A B k m =>
  match m with
  | JOk a => k a
  | JError => JError
  | JRecursion => JRecursion
  | JOutside => JOutside
  end.

(** ** The scanner *)

(** [scanstring_unicode], strict: the body of a string after its opening
    quote, up to the closing quote.  A control character, an unknown
    escape, a malformed [\uXXXX] or a missing closing quote is an error; a
    [\uXXXX] above 255 (surrogates included) leaves the model. *)
Fixpoint scan_string (s : pystr) : jresult (pystr * pystr) :=
  match s with
  | [] => JError
  | a :: s' =>
      if decide (a = dquote) then mret ([], s')
      else if decide (a = bslash) then
        match s' with
        | e :: s'' =>
            if decide (e = "u"%char) then
              match s'' with
              | h1 :: h2 :: h3 :: h4 :: s3 =>
                  match hex4 h1 h2 h3 h4 with
                  | Some n =>
                      if n <? 256 then '(t, r) ← scan_string s3; mret (ascii_of_nat n :: t, r)
                      else JOutside
                  | None => JError
                  end
              | _ => JError
              end
            else
              match simple_escape e with
              | Some c => '(t, r) ← scan_string s''; mret (c :: t, r)
              | None => JError
              end
        | [] => JError
        end
      else if nat_of_ascii a <? 32 then JError
      else '(t, r) ← scan_string s'; mret (a :: t, r)
  end.

(** [sys.int_info.default_max_str_digits]: [int()] refuses longer
    numerals with a [ValueError]. *)
Definition max_str_digits : nat := 4300.

(** A fraction [.d] or an exponent [e[+-]d] after the integer part makes
    the number a float. *)
Definition float_tail (t : pystr) : bool :=
  match t with
  | a :: t' =>
      if decide (a = "."%char) then
        match t' with d :: _ => is_digit d | [] => false end
      else if decide (a = "e"%char \/ a = "E"%char) then
        match t' with
        | d :: t'' =>
            is_digit d ||
            (bool_decide (d = "+"%char \/ d = "-"%char) &&
             match t'' with d' :: _ => is_digit d' | [] => false end)
        | [] => false
        end
      else false
  | [] => false
  end.

Definition number_end (neg : bool) (ds t : pystr) : jresult (json * pystr) :=
  if float_tail t then JOutside
  else if max_str_digits <? length ds then JError
  else let n := Z.of_N (dec_value ds) in mret (JNum (if neg then (- n)%Z else n), t).

(** [_match_number_unicode]: an optional minus, then [0] or a non-zero
    digit followed by digits, then possibly a float tail. *)
Definition parse_number (s : pystr) : jresult (json * pystr) :=
  let '(neg, s1) :=
    match s with
    | a :: t => if decide (a = "-"%char) then (true, t) else (false, s)
    | [] => (false, s)
    end in
  match s1 with
  | a :: t =>
      if decide (a = "0"%char) then number_end neg [a] t
      else if is_digit a then let '(ds, t') := span_digits t in number_end neg (a :: ds) t'
      else JError
  | [] => JError
  end.

(** [scan_once_unicode] at the start of a value ([s] has no leading
    whitespace); [budget] is the number of arrays and objects that may
    still be entered before [Py_EnterRecursiveCall] fails. *)
Fixpoint parse_value (fuel budget : nat) (s : pystr) {struct fuel} : jresult (json * pystr) :=
  match fuel with
  | O => JError
  | S f =>
      match s with
      | [] => JError
      | a :: s' =>
          if decide (a = dquote) then '(t, r) ← scan_string s'; mret (JStr t, r)
          else if decide (a = "{"%char) then
            match budget with
            | O => JRecursion
            | S b => '(kvs, r) ← parse_members_start f b (skip_ws s'); mret (JObj kvs, r)
            end
          else if decide (a = "["%char) then
            match budget with
            | O => JRecursion
            | S b => '(xs, r) ← parse_elems_start f b (skip_ws s'); mret (JArr xs, r)
            end
          else if is_prefixb «"null"» s then mret (JNull, drop 4 s)
          else if is_prefixb «"true"» s then mret (JBool true, drop 4 s)
          else if is_prefixb «"false"» s then mret (JBool false, drop 5 s)
          else if is_prefixb «"NaN"» s || is_prefixb «"Infinity"» s || is_prefixb «"-Infinity"» s
          then JOutside
          else parse_number s
      end
  end
(** After [\[] and whitespace. *)
with parse_elems_start (fuel budget : nat) (s : pystr) {struct fuel} : jresult (list json * pystr) :=
  match fuel with
  | O => JError
  | S f =>
      match s with
      | a :: s' => if decide (a = "]"%char) then mret ([], s') else parse_elems f budget s
      | [] => JError
      end
  end
(** A value, then [,] and the next value, or [\]]. *)
with parse_elems (fuel budget : nat) (s : pystr) {struct fuel} : jresult (list json * pystr) :=
  match fuel with
  | O => JError
  | S f =>
      '(v, r) ← parse_value f budget s;
      match skip_ws r with
      | a :: r' =>
          if decide (a = ","%char) then '(vs, r2) ← parse_elems f budget (skip_ws r'); mret (v :: vs, r2)
          else if decide (a = "]"%char) then mret ([v], r')
          else JError
      | [] => JError
      end
  end
(** After [{] and whitespace. *)
with parse_members_start (fuel budget : nat) (s : pystr) {struct fuel}
    : jresult (list (pystr * json) * pystr) :=
  match fuel with
  | O => JError
  | S f =>
      match s with
      | a :: s' => if decide (a = "}"%char) then mret ([], s') else parse_members f budget s
      | [] => JError
      end
  end
(** A key, [:], a value, then [,] and the next member, or [}]. *)
with parse_members (fuel budget : nat) (s : pystr) {struct fuel}
    : jresult (list (pystr * json) * pystr) :=
  match fuel with
  | O => JError
  | S f =>
      match s with
      | a :: s' =>
          if decide (a = dquote) then
            '(k, r) ← scan_string s';
            match skip_ws r with
            | c :: r' =>
                if decide (c = ":"%char) then
                  '(v, r2) ← parse_value f budget (skip_ws r');
                  match skip_ws r2 with
                  | d :: r3 =>
                      if decide (d = ","%char) then
                        '(kvs, r4) ← parse_members f budget (skip_ws r3); mret ((k, v) :: kvs, r4)
                      else if decide (d = "}"%char) then mret ([(k, v)], r3)
                      else JError
                  | [] => JError
                  end
                else JError
            | [] => JError
            end
          else JError
      | [] => JError
      end
  end.

(** [json.loads(s)]: one value between optional whitespace. *)
Definition json_loads (budget : nat) (s : pystr) : jresult json :=
  '(j, r) ← parse_value (3 * length s + 3) budget (skip_ws s);
  if decide (skip_ws r = []) then mret j else JError.

(** ** The encoder *)

(** [py_encode_basestring_ascii] on one character: printable ASCII other
    than the double quote and the backslash as itself, those two and the
    control characters with a short escape as a backslash and a letter,
    [\u00XX] otherwise. *)
Definition esc_char (a : ascii) : pystr :=
  let n := nat_of_ascii a in
  if decide (a = dquote) then [bslash; dquote]
  else if decide (a = bslash) then [bslash; bslash]
  else if (32 <=? n) && (n <=? 126) then [a]
  else if decide (n = 8) then [bslash; "b"%char]
  else if decide (n = 12) then [bslash; "f"%char]
  else if decide (n = 10) then [bslash; "n"%char]
  else if decide (n = 13) then [bslash; "r"%char]
  else if decide (n = 9) then [bslash; "t"%char]
  else [bslash; "u"%char; "0"%char; "0"%char; hex_digit (n / 16); hex_digit (n mod 16)].

Definition dump_str (s : pystr) : pystr := dquote :: flat_map esc_char s ++ [dquote].

(** [json.dumps(j, ensure_ascii=True, separators=(",", ":"))]. *)
Fixpoint json_dumps (j : json) : pystr :=
  match j with
  | JNull => «"null"»
  | JBool true => «"true"»
  | JBool false => «"false"»
  | JNum z => int_to_dec z
  | JStr s => dump_str s
  | JArr xs => "["%char :: join_with ","%char (map json_dumps xs) ++ ["]"%char]
  | JObj kvs =>
      "{"%char :: join_with ","%char (map (fun kv => dump_str kv.1 ++ ":"%char :: json_dumps kv.2) kvs)
        ++ ["}"%char]
  end.

(** [str] ordering: code point by code point, a prefix first. *)
Fixpoint str_ltb (s t : pystr) : bool :=
  match s, t with
  | _, [] => false
  | [], _ :: _ => true
  | a :: s', b :: t' =>
      if nat_of_ascii a <? nat_of_ascii b then true
      else if decide (a = b) then str_ltb s' t' else false
  end.

Section Sort.
Context {A : Type}.

Fixpoint insert_item (kv : pystr * A) (l : list (pystr * A)) : list (pystr * A) :=
  match l with
  | [] => [kv]
  | kv' :: l' => if str_ltb kv'.1 kv.1 then kv' :: insert_item kv l' else kv :: l
  end.

(** [sorted(d.items())] on a dict, whose keys are distinct. *)
Definition sort_items (l : list (pystr * A)) : list (pystr * A) := foldr insert_item [] l.
End Sort.

(** The document [json.dumps] writes for a Python value, with
    [sort_keys=True]. *)
Fixpoint to_json (v : pyval) : json :=
  match v with
  | PyNone => JNull
  | PyBool b => JBool b
  | PyInt z => JNum z
  | PyStr s => JStr s
  | PyList xs => JArr (map to_json xs)
  | PyDict kvs => JObj (sort_items (map (fun kv => (kv.1, to_json kv.2)) kvs))
  end.

(** [jsonify(v)]: the body of the response. *)
Definition jsonify (v : pyval) : pystr := json_dumps (to_json v) ++ [newline].

(** ** Measures of a document *)

(** Every integer of the document has at most [max_str_digits] digits,
    so that [int()] and [str()] accept it. *)
Fixpoint json_ints_ok (j : json) : bool :=
  match j with
  | JNum z => length (n_to_dec (Z.abs_N z)) <=? max_str_digits
  | JArr xs => forallb json_ints_ok xs
  | JObj kvs => forallb (fun kv => json_ints_ok kv.2) kvs
  | _ => true
  end.

(** The nesting of arrays and objects, which [RecursionError] bounds. *)
Fixpoint json_depth (j : json) : nat :=
  match j with
  | JArr xs => S (list_max (map json_depth xs))
  | JObj kvs => S (list_max (map (fun kv => json_depth kv.2) kvs))
  | _ => 0
  end.

(** The fuel [parse_value] spends on the document. *)
Fixpoint json_size (j : json) : nat :=
  match j with
  | JArr xs => 2 + list_sum (map (fun x => S (json_size x)) xs)
  | JObj kvs => 2 + list_sum (map (fun kv => S (json_size kv.2)) kvs)
  | _ => 1
  end.

(** What may follow a value: the end, a separator, a closing bracket or
    whitespace. *)
Definition value_stop (r : pystr) : Prop :=
  match r with
  | [] => True
  | a :: _ => a ∈ [","%char; "]"%char; "}"%char] \/ is_ws a = true
  end.

(** Induction on documents through the lists of arrays and objects. *)
Section JsonInd.
Variable P : json -> Prop.
Hypothesis HNull : P JNull.
Hypothesis HBool : forall b, P (JBool b).
Hypothesis HNum : forall z, P (JNum z).
Hypothesis HStr : forall s, P (JStr s).
Hypothesis HArr : forall xs, Forall P xs -> P (JArr xs).
Hypothesis HObj : forall kvs, Forall (fun kv => P kv.2) kvs -> P (JObj kvs).

Fixpoint json_ind_nested (j : json) : P j :=
  match j with
  | JNull => HNull
  | JBool b => HBool b
  | JNum z => HNum z
  | JStr s => HStr s
  | JArr xs =>
      HArr xs ((fix go (l : list json) : Forall P l :=
                  match l with
                  | [] => Forall_nil_2 _
                  | x :: l' => Forall_cons_2 _ _ _ (json_ind_nested x) (go l')
                  end) xs)
  | JObj kvs =>
      HObj kvs ((fix go (l : list (pystr * json)) : Forall (fun kv => P kv.2) l :=
                   match l with
                   | [] => Forall_nil_2 _
                   | kv :: l' => Forall_cons_2 _ _ _ (json_ind_nested kv.2) (go l')
                   end) kvs)
  end.
End JsonInd.

(** ** Characters and numbers *)

Lemma is_digit_cases a :
  is_digit a = true -> a ∈ ["0"; "1"; "2"; "3"; "4"; "5"; "6"; "7"; "8"; "9"]%char.
Proof. destruct a as [[] [] [] [] [] [] [] []]; intros H; vm_compute in H; try discriminate; set_solver. Qed.

Lemma digit_char_is_digit n : (n < 10)%N -> is_digit (digit_char n) = true.
Proof.
  intros Hn. unfold is_digit, digit_char, nat_of_ascii. rewrite N_ascii_embedding by lia.
  apply andb_true_iff. split; apply Nat.leb_le; lia.
Qed.

Lemma n_digits_is_digit f n : Forall (fun a => is_digit a = true) (n_digits f n).
Proof.
  revert n. induction f as [|f IH]; intros n; simpl; [constructor|].
  destruct (n <? 10)%N eqn:Hlt; [apply N.ltb_lt in Hlt|].
  { constructor; [by apply digit_char_is_digit|constructor]. }
  apply Forall_app. split; [apply IH|]. constructor; [apply digit_char_is_digit, N.mod_lt; lia|constructor].
Qed.

(** A positive number is printed without a leading zero. *)
Lemma n_digits_head f n : (0 < n)%N -> (n < 10 ^ N.of_nat f)%N ->
  exists a t, n_digits f n = a :: t /\ a ≠ "0"%char.
Proof.
  revert n. induction f as [|f IH]; intros n Hpos Hlt; [simpl in Hlt; lia|]. simpl.
  destruct (n <? 10)%N eqn:H10; [apply N.ltb_lt in H10|apply N.ltb_ge in H10].
  - eexists _, []. split; [done|]. intros Ha.
    apply (f_equal N_of_ascii) in Ha. unfold digit_char in Ha. rewrite N_ascii_embedding in Ha by lia.
    change (N_of_ascii "0"%char) with 48%N in Ha. lia.
  - destruct (IH (n / 10)%N) as (a & t & -> & Ha).
    + apply N.div_str_pos. lia.
    + rewrite Nat2N.inj_succ, N.pow_succ_r' in Hlt. apply N.Div0.div_lt_upper_bound. lia.
    + by exists a, (t ++ [digit_char (n mod 10)%N]).
Qed.

Lemma n_to_dec_pos_shape p :
  exists a t, n_to_dec (Npos p) = a :: t /\ a ≠ "0"%char /\
    Forall (fun c => is_digit c = true) (a :: t) /\ dec_value (a :: t) = Npos p.
Proof.
  destruct (n_digits_head (S (N.size_nat (Npos p))) (Npos p)) as (a & t & Ht & Ha).
  - lia.
  - pose proof (pos_lt_pow10_size p). change (N.size_nat (Npos p)) with (Pos.size_nat p).
    rewrite Nat2N.inj_succ, N.pow_succ_r'. lia.
  - exists a, t. unfold n_to_dec. rewrite Ht. split_and!; [done|done| |].
    + rewrite <- Ht. apply n_digits_is_digit.
    + rewrite <- Ht. apply n_to_dec_pos_value.
Qed.

Lemma span_digits_app ds r :
  Forall (fun c => is_digit c = true) ds -> value_stop r -> span_digits (ds ++ r) = (ds, r).
Proof.
  intros Hds Hr. induction Hds as [|d ds Hd _ IH]; simpl.
  - destruct r as [|a r]; [done|]. simpl.
    destruct (is_digit a) eqn:Ha; [|done]. apply is_digit_cases in Ha. exfalso.
    destruct Hr as [Hr|Hr]; revert Hr; repeat (rewrite elem_of_cons in Ha; destruct Ha as [->|Ha]);
      try (rewrite elem_of_nil in Ha; done); vm_compute; set_solver.
  - by rewrite Hd, IH.
Qed.

Lemma float_tail_stop r : value_stop r -> float_tail r = false.
Proof.
  destruct r as [|a r]; [done|]. simpl. intros [Ha|Ha].
  - repeat (rewrite elem_of_cons in Ha; destruct Ha as [->|Ha]); [done|done|done|set_solver].
  - unfold is_ws in Ha. apply bool_decide_eq_true in Ha.
    repeat (rewrite elem_of_cons in Ha; destruct Ha as [->|Ha]); [done|done|done|done|set_solver].
Qed.

Lemma number_end_ok neg ds r :
  value_stop r -> length ds <= max_str_digits ->
  number_end neg ds r = JOk (JNum (if neg then (- Z.of_N (dec_value ds))%Z else Z.of_N (dec_value ds)), r).
Proof.
  intros Hr Hl. unfold number_end. rewrite float_tail_stop by done.
  by rewrite (proj2 (Nat.ltb_ge _ _)) by done.
Qed.

Lemma parse_number_digits (neg : bool) (a : ascii) (t r : pystr) :
  is_digit a = true -> a ≠ "0"%char -> Forall (fun c => is_digit c = true) t -> value_stop r ->
  parse_number ((if neg then ["-"%char] else []) ++ a :: t ++ r) = number_end neg (a :: t) r.
Proof.
  intros Ha Ha0 Ht Hr. apply is_digit_cases in Ha.
  destruct neg; repeat (rewrite elem_of_cons in Ha; destruct Ha as [->|Ha]);
    try (rewrite elem_of_nil in Ha; done); try done;
    unfold parse_number;
    do 2 (repeat first [rewrite decide_True by done | rewrite decide_False by done];
          cbn -[number_end span_digits]);
    by rewrite span_digits_app.
Qed.

(** [str(z)] read back by [_match_number_unicode]. *)
Lemma parse_number_int z r :
  json_ints_ok (JNum z) = true -> value_stop r -> parse_number (int_to_dec z ++ r) = JOk (JNum z, r).
Proof.
  intros Hok Hr. simpl in Hok. apply Nat.leb_le in Hok.
  destruct z as [|p|p].
  - change (int_to_dec 0 ++ r) with ("0"%char :: r). unfold parse_number.
    rewrite decide_False by done. cbn -[number_end]. rewrite decide_True by done.
    by rewrite number_end_ok.
  - destruct (n_to_dec_pos_shape p) as (a & t & Ht & Ha & Hd & Hv). simpl in Hok. rewrite Ht in Hok.
    inversion Hd as [|? ? Hda Hdt]; subst.
    change (int_to_dec (Zpos p)) with (n_to_dec (Npos p)). rewrite Ht.
    transitivity (number_end false (a :: t) r); [by apply (parse_number_digits false)|].
    rewrite number_end_ok by done. by rewrite Hv.
  - destruct (n_to_dec_pos_shape p) as (a & t & Ht & Ha & Hd & Hv). simpl in Hok. rewrite Ht in Hok.
    inversion Hd as [|? ? Hda Hdt]; subst.
    change (int_to_dec (Zneg p) ++ r) with (["-"%char] ++ n_to_dec (Npos p) ++ r). rewrite Ht.
    transitivity (number_end true (a :: t) r); [by apply (parse_number_digits true)|].
    rewrite number_end_ok by done. by rewrite Hv.
Qed.

(** ** Strings *)

Lemma scan_esc_char a t :
  scan_string (esc_char a ++ t) = '(x, r) ← scan_string t; mret (a :: x, r).
Proof. destruct a as [[] [] [] [] [] [] [] []]; reflexivity. Qed.

Lemma jbind_ok {A B} (a : A) (k : A -> jresult B) : (JOk a ≫= k) = k a.
Proof. done. Qed.

(** [scanstring] reads back what [py_encode_basestring_ascii] wrote. *)
Lemma scan_dump_str s r : scan_string (flat_map esc_char s ++ dquote :: r) = JOk (s, r).
Proof.
  induction s as [|a s IH]; [done|]. cbn [flat_map].
  by rewrite <- app_assoc, scan_esc_char, IH, jbind_ok.
Qed.

(** ** One step of the scanner *)

Lemma parse_value_str f b s :
  parse_value (S f) b (dquote :: s) = '(t, r) ← scan_string s; mret (JStr t, r).
Proof. reflexivity. Qed.

Lemma parse_value_arr f b s :
  parse_value (S f) (S b) ("["%char :: s) = '(xs, r) ← parse_elems_start f b (skip_ws s); mret (JArr xs, r).
Proof. reflexivity. Qed.

Lemma parse_value_obj f b s :
  parse_value (S f) (S b) ("{"%char :: s) = '(kvs, r) ← parse_members_start f b (skip_ws s); mret (JObj kvs, r).
Proof. reflexivity. Qed.

Lemma parse_value_int f b z r : parse_value (S f) b (int_to_dec z ++ r) = parse_number (int_to_dec z ++ r).
Proof.
  destruct z as [|p|p]; [reflexivity| |].
  - destruct (n_to_dec_pos_shape p) as (a & t & Ht & _ & Hd & _).
    change (int_to_dec (Zpos p)) with (n_to_dec (Npos p)). rewrite Ht.
    inversion Hd as [|? ? Ha _]; subst. apply is_digit_cases in Ha.
    repeat (rewrite elem_of_cons in Ha; destruct Ha as [->|Ha]); [reflexivity..|set_solver].
  - destruct (n_to_dec_pos_shape p) as (a & t & Ht & _ & Hd & _).
    change (int_to_dec (Zneg p) ++ r) with ("-"%char :: n_to_dec (Npos p) ++ r). rewrite Ht.
    inversion Hd as [|? ? Ha _]; subst. apply is_digit_cases in Ha.
    repeat (rewrite elem_of_cons in Ha; destruct Ha as [->|Ha]); [reflexivity..|set_solver].
Qed.

(** A printed document starts with a character that is neither
    whitespace nor a separator or closing bracket. *)
Lemma json_dumps_head j :
  exists a t, json_dumps j = a :: t /\ is_ws a = false /\ a ∉ [","%char; "]"%char; "}"%char].
Proof.
  destruct j as [|[]|z|s|xs|kvs]; try (eexists _, _; split; [reflexivity|split; [done|set_solver]]).
  destruct z as [|p|p]; try (eexists _, _; split; [reflexivity|split; [done|set_solver]]).
  destruct (n_to_dec_pos_shape p) as (a & t & Ht & _ & Hd & _).
  change (json_dumps (JNum (Zpos p))) with (n_to_dec (Npos p)). rewrite Ht.
  inversion Hd as [|? ? Ha _]; subst. apply is_digit_cases in Ha.
  exists a, t. split; [done|].
  repeat (rewrite elem_of_cons in Ha; destruct Ha as [->|Ha]); [split; [done|set_solver]..|set_solver].
Qed.

Lemma skip_ws_dumps j r : skip_ws (json_dumps j ++ r) = json_dumps j ++ r.
Proof. destruct (json_dumps_head j) as (a & t & -> & Hws & _). simpl. by rewrite Hws. Qed.

Lemma value_stop_sep a r : a ∈ [","%char; "]"%char; "}"%char] -> value_stop (a :: r).
Proof. by left. Qed.

#[local] Hint Resolve value_stop_sep : core.

(** A list of documents printed with a separator starts like its first
    document. *)
Lemma skip_ws_join {A} (g : A -> pystr) (c : ascii) y ys r :
  (forall r', skip_ws (g y ++ r') = g y ++ r') ->
  skip_ws (join_with c (map g (y :: ys)) ++ r) = join_with c (map g (y :: ys)) ++ r.
Proof. intros Hg. destruct ys; cbn [map join_with]; [apply Hg|]. rewrite <- app_assoc. apply Hg. Qed.

Definition dumps_parses (j : json) : Prop :=
  forall f b r, json_size j <= f -> json_depth j <= b -> json_ints_ok j = true -> value_stop r ->
    parse_value f b (json_dumps j ++ r) = JOk (j, r).

(** ** Arrays and objects *)

Lemma parse_elems_dumps xs :
  Forall dumps_parses xs -> xs ≠ [] ->
  forall f b r, list_sum (map (fun x => S (json_size x)) xs) <= f ->
    list_max (map json_depth xs) <= b -> forallb json_ints_ok xs = true ->
    parse_elems f b (join_with ","%char (map json_dumps xs) ++ "]"%char :: r) = JOk (xs, r).
Proof.
  induction 1 as [|x xs Hx Hxs IH]; [done|]. intros _ f b r Hf Hb Hok.
  simpl in Hf, Hb, Hok. apply andb_true_iff in Hok as [Hox Hoxs].
  destruct f as [|f]; [lia|]. cbn [parse_elems].
  destruct xs as [|y ys].
  - cbn [map join_with]. rewrite (Hx f b ("]"%char :: r)) by (auto; set_solver || lia).
    rewrite jbind_ok. cbn [skip_ws]. change (is_ws "]"%char) with false. cbn iota.
    by rewrite decide_False, decide_True.
  - change (join_with ","%char (map json_dumps (x :: y :: ys)))
      with (json_dumps x ++ ","%char :: join_with ","%char (map json_dumps (y :: ys))).
    rewrite <- app_assoc. cbn [app].
    rewrite (Hx f b) by (auto; set_solver || lia). rewrite jbind_ok.
    cbn [skip_ws]. change (is_ws ","%char) with false. cbn iota. rewrite decide_True by done.
    rewrite (skip_ws_join json_dumps) by apply skip_ws_dumps. rewrite (IH ltac:(done) f b r) by (simpl in *; lia || done).
    by rewrite jbind_ok.
Qed.

Lemma member_text k v rest :
  (dump_str k ++ ":"%char :: json_dumps v) ++ rest =
    dquote :: flat_map esc_char k ++ dquote :: ":"%char :: json_dumps v ++ rest.
Proof. unfold dump_str. cbn [app]. by rewrite <- !app_assoc. Qed.

Lemma parse_members_dumps kvs :
  Forall (fun kv => dumps_parses kv.2) kvs -> kvs ≠ [] ->
  forall f b r, list_sum (map (fun kv => S (json_size kv.2)) kvs) <= f ->
    list_max (map (fun kv => json_depth kv.2) kvs) <= b -> forallb (fun kv => json_ints_ok kv.2) kvs = true ->
    parse_members f b
      (join_with ","%char (map (fun kv => dump_str kv.1 ++ ":"%char :: json_dumps kv.2) kvs) ++ "}"%char :: r)
    = JOk (kvs, r).
Proof.
  induction 1 as [|[k v] kvs Hv Hkvs IH]; [done|]. intros _ f b r Hf Hb Hok.
  simpl in Hv, Hf, Hb, Hok. apply andb_true_iff in Hok as [Hov Hokvs].
  destruct f as [|f]; [lia|].
  destruct kvs as [|kv' kvs'].
  - cbn [map join_with fst snd]. rewrite member_text. cbn [parse_members].
    rewrite decide_True by done. rewrite scan_dump_str, jbind_ok. cbn [skip_ws].
    change (is_ws ":"%char) with false. cbn iota. rewrite decide_True by done.
    rewrite skip_ws_dumps, (Hv f b ("}"%char :: r)) by (auto; set_solver || lia).
    rewrite jbind_ok. cbn [skip_ws]. change (is_ws "}"%char) with false. cbn iota.
    by rewrite decide_False, decide_True.
  - change (join_with ","%char (map (fun kv => dump_str kv.1 ++ ":"%char :: json_dumps kv.2) ((k, v) :: kv' :: kvs')))
      with ((dump_str k ++ ":"%char :: json_dumps v) ++ ","%char ::
            join_with ","%char (map (fun kv => dump_str kv.1 ++ ":"%char :: json_dumps kv.2) (kv' :: kvs'))).
    rewrite <- app_assoc, member_text. cbn [app parse_members].
    rewrite decide_True by done. rewrite scan_dump_str, jbind_ok. cbn [skip_ws].
    change (is_ws ":"%char) with false. cbn iota. rewrite decide_True by done.
    rewrite skip_ws_dumps, (Hv f b) by (auto; set_solver || lia).
    rewrite jbind_ok. cbn [skip_ws]. change (is_ws ","%char) with false. cbn iota. rewrite decide_True by done.
    rewrite skip_ws_join; [|intros r'; unfold dump_str; reflexivity].
    rewrite (IH ltac:(done) f b r) by (simpl in *; lia || done).
    by rewrite jbind_ok.
Qed.

Lemma join_cons_head {A} (g : A -> pystr) (c : ascii) y ys r a t :
  g y = a :: t -> exists t', join_with c (map g (y :: ys)) ++ r = a :: t'.
Proof. intros Hy. destruct ys; cbn [map join_with]; rewrite Hy; by eexists. Qed.

Lemma parse_elems_start_cons f b a t :
  a ≠ "]"%char -> parse_elems_start (S f) b (a :: t) = parse_elems f b (a :: t).
Proof. intros Ha. cbn [parse_elems_start]. by rewrite decide_False. Qed.

Lemma parse_members_start_cons f b a t :
  a ≠ "}"%char -> parse_members_start (S f) b (a :: t) = parse_members f b (a :: t).
Proof. intros Ha. cbn [parse_members_start]. by rewrite decide_False. Qed.

Lemma dumps_arr_text xs r :
  json_dumps (JArr xs) ++ r = "["%char :: join_with ","%char (map json_dumps xs) ++ "]"%char :: r.
Proof. cbn [json_dumps app]. by rewrite <- app_assoc. Qed.

Lemma dumps_obj_text kvs r :
  json_dumps (JObj kvs) ++ r =
    "{"%char :: join_with ","%char (map (fun kv => dump_str kv.1 ++ ":"%char :: json_dumps kv.2) kvs)
      ++ "}"%char :: r.
Proof. cbn [json_dumps app]. by rewrite <- app_assoc. Qed.

(** The printed form of every document within the bounds is read back. *)
Lemma parse_value_dumps j : dumps_parses j.
Proof.
  induction j as [|bo|z|s|xs IH|kvs IH] using json_ind_nested;
    intros f b r Hf Hb Hok Hr; destruct f as [|f]; simpl in Hf; try lia.
  - reflexivity.
  - by destruct bo.
  - change (json_dumps (JNum z)) with (int_to_dec z). rewrite parse_value_int. by apply parse_number_int.
  - cbn [json_dumps]. unfold dump_str. cbn [app]. rewrite parse_value_str, <- app_assoc.
    cbn [app]. by rewrite scan_dump_str, jbind_ok.
  - simpl in Hb. destruct b as [|b]; [lia|]. rewrite dumps_arr_text, parse_value_arr.
    destruct f as [|f]; [lia|].
    destruct xs as [|x xs]; [reflexivity|].
    rewrite (skip_ws_join json_dumps) by apply skip_ws_dumps.
    destruct (json_dumps_head x) as (a & t & Hx & _ & Ha).
    destruct (join_cons_head json_dumps ","%char x xs ("]"%char :: r) a t Hx) as [t' Ht'].
    rewrite Ht', parse_elems_start_cons, <- Ht' by set_solver.
    rewrite (parse_elems_dumps (x :: xs) IH) by (done || simpl in *; lia).
    by rewrite jbind_ok.
  - simpl in Hb. destruct b as [|b]; [lia|]. rewrite dumps_obj_text, parse_value_obj.
    destruct f as [|f]; [lia|].
    destruct kvs as [|kv kvs]; [reflexivity|].
    rewrite skip_ws_join; [|intros r'; unfold dump_str; reflexivity].
    destruct (join_cons_head (fun kv => dump_str kv.1 ++ ":"%char :: json_dumps kv.2) ","%char kv kvs
                ("}"%char :: r) dquote _ eq_refl) as [t' Ht'].
    rewrite Ht', parse_members_start_cons, <- Ht' by done.
    rewrite (parse_members_dumps (kv :: kvs) IH) by (done || simpl in *; lia).
    by rewrite jbind_ok.
Qed.

(** ** Fuel *)

Lemma join_with_length {A} (g : A -> pystr) (c : ascii) xs :
  list_sum (map (fun x => S (length (g x))) xs) <= S (length (join_with c (map g xs))).
Proof.
  induction xs as [|y [|z zs] IH]; simpl in *; [lia|lia|].
  rewrite length_app. simpl. lia.
Qed.

Lemma list_sum_double {A} (f g : A -> nat) xs :
  Forall (fun x => f x <= 2 * g x) xs ->
  list_sum (map (fun x => S (f x)) xs) <= 2 * list_sum (map (fun x => S (g x)) xs).
Proof. induction 1; simpl; lia. Qed.

Lemma json_dumps_nonempty j : 1 <= length (json_dumps j).
Proof. destruct (json_dumps_head j) as (a & t & -> & _). simpl. lia. Qed.

(** The fuel a document needs is at most twice the length of its text. *)
Lemma json_size_le j : json_size j <= 2 * length (json_dumps j).
Proof.
  induction j as [|bo|z|s|xs IH|kvs IH] using json_ind_nested;
    try (match goal with |- json_size ?j <= _ =>
           assert (json_size j = 1) as -> by done; pose proof (json_dumps_nonempty j); lia end).
  - rewrite <- (app_nil_r (json_dumps (JArr xs))), dumps_arr_text.
    cbn [json_size length]. rewrite length_app. cbn [length].
    pose proof (join_with_length json_dumps ","%char xs).
    pose proof (list_sum_double json_size (fun x => length (json_dumps x)) xs IH). lia.
  - rewrite <- (app_nil_r (json_dumps (JObj kvs))), dumps_obj_text.
    cbn [json_size length]. rewrite length_app. cbn [length].
    pose proof (join_with_length (fun kv => dump_str kv.1 ++ ":"%char :: json_dumps kv.2) ","%char kvs).
    assert (Forall (fun kv => json_size kv.2 <= 2 * length (dump_str kv.1 ++ ":"%char :: json_dumps kv.2)) kvs).
    { eapply Forall_impl; [exact IH|]. intros kv Hkv. cbv beta in *. rewrite length_app. cbn [length]. lia. }
    pose proof (list_sum_double (fun kv => json_size kv.2)
                  (fun kv => length (dump_str kv.1 ++ ":"%char :: json_dumps kv.2)) kvs H0). lia.
Qed.

Lemma skip_ws_all w : Forall (fun a => is_ws a = true) w -> skip_ws w = [].
Proof. induction 1 as [|a w Ha _ IH]; simpl; [done|]. by rewrite Ha. Qed.

Lemma value_stop_ws w : Forall (fun a => is_ws a = true) w -> value_stop w.
Proof. destruct 1; simpl; auto. Qed.

(** [json.loads] on a printed document followed by whitespace. *)
Lemma json_loads_dumps_ws b j w :
  json_ints_ok j = true -> json_depth j <= b -> Forall (fun a => is_ws a = true) w ->
  json_loads b (json_dumps j ++ w) = JOk j.
Proof.
  intros Hok Hb Hw. unfold json_loads. rewrite skip_ws_dumps.
  rewrite parse_value_dumps; [|rewrite length_app; pose proof (json_size_le j); lia|done|done|by apply value_stop_ws].
  rewrite jbind_ok. by rewrite skip_ws_all, decide_True.
Qed.

(** Printing and parsing are inverse: [json.loads] gives back every
    document that [json.dumps] (compact, [ensure_ascii]) printed, with any
    whitespace after it, provided its integers have at most 4300 digits
    ([int()] refuses more) and its nesting fits the recursion budget
    (deeper nesting raises [RecursionError]). *)
Theorem json_roundtrip b j w :
  json_ints_ok j = true -> json_depth j <= b -> Forall (fun a => is_ws a = true) w ->
  json_loads b (json_dumps j ++ w) = JOk j /\ json_loads b (json_dumps j) = JOk j.
Proof.
  intros Hok Hb Hw. split; [by apply json_loads_dumps_ws|].
  rewrite <- (app_nil_r (json_dumps j)). by apply json_loads_dumps_ws.
Qed.

(** ** The fuel is never the limit

    Every scanner function leaves a strictly shorter rest ([parse_rest]),
    so along any chain of nested calls a character is consumed at least
    every three calls, and any fuel of at least three times the length of
    the text plus three gives the same outcome ([parse_fuel]): [json_loads]
    computes what the scanner computes, whatever the text. *)

Lemma jbind_inv {A B} (m : jresult A) (k : A -> jresult B) y :
  (m ≫= k) = JOk y -> exists x, m = JOk x /\ k x = JOk y.
Proof. destruct m; simpl; try discriminate. eauto. Qed.

Lemma scan_string_rest s t r : scan_string s = JOk (t, r) -> length r < length s.
Proof.
  revert t r. induction s as [s IH] using (well_founded_induction (Wf_nat.well_founded_ltof _ length)).
  intros t r H. destruct s as [|a s']; [done|]. cbn [scan_string] in H. unfold mret, jresult_ret in H.
  repeat (case_match; simplify_eq/=); 
  repeat match goal with
  | H : _ ≫= _ = JOk _ |- _ => apply jbind_inv in H as ([? ?] & ?H & ?H)
  end; simplify_eq/=; try lia.
  all: try (match goal with H : scan_string ?x = JOk _ |- _ => apply IH in H; unfold Wf_nat.ltof in *; simpl in *; lia end).
Qed.

Lemma skip_ws_length s : length (skip_ws s) <= length s.
Proof. induction s as [|a s IH]; simpl; [lia|]. destruct (is_ws a); simpl; lia. Qed.

Lemma span_digits_rest s ds r : span_digits s = (ds, r) -> length r <= length s.
Proof.
  revert ds r. induction s as [|a s IH]; intros ds r H; simpl in H; [simplify_eq/=; lia|].
  destruct (is_digit a); [|simplify_eq/=; lia].
  pose proof (IH _ _ (surjective_pairing (span_digits s))) as Hl.
  destruct (span_digits s) as [ds' r']. simplify_eq/=. lia.
Qed.

Lemma parse_number_rest s v r : parse_number s = JOk (v, r) -> length r < length s.
Proof.
  unfold parse_number, number_end, mret, jresult_ret. intros H.
  repeat (case_match; simplify_eq/=); try lia;
  match goal with E : span_digits _ = _ |- _ => apply span_digits_rest in E end; simpl in *; lia.
Qed.

Lemma is_prefixb_length p s : is_prefixb p s = true -> length (drop (length p) s) + length p = length s.
Proof. intros [r ->]%is_prefixb_spec. rewrite drop_app_length, length_app. lia. Qed.

Ltac jstep :=
  match goal with
  | H : JOk _ = JOk _ |- _ => injection H as <- <-
  | H : JError = JOk _ |- _ => discriminate H
  | H : JRecursion = JOk _ |- _ => discriminate H
  | H : JOutside = JOk _ |- _ => discriminate H
  | H : _ ≫= _ = JOk _ |- _ => apply jbind_inv in H as ([? ?] & ?H & ?H); cbv beta iota in H
  | H : match ?x with _ => _ end = JOk _ |- _ => destruct x eqn:?
  end.

Ltac rest_facts :=
  repeat match goal with
  | E : skip_ws ?x = ?y |- _ =>
      let L := fresh in pose proof (skip_ws_length x) as L; rewrite E in L; clear E
  | E : scan_string _ = JOk _ |- _ => apply scan_string_rest in E
  | E : parse_number _ = JOk _ |- _ => apply parse_number_rest in E
  | E : is_prefixb _ _ = true |- _ => apply is_prefixb_length in E
  | H : context [skip_ws ?x] |- _ =>
      lazymatch goal with
      | _ : length (skip_ws x) <= length x |- _ => fail
      | _ => pose proof (skip_ws_length x)
      end
  end.

Lemma parse_rest f :
  (forall b s v r, parse_value f b s = JOk (v, r) -> length r < length s) /\
  (forall b s v r, parse_elems_start f b s = JOk (v, r) -> length r < length s) /\
  (forall b s v r, parse_elems f b s = JOk (v, r) -> length r < length s) /\
  (forall b s v r, parse_members_start f b s = JOk (v, r) -> length r < length s) /\
  (forall b s v r, parse_members f b s = JOk (v, r) -> length r < length s).
Proof.
  induction f as [|f (IHv & IHes & IHe & IHms & IHm)]; [split_and!; done|].
  split_and!; intros b s v r H; cbn [parse_value parse_elems_start parse_elems parse_members_start parse_members] in H;
    unfold mret, jresult_ret in H; repeat jstep.
  all: repeat match goal with
       | E : parse_value _ _ _ = JOk _ |- _ => apply IHv in E
       | E : parse_elems_start _ _ _ = JOk _ |- _ => apply IHes in E
       | E : parse_elems _ _ _ = JOk _ |- _ => apply IHe in E
       | E : parse_members_start _ _ _ = JOk _ |- _ => apply IHms in E
       | E : parse_members _ _ _ = JOk _ |- _ => apply IHm in E
       end; rest_facts; subst; simpl in *; lia.
Qed.


Definition fuel_ok (s : pystr) : Prop :=
  (forall b f1 f2, 3 * length s + 1 <= f1 -> 3 * length s + 1 <= f2 -> parse_value f1 b s = parse_value f2 b s) /\
  (forall b f1 f2, 3 * length s + 2 <= f1 -> 3 * length s + 2 <= f2 -> parse_elems f1 b s = parse_elems f2 b s) /\
  (forall b f1 f2, 3 * length s + 3 <= f1 -> 3 * length s + 3 <= f2 ->
     parse_elems_start f1 b s = parse_elems_start f2 b s) /\
  (forall b f1 f2, 3 * length s + 2 <= f1 -> 3 * length s + 2 <= f2 -> parse_members f1 b s = parse_members f2 b s) /\
  (forall b f1 f2, 3 * length s + 3 <= f1 -> 3 * length s + 3 <= f2 ->
     parse_members_start f1 b s = parse_members_start f2 b s).

Lemma fuel_ok_step s : (forall s', length s' < length s -> fuel_ok s') -> fuel_ok s.
Proof.
  intros IHs.
  assert (Hv : forall b f1 f2, 3 * length s + 1 <= f1 -> 3 * length s + 1 <= f2 ->
                 parse_value f1 b s = parse_value f2 b s).
  { intros b f1 f2 H1 H2. destruct f1 as [|g1]; [lia|]. destruct f2 as [|g2]; [lia|].
    cbn [parse_value]. destruct s as [|a s']; [done|]. simpl in H1, H2.
    pose proof (skip_ws_length s').
    destruct (decide (a = dquote)); [done|].
    destruct (decide (a = "{"%char)).
    { destruct b as [|b]; [done|].
      rewrite (proj2 (proj2 (proj2 (proj2 (IHs (skip_ws s') ltac:(simpl; lia))))) b g1 g2) by lia. done. }
    destruct (decide (a = "["%char)); [|done].
    destruct b as [|b]; [done|].
    rewrite (proj1 (proj2 (proj2 (IHs (skip_ws s') ltac:(simpl; lia)))) b g1 g2) by lia. done. }
  assert (He : forall b f1 f2, 3 * length s + 2 <= f1 -> 3 * length s + 2 <= f2 ->
                 parse_elems f1 b s = parse_elems f2 b s).
  { intros b f1 f2 H1 H2. destruct f1 as [|g1]; [lia|]. destruct f2 as [|g2]; [lia|].
    cbn [parse_elems]. rewrite (Hv b g1 g2) by lia.
    destruct (parse_value g2 b s) as [[v r]| | |] eqn:E; try done. rewrite !jbind_ok. cbv beta iota.
    pose proof (proj1 (parse_rest g2) _ _ _ _ E) as Hr.
    pose proof (skip_ws_length r) as Hsr. destruct (skip_ws r) as [|c r'] eqn:Er; [done|]. simpl in Hsr.
    destruct (decide (c = ","%char)); [|done].
    pose proof (skip_ws_length r').
    rewrite (proj1 (proj2 (IHs (skip_ws r') ltac:(lia))) b g1 g2) by lia. done. }
  assert (Hes : forall b f1 f2, 3 * length s + 3 <= f1 -> 3 * length s + 3 <= f2 ->
                  parse_elems_start f1 b s = parse_elems_start f2 b s).
  { intros b f1 f2 H1 H2. destruct f1 as [|g1]; [lia|]. destruct f2 as [|g2]; [lia|].
    cbn [parse_elems_start]. destruct s as [|a s']; [done|].
    destruct (decide (a = "]"%char)); [done|]. apply He; lia. }
  assert (Hm : forall b f1 f2, 3 * length s + 2 <= f1 -> 3 * length s + 2 <= f2 ->
                 parse_members f1 b s = parse_members f2 b s).
  { intros b f1 f2 H1 H2. destruct f1 as [|g1]; [lia|]. destruct f2 as [|g2]; [lia|].
    cbn [parse_members]. destruct s as [|a s']; [done|]. simpl in H1, H2.
    destruct (decide (a = dquote)); [|done].
    destruct (scan_string s') as [[k r]| | |] eqn:Ek; try done. rewrite !jbind_ok. cbv beta iota.
    apply scan_string_rest in Ek.
    pose proof (skip_ws_length r) as Hsr. destruct (skip_ws r) as [|c r'] eqn:Er; [done|]. simpl in Hsr.
    destruct (decide (c = ":"%char)); [|done].
    pose proof (skip_ws_length r').
    rewrite (proj1 (IHs (skip_ws r') ltac:(simpl; lia)) b g1 g2) by lia.
    destruct (parse_value g2 b (skip_ws r')) as [[v r2]| | |] eqn:E2; try done. rewrite !jbind_ok. cbv beta iota.
    pose proof (proj1 (parse_rest g2) _ _ _ _ E2) as Hr2.
    pose proof (skip_ws_length r2) as Hsr2. destruct (skip_ws r2) as [|d r3] eqn:Er2; [done|]. simpl in Hsr2.
    destruct (decide (d = ","%char)); [|done].
    pose proof (skip_ws_length r3).
    rewrite (proj1 (proj2 (proj2 (proj2 (IHs (skip_ws r3) ltac:(simpl; lia))))) b g1 g2) by lia. done. }
  assert (Hms : forall b f1 f2, 3 * length s + 3 <= f1 -> 3 * length s + 3 <= f2 ->
                  parse_members_start f1 b s = parse_members_start f2 b s).
  { intros b f1 f2 H1 H2. destruct f1 as [|g1]; [lia|]. destruct f2 as [|g2]; [lia|].
    cbn [parse_members_start]. destruct s as [|a s']; [done|].
    destruct (decide (a = "}"%char)); [done|]. apply Hm; lia. }
  by split_and!.
Qed.

Lemma parse_fuel s : fuel_ok s.
Proof.
  induction s as [s IH] using (well_founded_induction (Wf_nat.well_founded_ltof _ length)).
  apply fuel_ok_step. intros s' Hs'. by apply IH.
Qed.

(** [json_loads] with any more fuel: the same outcome. *)
Lemma json_loads_fuel b s f :
  3 * length s + 3 <= f ->
  ('(j, r) ← parse_value f b (skip_ws s); if decide (skip_ws r = []) then mret j else JError) = json_loads b s.
Proof.
  intros Hf. unfold json_loads. pose proof (skip_ws_length s).
  by rewrite (proj1 (parse_fuel (skip_ws s)) b f (3 * length s + 3)) by lia.
Qed.

(** ** Examples *)

(** Nesting beyond the recursion budget raises [RecursionError], which is
    not a [ValueError]: Flask's [get_json] does not turn it into a 400. *)
Lemma json_loads_nesting_limit :
  json_loads 2 «"[[[]]]"» = JRecursion /\ json_loads 3 «"[[[]]]"» = JOk (JArr [JArr [JArr []]]).
Proof. split; reflexivity. Qed.

Lemma span_digits_nines k : span_digits (repeat "9"%char k) = (repeat "9"%char k, []).
Proof. induction k as [|k IH]; [done|]. cbn [repeat span_digits]. by rewrite IH. Qed.

(** [int()] refuses a numeral of more than 4300 digits with a
    [ValueError], which Flask answers with its generic 400 page. *)
Lemma json_loads_int_limit b k :
  max_str_digits < k -> json_loads b (repeat "9"%char k) = JError.
Proof.
  intros Hk. destruct k as [|k]; [unfold max_str_digits in Hk; lia|].
  unfold json_loads. cbn [repeat skip_ws]. change (is_ws "9"%char) with false. cbn iota.
  replace (3 * length ("9"%char :: repeat "9"%char k) + 3) with (S (3 * S k + 2))
    by (rewrite length_cons, repeat_length; lia).
  change (parse_value (S (3 * S k + 2)) b ("9"%char :: repeat "9"%char k))
    with (parse_number ("9"%char :: repeat "9"%char k)).
  unfold parse_number. rewrite decide_False by done. cbn iota. rewrite decide_False by done.
  change (is_digit "9"%char) with true. cbn iota. rewrite span_digits_nines.
  unfold number_end. change (float_tail []) with false. cbn iota.
  rewrite (proj2 (Nat.ltb_lt _ _)); [done|]. rewrite length_cons, repeat_length. lia.
Qed.

(** What the parser does with the text of a float, [NaN], a code point
    above 255, a trailing comma and a leading zero. *)
Lemma json_loads_edges :
  json_loads 1 «"1.5"» = JOutside /\ json_loads 1 «"NaN"» = JOutside /\
  json_loads 1 ([dquote; bslash] ++ «"u0100"» ++ [dquote]) = JOutside /\
  json_loads 1 «"[1,]"» = JError /\ json_loads 1 «"01"» = JError /\ json_loads 1 «"1."» = JError.
Proof. split_and!; reflexivity. Qed.

End Json.
