(* ===== verification/Namespace.v ===== *)
(** * Module namespaces: the imports and top-level definitions

    A Python module's global namespace is built by its top-level
    statements in order: each [import] and [from ... import], each
    assignment and each [def] binds a name, a later binding replacing an
    earlier one ([dict_of_pairs]).  A function body looks its free names
    up there at run time ([load_global]).  This file holds the objects the
    names of the three files denote and the namespaces of
    [features/backend.py] and of the checkpoint draft; the first draft's
    namespace is in Legacy.v, whose view looks every name up.  The lemmas
    show that the names the two later views read denote what the handler
    models take them to be. *)

From S2P Require Import Prelude PyExc PyValue.
From Stdlib Require Import Ascii String.
Import PyExc PyValue.

Module Namespace.

(** What a global name of the modules can denote. *)
Inductive gobj :=
| GModule (name : pystr)
| GClass (name : pystr)
| GFlaskApp
| GFunction (name : pystr)
| GRequestProxy
| GStr (s : pystr).

(** A global name in a function body: [NameError] when unbound (none of the
    names looked up in the models is a builtin). *)
Definition load_global (g : list (pystr * gobj)) (x : pystr) : exc_class + gobj :=
  match dict_get x g with
  | Some o => inr o
  | None => inl NameError
  end.

(** [features/backend.py], lines 1-4: [import qrcode], [import os],
    [from pathlib import PurePath], [from flask import Flask, request,
    jsonify]. *)
Definition features_imports : list (pystr * gobj) :=
  [(«"qrcode"», GModule «"qrcode"»); («"os"», GModule «"os"»); («"PurePath"», GClass «"PurePath"»);
   («"Flask"», GClass «"Flask"»); («"request"», GRequestProxy); («"jsonify"», GFunction «"jsonify"»)].

(** Lines 6, 8-9 and 30-31: [app = Flask(__name__)] and the two [def]s
    ([app.route] returns the function it registers). *)
Definition features_bindings : list (pystr * gobj) :=
  features_imports ++
  [(«"app"», GFlaskApp); («"generate_qr_code"», GFunction «"generate_qr_code"»);
   («"main"», GFunction «"main"»)].

Definition features_globals : list (pystr * gobj) := dict_of_pairs features_bindings.

(** The checkpoint draft, lines 1-3: [import qrcode], [from pathlib import
    PurePath], [from flask import Flask, request]. *)
Definition checkpoint_imports : list (pystr * gobj) :=
  [(«"qrcode"», GModule «"qrcode"»); («"PurePath"», GClass «"PurePath"»);
   («"Flask"», GClass «"Flask"»); («"request"», GRequestProxy)].

(** Lines 5, 7-8 and 21-22. *)
Definition checkpoint_bindings : list (pystr * gobj) :=
  checkpoint_imports ++
  [(«"app"», GFlaskApp); («"generate_qr_code"», GFunction «"generate_qr_code"»);
   («"main"», GFunction «"main"»)].

Definition checkpoint_globals : list (pystr * gobj) := dict_of_pairs checkpoint_bindings.

(** The module-level names each view reads, with what the handler models
    take them to denote: [request] is Flask's request proxy, [qrcode] the
    module whose [make] is [qr_make], [os] the module whose calls are the
    [OS] interface, [PurePath] the class of PurePath.v, [jsonify] Flask's
    function.  ([str], [ValueError] and [OSError] are builtins.) *)
Definition features_reads : list (pystr * gobj) :=
  [(«"request"», GRequestProxy); («"jsonify"», GFunction «"jsonify"»); («"qrcode"», GModule «"qrcode"»);
   («"os"», GModule «"os"»); («"PurePath"», GClass «"PurePath"»)].

Definition checkpoint_reads : list (pystr * gobj) :=
  [(«"request"», GRequestProxy); («"qrcode"», GModule «"qrcode"»); («"PurePath"», GClass «"PurePath"»)].

(** Every name of [reads] denotes its object in [g]. *)
Definition resolves (g reads : list (pystr * gobj)) : Prop :=
  Forall (fun '(x, o) => load_global g x = inr o) reads.

#[export] Instance gobj_eq_dec : EqDecision gobj.
Proof. solve_decision. Defined.

#[export] Instance resolves_dec g reads : Decision (resolves g reads).
Proof. unfold resolves. apply Forall_dec. intros [x o]. solve_decision. Defined.

(** The names the current handler reads denote what its model uses. *)
Lemma features_names_resolve : resolves features_globals features_reads.
Proof. decide_closed. Qed.

Lemma checkpoint_names_resolve : resolves checkpoint_globals checkpoint_reads.
Proof. decide_closed. Qed.

End Namespace.
