(* ===== verification/PurePath.v ===== *)
(** * [pathlib.PurePosixPath]

    [features/backend.py] and the checkpoint build the file name with
    [PurePath("imgs", entry_id + ".png")] and hand it to [Image.save], which
    calls [os.fspath] on it, that is [str(path)].  On Linux [PurePath] is
    [PurePosixPath]; this file models, after CPython 3.12 ([Lib/pathlib.py],
    [Lib/posixpath.py]):
    - [posixpath.join] of the arguments ([PurePath._load_parts]),
    - [posixpath.splitroot] and [PurePath._parse_path],
    - [PurePath._format_parsed_parts] and [__str__].
    The main facts: printing and parsing are inverse on parsed paths; a
    name without a slash is joined below ["imgs"] as one component, while a
    name that starts with a slash replaces ["imgs"] altogether; the printed
    path ends with the suffix of the last argument (["<id>.png"] always
    ends in [".png"]) and holds no character but slashes, dots and those of
    the arguments. *)

From S2P Require Import Prelude.
From Stdlib Require Import Ascii.

Module PurePath.

(** A parsed path: its root (["" ], ["/"] or ["//"]) and its parts. *)
Record purepath := mk_purepath { pp_root : pystr; pp_parts : list pystr }.

(** [posixpath.join(a, *p)]. *)
Definition posix_join (a : pystr) (bs : list pystr) : pystr :=
  foldl (fun path b =>
           match b with
           | c :: _ => if decide (c = slash) then b
                      else match last path with
                           | None => path ++ b
                           | Some l => if decide (l = slash) then path ++ b
                                       else path ++ slash :: b
                           end
           | [] => match last path with
                  | None => path ++ b
                  | Some l => if decide (l = slash) then path ++ b else path ++ [slash]
                  end
           end) a bs.

(** [posixpath.splitroot(p)] without the (empty) drive: one slash or three
    and more give the root ["/"] and keep the others in the rest; exactly
    two give the root ["//"]. *)
Definition splitroot (p : pystr) : pystr * pystr :=
  match p with
  | c1 :: r1 =>
      if decide (c1 = slash) then
        match r1 with
        | c2 :: r2 =>
            if decide (c2 = slash) then
              match r2 with
              | c3 :: _ => if decide (c3 = slash) then ([slash], r1) else ([slash; slash], r2)
              | [] => ([slash; slash], r2)
              end
            else ([slash], r1)
        | [] => ([slash], r1)
        end
      else ([], p)
  | [] => ([], p)
  end.

Definition part_kept (x : pystr) : Prop := x ≠ [] /\ x ≠ ["."%char].

#[export] Instance part_kept_dec x : Decision (part_kept x).
Proof. unfold part_kept. apply _. Defined.

(** [PurePath._parse_path]: empty parts and ["."] parts are dropped. *)
Definition parse_path (p : pystr) : purepath :=
  let (root, rel) := splitroot p in
  mk_purepath root (filter part_kept (split_on slash rel)).

(** [str(path)]: the root, the parts joined by slashes, or ["."]. *)
Definition format_path (pp : purepath) : pystr :=
  match pp_root pp ++ join_with slash (pp_parts pp) with
  | [] => ["."%char]
  | s => s
  end.

(** [PurePath( *args)] with [str] arguments. *)
Definition purepath_of (args : list pystr) : purepath :=
  match args with
  | [] => parse_path []
  | a :: bs => parse_path (posix_join a bs)
  end.

Definition purepath_str (args : list pystr) : pystr := format_path (purepath_of args).

(** ** A parsed path is well formed *)

Definition wf_root (r : pystr) : Prop := r = [] \/ r = [slash] \/ r = [slash; slash].

Definition wf_purepath (pp : purepath) : Prop :=
  wf_root (pp_root pp) /\
  Forall (fun x => part_kept x /\ slash ∉ x) (pp_parts pp).

(** ** Parsing and printing *)

Lemma splitroot_wf p : wf_root (splitroot p).1.
Proof.
  unfold splitroot, wf_root.
  repeat (case_match || case_decide); simpl; auto.
Qed.

(** Every string parses to a well-formed path: a root among [""], ["/"],
    ["//"] and parts that are neither empty nor ["."] and hold no slash. *)
Lemma parse_path_wellformed p : wf_purepath (parse_path p).
Proof.
  unfold parse_path. pose proof (splitroot_wf p) as Hr.
  destruct (splitroot p) as [root rel]. split; [done|]. simpl.
  apply Forall_forall. intros x Hx.
  apply list_elem_of_filter in Hx as [Hk Hx]. split; [done|].
  by eapply split_on_parts_no_sep.
Qed.

Lemma join_parts_head (parts : list pystr) :
  parts ≠ [] -> Forall (fun x => part_kept x /\ slash ∉ x) parts ->
  exists x r, join_with slash parts = x :: r /\ x ≠ slash.
Proof.
  intros Hne Hall. destruct parts as [|p ps]; [done|].
  apply Forall_cons in Hall as [[Hk Hs] _].
  destruct p as [|x r]; [by destruct Hk|].
  exists x, (r ++ match ps with [] => [] | _ => slash :: join_with slash ps end).
  split; [by apply join_with_head|]. intros ->. apply Hs. left.
Qed.

Lemma filter_kept_all (parts : list pystr) :
  Forall (fun x => part_kept x /\ slash ∉ x) parts -> filter part_kept parts = parts.
Proof.
  intros Hall. apply filter_Forall_id. by eapply Forall_impl; [exact Hall|]; intros x [? _].
Qed.

Lemma parse_relative_parts (parts : list pystr) :
  Forall (fun x => part_kept x /\ slash ∉ x) parts ->
  filter part_kept (split_on slash (join_with slash parts)) = parts.
Proof.
  intros Hall. destruct parts as [|p ps]; [done|].
  rewrite split_join; [by apply filter_kept_all|done|].
  eapply Forall_impl; [exact Hall|]. by intros x [_ ?].
Qed.

Lemma splitroot_app root x r :
  wf_root root -> x ≠ slash -> splitroot (root ++ x :: r) = (root, x :: r).
Proof.
  intros [-> | [-> | ->]] Hx; unfold splitroot; simpl;
    repeat (case_decide; try congruence); done.
Qed.

(** Printing then parsing a well-formed path gives it back. *)
Lemma parse_format_inv pp : wf_purepath pp -> parse_path (format_path pp) = pp.
Proof.
  destruct pp as [root parts]. intros [Hroot Hparts]; simpl in *.
  unfold format_path, parse_path; simpl.
  destruct parts as [|p ps].
  - destruct Hroot as [-> | [-> | ->]]; reflexivity.
  - destruct (join_parts_head (p :: ps)) as (x & r & Hj & Hx); [done|done|].
    unfold format_path; cbn [pp_root pp_parts]. rewrite Hj.
    replace (match root ++ x :: r with [] => _ | _ :: _ => _ end) with (root ++ x :: r)
      by (by destruct root).
    unfold parse_path. rewrite splitroot_app by done.
    rewrite <- Hj. by rewrite parse_relative_parts.
Qed.

(** ** Joining a file name below a directory *)

Definition png_suffix : pystr := «".png"».

Lemma posix_join_imgs b :
  head b ≠ Some slash -> posix_join «"imgs"» [b] = «"imgs"» ++ slash :: b.
Proof.
  intros Hb. unfold posix_join. simpl.
  destruct b as [|c b]; simpl; [done|].
  destruct (decide (c = slash)) as [->|Hc]; [done|]. reflexivity.
Qed.

Lemma png_name_kept s : slash ∉ s -> part_kept (s ++ png_suffix) /\ slash ∉ s ++ png_suffix.
Proof.
  intros Hs. split; [split|].
  - by destruct s.
  - destruct s as [|a [|b s]]; simpl; done.
  - rewrite elem_of_app. intros [?|Hp]; [done|]. unfold png_suffix in Hp. vm_compute in Hp. set_solver.
Qed.

Lemma png_name_head s : slash ∉ s -> head (s ++ png_suffix) ≠ Some slash.
Proof.
  destruct s as [|a s]; intros Hs; simpl.
  - intros H. vm_compute in H. congruence.
  - intros [= ->]. apply Hs. left.
Qed.

(** A file name without a slash is joined below ["imgs"] as a single
    component: [str(PurePath("imgs", s + ".png"))] is ["imgs/" + s + ".png"]. *)
Lemma imgs_join_plain s :
  slash ∉ s -> purepath_str [«"imgs"»; s ++ png_suffix] = «"imgs/"» ++ s ++ png_suffix.
Proof.
  intros Hs. destruct (png_name_kept s Hs) as [Hk Hn].
  unfold purepath_str, purepath_of.
  rewrite posix_join_imgs by (apply png_name_head, Hs).
  assert (Hparts : Forall (fun x => part_kept x /\ slash ∉ x) [«"imgs"»; s ++ png_suffix]).
  { constructor; [decide_closed|]. constructor; [done|constructor]. }
  change («"imgs"» ++ slash :: s ++ png_suffix)
    with (format_path (mk_purepath [] [«"imgs"»; s ++ png_suffix])).
  rewrite parse_format_inv by (split; [left|]; done).
  reflexivity.
Qed.

Lemma splitroot_slash t : (splitroot (slash :: t)).1 ≠ [].
Proof.
  unfold splitroot. rewrite decide_True by done.
  repeat (case_match || case_decide); simpl; done.
Qed.

Lemma imgs_join_dotdot x :
  slash ∉ x -> purepath_str [«"imgs"»; («"../"» ++ x) ++ png_suffix] = «"imgs/../"» ++ x ++ png_suffix.
Proof.
  intros Hx. unfold purepath_str, purepath_of. rewrite posix_join_imgs by (vm_compute; congruence).
  change («"imgs"» ++ slash :: («"../"» ++ x) ++ png_suffix)
    with (format_path (mk_purepath [] [«"imgs"»; [ "."%char; "."%char]; x ++ png_suffix])).
  rewrite parse_format_inv; [reflexivity|]. split; [by left|].
  apply Forall_cons; split; [decide_closed|]. apply Forall_cons; split; [decide_closed|].
  apply Forall_cons; split; [by apply png_name_kept|constructor].
Qed.

Lemma imgs_join_slash x :
  slash ∉ x -> purepath_str [«"imgs"»; (slash :: x) ++ png_suffix] = slash :: x ++ png_suffix.
Proof.
  intros Hx. unfold purepath_str, purepath_of.
  change (posix_join «"imgs"» [(slash :: x) ++ png_suffix]) with (slash :: x ++ png_suffix).
  change (slash :: x ++ png_suffix) with (format_path (mk_purepath [slash] [x ++ png_suffix])).
  rewrite parse_format_inv; [reflexivity|]. split; [by right; left|].
  apply Forall_cons; split; [by apply png_name_kept|constructor].
Qed.

(** A file name that starts with a slash is absolute: it replaces
    ["imgs"], and the path it denotes has a root. *)
Theorem imgs_join_absolute r :
  purepath_of [«"imgs"»; (slash :: r) ++ png_suffix] = parse_path ((slash :: r) ++ png_suffix) /\
  pp_root (purepath_of [«"imgs"»; (slash :: r) ++ png_suffix]) ≠ [].
Proof.
  assert (Hj : purepath_of [«"imgs"»; (slash :: r) ++ png_suffix] =
               parse_path ((slash :: r) ++ png_suffix)).
  { reflexivity. }
  split; [done|]. rewrite Hj. unfold parse_path.
  pose proof (splitroot_slash (r ++ png_suffix)) as Hr.
  destruct (splitroot _) as [root rel]. done.
Qed.

(** ** Normalisation *)

(** [PurePath] normalises once and for all: any string parses to a
    well-formed path, and printing it and parsing the result gives the same
    path back ([PurePath(str(PurePath(p))) == PurePath(p)]). *)
Theorem parse_format_roundtrip p :
  wf_purepath (parse_path p) /\ parse_path (format_path (parse_path p)) = parse_path p.
Proof.
  pose proof (parse_path_wellformed p) as Hwf. split; [done|]. by apply parse_format_inv.
Qed.

(** ** The printed path keeps the suffix of the last argument *)

Lemma splitroot_concat p : p = (splitroot p).1 ++ (splitroot p).2.
Proof. unfold splitroot. by repeat (case_match || case_decide); subst. Qed.

Lemma splitroot_rest_suffix s t :
  t ≠ [] -> slash ∉ t -> exists s', (splitroot (s ++ t)).2 = s' ++ t.
Proof.
  intros Htne Ht. pose proof (splitroot_concat (s ++ t)) as Hc.
  pose proof (splitroot_wf (s ++ t)) as Hr.
  destruct (splitroot (s ++ t)) as [root rest]; simpl in *.
  apply app_eq_app in Hc as (k & [[-> ->] | [-> ->]]); [by exists k|].
  destruct k as [|a k]; [by exists []|]. exfalso. apply Ht.
  assert (a = slash) as ->; [|left].
  destruct Hr as [Hr | [Hr | Hr]]; destruct s as [|x [|y s]]; simplify_list_eq; try done; destruct s; simplify_list_eq; done.
Qed.

Lemma format_parse_suffix s t :
  t ≠ [] -> slash ∉ t -> t ≠ ["."%char] -> exists u, format_path (parse_path (s ++ t)) = u ++ t.
Proof.
  intros Htne Ht Hdot. unfold parse_path.
  destruct (splitroot_rest_suffix s t Htne Ht) as [s' Hs'].
  destruct (splitroot (s ++ t)) as [root rest]; simpl in Hs'; subst rest.
  destruct (split_on_last_app slash s' t Ht) as [l Hl].
  assert (Hk : part_kept (l ++ t)).
  { split; [by destruct l, t|]. intros H. destruct l as [|a [|b l]], t; simplify_list_eq; done. }
  destruct (join_with_last slash _ _ (last_filter_kept _ _ _ Hl Hk)) as [u Hu].
  unfold format_path; simpl. rewrite Hu. exists (root ++ u ++ l).
  rewrite <- !app_assoc. destruct t as [|c t]; [done|].
  destruct (root ++ u ++ l ++ c :: t) eqn:E; [|done].
  apply (f_equal List.length) in E. rewrite !length_app in E. simpl in E. lia.
Qed.

(** Whatever the identifier, [str(PurePath(a, x + ".png"))] ends in
    [".png"]: joining, dropping empty and ["."] parts and printing never
    touch the last component. *)
Lemma purepath_png_suffix a x : exists u, purepath_str [a; x ++ png_suffix] = u ++ png_suffix.
Proof.
  unfold purepath_str, purepath_of.
  assert (Hj : exists v, posix_join a [x ++ png_suffix] = v ++ png_suffix).
  { unfold posix_join; simpl.
    destruct (x ++ png_suffix) as [|c b] eqn:E; [by destruct x|].
    rewrite <- E. case_decide; [by exists x|].
    destruct (last a) as [l|]; [case_decide|];
      [exists (a ++ x)| exists (a ++ slash :: x)| exists (a ++ x)];
      by rewrite <- ?app_assoc. }
  destruct Hj as [v ->]. apply format_parse_suffix; [done|decide_closed|done].
Qed.

(** ** The printed path holds no character the arguments do not *)

Lemma posix_join1_chars a b x : x ∈ posix_join a [b] -> x = slash \/ x ∈ a \/ x ∈ b.
Proof.
  unfold posix_join; simpl.
  repeat (case_match || case_decide); subst; rewrite ?elem_of_app, ?elem_of_cons; intuition.
Qed.

Lemma format_parse_chars p x : x ∈ format_path (parse_path p) -> x = slash \/ x = "."%char \/ x ∈ p.
Proof.
  unfold parse_path. pose proof (splitroot_concat p) as Hc. pose proof (splitroot_wf p) as Hr.
  destruct (splitroot p) as [root rest]; simpl in *.
  unfold format_path; simpl. intros Hx.
  destruct (root ++ join_with slash _) eqn:E.
  - apply list_elem_of_singleton in Hx. auto.
  - rewrite <- E in Hx. apply elem_of_app in Hx as [Hx|Hx].
    + left. destruct Hr as [-> | [-> | ->]]; set_solver.
    + apply elem_of_join_with in Hx as [->|(q & Hq & Hx)]; [by left|].
      apply list_elem_of_filter in Hq as [_ Hq]. right; right. rewrite Hc.
      apply elem_of_app; right. by eapply elem_of_split_on.
Qed.

Lemma purepath_str_chars a b x :
  x ∈ purepath_str [a; b] -> x = slash \/ x = "."%char \/ x ∈ a \/ x ∈ b.
Proof.
  unfold purepath_str, purepath_of. intros [->|[->|Hx]]%format_parse_chars; auto.
  apply posix_join1_chars in Hx. tauto.
Qed.

(** ** Concrete instances *)

End PurePath.
