(* ===== verification/FileSystem.v ===== *)
(** * The operating-system interface of the handlers

    The handlers touch the file system through three calls:
    [os.path.exists("imgs")], [os.mkdir("imgs")] and [img.save(path)]
    (Pillow's [Image.save], which opens the file with mode ["w+b"] and
    writes the PNG).  [OS] is that interface; [OSLaws] what the handler
    proofs need of it; [MemFS] an in-memory model of a Linux file system
    that implements it and satisfies the laws.

    The model resolves a path the way Linux [path_lookup] does: relative
    paths start at the working directory, empty components and ["."] are
    skipped, [".."] goes to the parent (the root is its own parent), every
    intermediate component must be an existing directory
    ([FileNotFoundError], [NotADirectoryError]), a component longer than
    [NAME_MAX] = 255 bytes or a path of [PATH_MAX] = 4096 bytes or more
    fails with [ENAMETOOLONG] (a plain [OSError]).  CPython rejects a path
    holding a NUL character with [ValueError] before any system call.
    Permissions are a set of locked directories (no entry can be created in
    them) and locked files (they cannot be overwritten): [PermissionError].
    Symbolic links, mount points, quotas and a full disk are not
    modelled. *)

From S2P Require Import Prelude PyExc.
From Stdlib Require Import Ascii.
Import PyExc.

Module FileSystem.

(** ** The interface *)

Class OS (S I : Type) := {
  os_path_exists : pystr -> S -> bool;
  os_mkdir : pystr -> SE exc_class S unit;
  image_save : pystr -> I -> SE exc_class S unit;
  (** Observation used by the specification only: the image a file holds. *)
  read_image : pystr -> S -> option I
}.

Class OSLaws (S I : Type) `{!OS S I} := {
  mkdir_ok_exists p s s' :
    os_mkdir p s = (inr tt, s') -> os_path_exists p s' = true;
  mkdir_err_unchanged p s e s' :
    os_mkdir p s = (inl e, s') -> s' = s;
  save_ok_read p img s s' :
    image_save p img s = (inr tt, s') -> read_image p s' = Some img;
  save_err_unchanged p img s e s' :
    image_save p img s = (inl e, s') -> s' = s
}.

(** ** An in-memory Linux file system *)

Abbreviation abspath := (list pystr).

Record memfs (I : Type) := MemFS {
  fs_dirs : gset abspath;
  fs_files : gmap abspath I;
  fs_cwd : abspath;
  fs_locked : gset abspath
}.
Arguments MemFS {I}.
Arguments fs_dirs {I}.
Arguments fs_files {I}.
Arguments fs_cwd {I}.
Arguments fs_locked {I}.

Definition NAME_MAX : nat := 255.
Definition PATH_MAX : nat := 4096.
Definition nul : ascii := "000"%char.
Definition dot : pystr := ["."%char].
Definition dotdot : pystr := ["."%char; "."%char].

Definition parent_dir (d : abspath) : abspath := removelast d.

Section MemFS.
Context {I : Type}.
Implicit Types (st : memfs I) (d : abspath).

Definition is_dir st d : Prop := d ∈ fs_dirs st.
Definition is_file st d : Prop := d ∈ dom (fs_files st).

#[global] Instance is_dir_dec st d : Decision (is_dir st d).
Proof. unfold is_dir. apply _. Defined.
#[global] Instance is_file_dec st d : Decision (is_file st d).
Proof. unfold is_file. apply _. Defined.

(** The directories a path walk goes through. *)
Fixpoint walk st (cur : abspath) (comps : list pystr) : exc_class + abspath :=
  match comps with
  | [] => inr cur
  | c :: cs =>
      if NAME_MAX <? utf8_len c then inl OSError
      else if decide (c = dot) then walk st cur cs
      else if decide (c = dotdot) then walk st (parent_dir cur) cs
      else if decide (is_dir st (cur ++ [c])) then walk st (cur ++ [c]) cs
      else if decide (is_file st (cur ++ [c])) then inl NotADirectoryError
      else inl FileNotFoundError
  end.

Inductive lookup_res := LDir (d : abspath) | LEntry (parent : abspath) (name : pystr).

Definition path_comps (p : pystr) : list pystr := filter (fun c => c ≠ []) (split_on slash p).

Definition path_start st (p : pystr) : abspath :=
  match p with
  | c :: _ => if decide (c = slash) then [] else fs_cwd st
  | [] => fs_cwd st
  end.

(** Resolve every component but the last; classify the last one. *)
Definition lookup st (p : pystr) : exc_class + lookup_res :=
  if decide (nul ∈ p) then inl ValueError
  else if decide (p = []) then inl FileNotFoundError
  else if PATH_MAX <=? utf8_len p then inl OSError
  else
    let comps := path_comps p in
    match last comps with
    | None => inr (LDir [])
    | Some l =>
        match walk st (path_start st p) (removelast comps) with
        | inl e => inl e
        | inr d =>
            if NAME_MAX <? utf8_len l then inl OSError
            else if decide (l = dot) then inr (LDir d)
            else if decide (l = dotdot) then inr (LDir (parent_dir d))
            else inr (LEntry d l)
        end
    end.

(** [os.path.exists]: [False] on any [OSError] or [ValueError]. *)
Definition mem_exists (p : pystr) st : bool :=
  match lookup st p with
  | inr (LDir _) => true
  | inr (LEntry d n) => bool_decide (is_dir st (d ++ [n]) \/ is_file st (d ++ [n]))
  | inl _ => false
  end.

Definition add_dir d st : memfs I :=
  MemFS ({[d]} ∪ fs_dirs st) (fs_files st) (fs_cwd st) (fs_locked st).

Definition put_file d (img : I) st : memfs I :=
  MemFS (fs_dirs st) (<[d := img]> (fs_files st)) (fs_cwd st) (fs_locked st).

(** [os.mkdir(p)]. *)
Definition mem_mkdir (p : pystr) : SE exc_class (memfs I) unit := fun st =>
  match lookup st p with
  | inl e => (inl e, st)
  | inr (LDir _) => (inl FileExistsError, st)
  | inr (LEntry d n) =>
      if decide (is_dir st (d ++ [n]) \/ is_file st (d ++ [n])) then (inl FileExistsError, st)
      else if decide (d ∈ fs_locked st) then (inl PermissionError, st)
      else (inr tt, add_dir (d ++ [n]) st)
  end.

(** [open(p, "w+b")] and writing the image. *)
Definition mem_save (p : pystr) (img : I) : SE exc_class (memfs I) unit := fun st =>
  match lookup st p with
  | inl e => (inl e, st)
  | inr (LDir _) => (inl IsADirectoryError, st)
  | inr (LEntry d n) =>
      if decide (is_dir st (d ++ [n])) then (inl IsADirectoryError, st)
      else if decide (is_file st (d ++ [n])) then
        (if decide ((d ++ [n]) ∈ fs_locked st) then (inl PermissionError, st)
         else (inr tt, put_file (d ++ [n]) img st))
      else if decide (d ∈ fs_locked st) then (inl PermissionError, st)
      else (inr tt, put_file (d ++ [n]) img st)
  end.

Definition mem_read (p : pystr) st : option I :=
  match lookup st p with
  | inr (LEntry d n) => fs_files st !! (d ++ [n])
  | _ => None
  end.

(** The target a path names, when its parent resolves. *)
Definition resolve st (p : pystr) : option abspath :=
  match lookup st p with
  | inr (LEntry d n) => Some (d ++ [n])
  | inr (LDir d) => Some d
  | inl _ => None
  end.

(** [rm -r d], an outside intervention on the store. *)
Definition remove_tree d st : memfs I :=
  MemFS (filter (fun x => ¬ (d `prefix_of` x)) (fs_dirs st))
        (filter (fun kv => ¬ (d `prefix_of` kv.1)) (fs_files st))
        (fs_cwd st) (fs_locked st).
End MemFS.

#[export] Instance memfs_os {I} : OS (memfs I) I := {
  os_path_exists := mem_exists;
  os_mkdir := mem_mkdir;
  image_save := mem_save;
  read_image := mem_read
}.

(** ** Well-formedness of the in-memory file system *)

Section MemFSLemmas.
Context {I : Type}.
Implicit Types (st : memfs I) (d : abspath).

(** The root and the working directory exist, the directories are closed
    under parent, every file lies in a directory, and no path is both a
    directory and a file. *)
Definition memfs_wf st : Prop :=
  [] ∈ fs_dirs st /\ fs_cwd st ∈ fs_dirs st /\
  (forall d, d ∈ fs_dirs st -> parent_dir d ∈ fs_dirs st) /\
  (forall f, is_file st f -> parent_dir f ∈ fs_dirs st /\ f ≠ []) /\
  (forall d, is_dir st d -> ~ is_file st d).

Lemma parent_dir_snoc d n : parent_dir (d ++ [n]) = d.
Proof. apply removelast_last. Qed.

Lemma parent_dir_prefix d : parent_dir d `prefix_of` d.
Proof.
  destruct d as [|x d _] using rev_ind; [done|].
  rewrite parent_dir_snoc. by exists [x].
Qed.

Lemma walk_mono st st' cur cs r :
  (forall d, is_dir st d -> is_dir st' d) ->
  walk st cur cs = inr r -> walk st' cur cs = inr r.
Proof.
  intros Hd. revert cur. induction cs as [|c cs IH]; intros cur; simpl; [done|].
  destruct (NAME_MAX <? _); [done|].
  destruct (decide (c = dot)); [by apply IH|].
  destruct (decide (c = dotdot)); [by apply IH|].
  destruct (decide (is_dir st (cur ++ [c]))) as [Hdir|Hndir].
  - rewrite decide_True by (by apply Hd). by apply IH.
  - by case_decide.
Qed.

Lemma lookup_mono st st' p r :
  fs_cwd st' = fs_cwd st -> (forall d, is_dir st d -> is_dir st' d) ->
  lookup st p = inr r -> lookup st' p = inr r.
Proof.
  intros Hc Hd. unfold lookup, path_start. rewrite Hc.
  destruct (decide (nul ∈ p)); [done|]. destruct (decide (p = [])); [done|].
  destruct (PATH_MAX <=? _); [done|].
  destruct (last (path_comps p)); [|done].
  destruct (walk st _ _) as [e|w] eqn:Hw; [done|].
  by rewrite (walk_mono st st' _ _ w).
Qed.

Lemma walk_is_dir st cur cs d :
  memfs_wf st -> cur ∈ fs_dirs st -> walk st cur cs = inr d -> d ∈ fs_dirs st.
Proof.
  intros (_ & _ & Hpar & _) . revert cur. induction cs as [|c cs IH]; intros cur Hcur; simpl.
  - by intros [= <-].
  - destruct (NAME_MAX <? _); [done|].
    destruct (decide (c = dot)); [by apply IH|].
    destruct (decide (c = dotdot)); [apply IH; auto|].
    destruct (decide (is_dir st (cur ++ [c]))); [by apply IH|].
    by case_decide.
Qed.

Lemma lookup_entry_dir st p d n :
  memfs_wf st -> lookup st p = inr (LEntry d n) -> d ∈ fs_dirs st.
Proof.
  intros Hwf. unfold lookup.
  destruct (decide (nul ∈ p)); [done|]. destruct (decide (p = [])); [done|].
  destruct (PATH_MAX <=? _); [done|].
  destruct (last (path_comps p)) as [l|]; [|done].
  destruct (walk st _ _) as [e|w] eqn:Hw; [done|].
  assert (w ∈ fs_dirs st).
  { eapply walk_is_dir; [done| |done].
    destruct Hwf as (? & ? & _). unfold path_start. destruct p; [done|]. by case_decide. }
  destruct (NAME_MAX <? _); [done|]. by repeat case_decide; intros; simplify_eq.
Qed.

Lemma add_dir_is_dir st d x : is_dir st x -> is_dir (add_dir d st) x.
Proof. unfold is_dir, add_dir. simpl. set_solver. Qed.

(** An operation of the model leaves the lookup of other paths alone when
    it only adds directories or files. *)
Lemma mem_mkdir_ok st p st' :
  mem_mkdir p st = (inr tt, st') ->
  exists d n, lookup st p = inr (LEntry d n) /\ st' = add_dir (d ++ [n]) st /\
              ~ (is_dir st (d ++ [n]) \/ is_file st (d ++ [n])) /\ d ∉ fs_locked st.
Proof.
  unfold mem_mkdir. destruct (lookup st p) as [e|[dd|d n]]; try done.
  repeat case_decide; intros; simplify_eq. eauto 10.
Qed.

Lemma mem_save_ok st p img st' :
  mem_save p img st = (inr tt, st') ->
  exists d n, lookup st p = inr (LEntry d n) /\ st' = put_file (d ++ [n]) img st /\
              ~ is_dir st (d ++ [n]).
Proof.
  unfold mem_save. destruct (lookup st p) as [e|[dd|d n]]; try done.
  repeat case_decide; intros; simplify_eq; eauto 10.
Qed.

Lemma mem_mkdir_wf st p st' :
  memfs_wf st -> mem_mkdir p st = (inr tt, st') -> memfs_wf st'.
Proof.
  intros Hwf. pose proof Hwf as (Hr & Hc & Hpar & Hf & Hdf).
  intros (dd & n & Hl & -> & Hnew & _)%mem_mkdir_ok.
  pose proof (lookup_entry_dir _ _ _ _ Hwf Hl) as Hdd.
  unfold memfs_wf, add_dir, is_dir, is_file in *; simpl. split_and!; [set_solver|set_solver| | |].
  - intros x [->%elem_of_singleton|Hx]%elem_of_union; [rewrite parent_dir_snoc|]; set_solver.
  - intros f Hfile. destruct (Hf f Hfile). set_solver.
  - intros x [->%elem_of_singleton|Hx]%elem_of_union; [naive_solver|]. by apply Hdf.
Qed.

Lemma mem_save_wf st p img st' :
  memfs_wf st -> mem_save p img st = (inr tt, st') -> memfs_wf st'.
Proof.
  intros Hwf. pose proof Hwf as (Hr & Hc & Hpar & Hf & Hdf).
  intros (dd & n & Hl & -> & Hnd)%mem_save_ok.
  pose proof (lookup_entry_dir _ _ _ _ Hwf Hl) as Hdd.
  unfold memfs_wf, put_file, is_dir, is_file in *; simpl. split_and!; [done|done|done| |].
  - intros f. rewrite dom_insert_L, elem_of_union, elem_of_singleton.
    intros [->|Hx]; [rewrite parent_dir_snoc; split; [done|by destruct dd]|by apply Hf].
  - intros x Hx. rewrite dom_insert_L, elem_of_union, elem_of_singleton.
    intros [->|?]; [done|by eapply Hdf].
Qed.

Lemma remove_tree_wf st d :
  memfs_wf st -> d ≠ [] -> ~ d `prefix_of` fs_cwd st -> memfs_wf (remove_tree d st).
Proof.
  intros (Hr & Hc & Hpar & Hf & Hdf) Hd Hcwd. unfold memfs_wf, remove_tree, is_dir, is_file in *; simpl.
  split_and!.
  - apply elem_of_filter. split; [|done]. by intros ->%prefix_nil_inv.
  - by apply elem_of_filter.
  - intros x [Hx Hxd]%elem_of_filter. apply elem_of_filter. split; [|by apply Hpar].
    intros Hp. apply Hx. by rewrite Hp, parent_dir_prefix.
  - intros f [v [Hv Hp]%map_lookup_filter_Some]%elem_of_dom.
    destruct (Hf f) as [Hpf Hne]; [by eapply elem_of_dom_2|]. split; [|done].
    apply elem_of_filter. split; [|done]. intros Hq. apply Hp. by rewrite Hq, parent_dir_prefix.
  - intros x [Hx Hxd]%elem_of_filter [v [Hv _]%map_lookup_filter_Some]%elem_of_dom.
    by apply (Hdf x Hxd), elem_of_dom_2 with v.
Qed.

(** [os.mkdir] and [Image.save] of the model keep the file system
    well formed, and so does removing a subtree that holds neither the
    root nor the working directory. *)
Theorem memfs_ops_preserve_wf st p img st1 st2 st3 d :
  memfs_wf st ->
  (mem_mkdir p st = (inr tt, st1) -> memfs_wf st1) /\
  (mem_save p img st = (inr tt, st2) -> memfs_wf st2) /\
  (d ≠ [] -> ~ d `prefix_of` fs_cwd st -> remove_tree d st = st3 -> memfs_wf st3).
Proof.
  intros Hwf. split_and!; [by apply mem_mkdir_wf|by apply mem_save_wf|].
  intros Hd Hcwd <-. by apply remove_tree_wf.
Qed.

(** A path whose components are [cs] followed by [n] resolves by walking
    [cs] and classifying [n]. *)
Lemma lookup_comps st p cs n :
  nul ∉ p -> p ≠ [] -> utf8_len p < PATH_MAX -> path_comps p = cs ++ [n] ->
  lookup st p =
    match walk st (path_start st p) cs with
    | inl e => inl e
    | inr d =>
        if NAME_MAX <? utf8_len n then inl OSError
        else if decide (n = dot) then inr (LDir d)
        else if decide (n = dotdot) then inr (LDir (parent_dir d))
        else inr (LEntry d n)
    end.
Proof.
  intros Hnul Hne Hlen Hc. unfold lookup.
  rewrite decide_False by done. rewrite decide_False by done.
  replace (PATH_MAX <=? utf8_len p) with false by (symmetry; apply Nat.leb_gt; lia).
  by rewrite Hc, last_snoc, removelast_last.
Qed.

Lemma path_comps_join parts :
  parts ≠ [] -> Forall (fun c => c ≠ [] /\ slash ∉ c) parts ->
  path_comps (join_with slash parts) = parts.
Proof.
  intros Hne Hall. unfold path_comps. rewrite split_join; [|done|].
  - apply filter_Forall_id. by eapply Forall_impl; [exact Hall|]; intros c [? _].
  - by eapply Forall_impl; [exact Hall|]; intros c [_ ?].
Qed.

Lemma walk_into st cur c cs :
  utf8_len c <= NAME_MAX -> c ≠ dot -> c ≠ dotdot -> is_dir st (cur ++ [c]) ->
  walk st cur (c :: cs) = walk st (cur ++ [c]) cs.
Proof.
  intros Hl Hd Hdd Hdir. simpl.
  replace (NAME_MAX <? utf8_len c) with false by (symmetry; apply Nat.ltb_ge; lia).
  by rewrite !decide_False, decide_True by done.
Qed.

Lemma mem_mkdir_err st p c st' : mem_mkdir p st = (inl c, st') -> st' = st.
Proof. unfold mem_mkdir. repeat (case_match || case_decide); congruence. Qed.

Lemma mem_save_err st p img c st' : mem_save p img st = (inl c, st') -> st' = st.
Proof. unfold mem_save. repeat (case_match || case_decide); congruence. Qed.

Lemma mem_save_entry st p d n img :
  lookup st p = inr (LEntry d n) -> ~ is_dir st (d ++ [n]) -> d ++ [n] ∉ fs_locked st ->
  (~ is_file st (d ++ [n]) -> d ∉ fs_locked st) ->
  mem_save p img st = (inr tt, put_file (d ++ [n]) img st).
Proof.
  intros Hl Hnd Hfl Hdl. unfold mem_save. rewrite Hl, decide_False by done.
  case_decide; rewrite decide_False by auto; done.
Qed.

Lemma lookup_nul st p : nul ∈ p -> lookup st p = inl ValueError.
Proof. intros Hn. unfold lookup. by rewrite decide_True. Qed.

Lemma put_file_idem f img st : put_file f img (put_file f img st) = put_file f img st.
Proof. unfold put_file. simpl. by rewrite insert_insert_eq. Qed.

Lemma walk_up st cur cs : walk st cur (dotdot :: cs) = walk st (parent_dir cur) cs.
Proof. done. Qed.

(** The model raises [ValueError] for a path with a NUL character and
    subclasses of [OSError] otherwise. *)
Definition mem_error (p : pystr) (c : exc_class) : Prop :=
  (nul ∈ p /\ c = ValueError) \/ issubclass c OSError = true.

Lemma walk_err st cur cs c : walk st cur cs = inl c -> issubclass c OSError = true.
Proof.
  revert cur. induction cs as [|x cs IH]; intros cur; simpl; [done|].
  repeat (case_match || case_decide); intros; simplify_eq; eauto.
Qed.

Lemma lookup_err st p c : lookup st p = inl c -> mem_error p c.
Proof.
  unfold lookup, mem_error.
  case_decide; [intros; simplify_eq; by left|]. right. revert H.
  repeat case_decide; try (intros; simplify_eq; done).
  destruct (PATH_MAX <=? _); [intros; simplify_eq; done|].
  destruct (last _); [|done]. destruct (walk st _ _) eqn:Hw; [intros; simplify_eq; by eapply walk_err|].
  repeat (case_match || case_decide); intros; simplify_eq; done.
Qed.

Lemma mem_mkdir_err_class st p c st' : mem_mkdir p st = (inl c, st') -> mem_error p c.
Proof.
  unfold mem_mkdir. destruct (lookup st p) eqn:Hl; [intros; simplify_eq; by eapply lookup_err|].
  unfold mem_error. repeat (case_match || case_decide); intros; simplify_eq; by right.
Qed.

Lemma mem_save_err_class st p img c st' : mem_save p img st = (inl c, st') -> mem_error p c.
Proof.
  unfold mem_save. destruct (lookup st p) eqn:Hl; [intros; simplify_eq; by eapply lookup_err|].
  unfold mem_error. repeat (case_match || case_decide); intros; simplify_eq; by right.
Qed.

(** No class of the table is both an [OSError] and a [ValueError]. *)
Lemma os_error_not_value c :
  issubclass c OSError = true -> issubclass c ValueError = false.
Proof. revert c. decide_closed. Qed.

(** The entry a lookup names is the last component of the path. *)
Lemma lookup_entry_last st p d n :
  lookup st p = inr (LEntry d n) -> last (path_comps p) = Some n.
Proof.
  unfold lookup. repeat case_decide; try done. destruct (PATH_MAX <=? _); [done|].
  destruct (last _) as [l|]; [|done]. destruct (walk st _ _); [done|].
  repeat (case_match || case_decide); intros; simplify_eq; done.
Qed.

Lemma mem_save_files st p img st' :
  mem_save p img st = (inr tt, st') ->
  exists f n, last (path_comps p) = Some n /\ last f = Some n /\
              fs_files st' = <[f := img]> (fs_files st).
Proof.
  intros (d & n & Hl & -> & _)%mem_save_ok. exists (d ++ [n]), n.
  split; [by eapply lookup_entry_last|]. by rewrite last_snoc.
Qed.

Lemma mem_save_read st p img st' : mem_save p img st = (inr tt, st') -> mem_read p st' = Some img.
Proof.
  intros (d & n & Hl & -> & _)%mem_save_ok. unfold mem_read.
  rewrite (lookup_mono st _ p (LEntry d n)); [|done|done|done]. apply lookup_insert_eq.
Qed.

Lemma mem_mkdir_files st p st' : mem_mkdir p st = (inr tt, st') -> fs_files st' = fs_files st.
Proof. by intros (d & n & _ & -> & _)%mem_mkdir_ok. Qed.
End MemFSLemmas.

#[export] Instance memfs_os_laws {I} : OSLaws (memfs I) I.
Proof.
  split.
  - intros p st st' (d & n & Hl & -> & _)%mem_mkdir_ok. simpl. unfold mem_exists.
    rewrite (lookup_mono st _ p (LEntry d n)); [|done|apply add_dir_is_dir|done].
    apply bool_decide_eq_true. left. unfold is_dir, add_dir. simpl. set_solver.
  - intros p st e st'. apply mem_mkdir_err.
  - intros p img st st'. apply mem_save_read.
  - intros p img st e st'. apply mem_save_err.
Qed.

End FileSystem.
