(* ===== verification/Flask.v ===== *)
(** * The Flask and werkzeug layer, and the QR encoder

    What the handlers use of the web framework, after Flask 3 and
    werkzeug 3:
    - [request.is_json] ([werkzeug.sansio.request.Request.is_json]);
    - [request.json] ([Request.get_json]): [BadRequest] (400) when the body
      is not valid JSON;
    - [request.form] ([MultiDict]): filled only for form content types;
      [form["k"]] raises [BadRequestKeyError], [form.get("k")] gives [None];
    - the conversion of what a view returns into a response
      ([Flask.make_response]: a [dict] is [jsonify]'d with status 200, a
      [(response, status)] tuple takes that status, a [str] is an HTML page)
      and of an exception it raises ([Flask.handle_user_exception]: an
      [HTTPException] becomes its own error page, anything else a 500).
    The QR encoder ([qrcode.make]) is an interface: the handlers are proved
    for every encoder; [byte_mode_encoder] is a stand-in used by the
    concrete examples. *)

From S2P Require Import Prelude PyExc PyValue.
From Stdlib Require Import Ascii String ZArith.
Import PyExc PyValue.

Module Flask.

Inductive http_method := GET | HEAD | POST | PUT | DELETE | PATCH | OPTIONS.

#[export] Instance http_method_eq_dec : EqDecision http_method.
Proof. solve_decision. Defined.

(** A request as werkzeug has parsed it: the media type of its
    [Content-Type] without parameters, its body parsed as JSON (the
    document [Json.json_loads] gives, [None] when it raises a [ValueError];
    a body that raises [RecursionError] or holds a float is outside this
    record), and the form fields it would carry as a form body, in order. *)
Record request := Request {
  req_method : http_method;
  req_path : pystr;
  req_mimetype : pystr;
  req_json : option json;
  req_form : list (pystr * pystr)
}.

(** [request.is_json]. *)
Definition is_json (r : request) : bool :=
  let mt := req_mimetype r in
  bool_decide (mt = «"application/json"») ||
  (is_prefixb «"application/"» mt && is_prefixb (reverse «"+json"») (reverse mt)).

(** [request.json] on a request whose [is_json] holds. *)
Definition request_json (r : request) : exc_class + pyval :=
  match req_json r with
  | Some j => inr (json_decode j)
  | None => inl BadRequest
  end.

Definition form_mimetype (mt : pystr) : bool :=
  bool_decide (mt = «"application/x-www-form-urlencoded"» \/ mt = «"multipart/form-data"»).

(** [request.form], a [MultiDict] of strings. *)
Definition request_form (r : request) : list (pystr * pystr) :=
  if form_mimetype (req_mimetype r) then req_form r else [].

Fixpoint multidict_first (k : pystr) (ps : list (pystr * pystr)) : option pystr :=
  match ps with
  | [] => None
  | (k', v) :: ps' => if decide (k = k') then Some v else multidict_first k ps'
  end.

(** [request.form[k]]. *)
Definition form_getitem (r : request) (k : pystr) : exc_class + pystr :=
  match multidict_first k (request_form r) with
  | Some v => inr v
  | None => inl BadRequestKeyError
  end.

(** [request.form.get(k)]. *)
Definition form_get (r : request) (k : pystr) : pyval :=
  match multidict_first k (request_form r) with
  | Some v => PyStr v
  | None => PyNone
  end.

(** ** Responses *)

Inductive body :=
| BJson (v : pyval)
| BHtml (s : pystr)
| BHttpError (code : Z).

Record response := Response { resp_status : Z; resp_body : body }.

(** What a view function returns. *)
Inductive view_ret :=
| RetDict (v : pyval)
| RetJsonTuple (v : pyval) (code : Z)
| RetStr (s : pystr).

Definition make_response (rv : view_ret) : response :=
  match rv with
  | RetDict v => Response 200 (BJson v)
  | RetJsonTuple v code => Response code (BJson v)
  | RetStr s => Response 200 (BHtml s)
  end.

(** The status of an exception that reaches Flask: its own code for an
    [HTTPException] of the classes modelled, 500 otherwise. *)
Definition exception_status (e : exc_class) : Z :=
  if issubclass e BadRequest then 400
  else if issubclass e NotFound then 404
  else if issubclass e MethodNotAllowed then 405
  else 500.

Definition exception_response (e : exc_class) : response :=
  Response (exception_status e) (BHttpError (exception_status e)).

(** [Flask.full_dispatch_request] around a view. *)
Definition run_view {S} (view : SE exc_class S view_ret) (s : S) : response * S :=
  match view s with
  | (inr rv, s') => (make_response rv, s')
  | (inl e, s') => (exception_response e, s')
  end.

(** [jsonify({"message": m})]. *)
Definition message (m : string) : pyval := PyDict [(«"message"», PyStr (lit m))].

(** ** The QR encoder *)

Class QREncoder (Img : Type) := {
  qr_make : pystr -> exc_class + Img
}.

(** A stand-in for [qrcode.make]: the image of [s] is [s] itself, and data
    beyond the capacity of a version-40 symbol at error-correction level M
    in byte mode (2331 bytes) raises [DataOverflowError]. *)
#[export] Instance byte_mode_encoder : QREncoder pystr := {
  qr_make s := if utf8_len s <=? 2331 then inr s else inl DataOverflowError
}.

(** ** Typing Flask's answers *)

(** The statuses of the error pages Flask builds. *)
Lemma exception_status_codes e : exception_status e ∈ [400; 404; 405; 500]%Z.
Proof.
  unfold exception_status.
  destruct (issubclass e BadRequest), (issubclass e NotFound), (issubclass e MethodNotAllowed); set_solver.
Qed.

(** What a view may return determines what Flask may answer: the response
    of each returned value, or the error page of an exception. *)
Lemma run_view_typed {S} (P : view_ret -> Prop) (Q : response -> Prop) (v : SE exc_class S view_ret) s :
  se_returns P v -> (forall rv, P rv -> Q (make_response rv)) -> (forall e, Q (exception_response e)) ->
  Q (run_view v s).1.
Proof.
  intros Hv HP He. unfold run_view. destruct (v s) as [[e|rv] s'] eqn:Hs; simpl; [done|].
  apply HP. by eapply Hv.
Qed.

End Flask.
