(* ===== verification/Features.v ===== *)
(** * The current handler: [src/project-root/features/backend.py]

    [generate_qr_code] (lines 8-28) is modelled statement by statement over
    any operating system [OS S I] and any encoder [QREncoder I]:
    - lines 10-11: the [is_json] guard;
    - line 12: [data = request.json], outside the [try], so that a body that
      is not valid JSON escapes to Flask as [BadRequest];
    - lines 13-28: the [try] block ([features_try_body]) with its two
      [except] clauses, [ValueError] and [OSError];
    - lines 20-23: encoding, creating [imgs] when missing and saving
      ([save_under_imgs]).
    The theorems are proved on the in-memory file system [memfs]: the
    success case, each row of the error table, what happens to bodies the
    specification does not foresee, where the file lands for names with
    slashes, and that a repeated request is idempotent. *)

From S2P Require Import Prelude PyExc PyValue PurePath FileSystem Flask.
From Stdlib Require Import Ascii String ZArith.
Import PyExc PyValue PurePath FileSystem Flask.

Module Features.

Definition IMGS : pystr := «"imgs"».
Definition ID_KEY : pystr := «"_id"».

Section Handler.
Context {S Img : Type} `{!OS S Img} `{!QREncoder Img}.

(** [os.path.exists("imgs")], which reads the state and changes nothing. *)
Definition exists_imgs : SE exc_class S bool := fun s => (inr (os_path_exists IMGS s), s).

(** Lines 21-23: create [imgs] when missing, then save the image under
    [PurePath("imgs", entry_id + ".png")]. *)
Definition save_under_imgs (entry_id : pystr) (img : Img) : SE exc_class S unit :=
  ex <- exists_imgs ;;
  (if ex then se_ret tt else os_mkdir IMGS) ;;;
  image_save (purepath_str [IMGS; entry_id ++ png_suffix]) img.

(** Lines 14-24, the body of the [try]. *)
Definition features_try_body (data : pyval) : SE exc_class S view_ret :=
  has_id <- se_lift (py_contains ID_KEY data) ;;
  if negb has_id then se_ret (RetJsonTuple (message "entry_id not provided") 400) else
  v <- se_lift (py_getitem_str data ID_KEY) ;;
  let entry_id := py_str v in
  if decide (entry_id = []) then se_ret (RetJsonTuple (message "entry_id is empty") 400) else
  img <- se_lift (qr_make entry_id) ;;
  save_under_imgs entry_id img ;;;
  se_ret (RetJsonTuple (message "Success") 200).

(** Lines 25-28, the two [except] clauses. *)
Definition features_handlers : list (except_spec * SE exc_class S view_ret) :=
  [(ExceptClass ValueError, se_ret (RetJsonTuple (message "Invalid entry_id") 400));
   (ExceptClass OSError, se_ret (RetJsonTuple (message "Error processing QR code") 500))].

(** Lines 8-28, [generate_qr_code]. *)
Definition generate_qr_code (r : request) : SE exc_class S view_ret :=
  if negb (is_json r) then se_ret (RetJsonTuple (message "Request must be JSON") 400) else
  data <- se_lift (request_json r) ;;
  PyExc.try_except (features_try_body data) features_handlers.

(** The route [POST /qrcode] as Flask runs it. *)
Definition features_qrcode (r : request) (s : S) : response * S :=
  run_view (generate_qr_code r) s.
End Handler.

(** ** Unfolding the handler *)
Section Unfold.
Context {S Img : Type} `{!OS S Img} `{!QREncoder Img}.

Lemma generate_qr_code_json r data s :
  is_json r = true -> request_json r = inr data ->
  generate_qr_code r s = PyExc.try_except (features_try_body data) features_handlers s.
Proof. intros Hj Hd. unfold generate_qr_code. rewrite Hj. simpl. unfold se_bind, se_lift. by rewrite Hd. Qed.

Lemma features_try_body_id kvs v s :
  dict_get ID_KEY kvs = Some v ->
  features_try_body (PyDict kvs) s =
    (if decide (py_str v = []) then se_ret (RetJsonTuple (message "entry_id is empty") 400)
     else img <- se_lift (qr_make (py_str v)) ;;
          save_under_imgs (py_str v) img ;;;
          se_ret (RetJsonTuple (message "Success") 200)) s.
Proof.
  intros Hv. unfold features_try_body, se_bind, se_lift. simpl.
  assert (Hin : ID_KEY ∈ kvs.*1) by (apply dict_get_elem; by rewrite Hv).
  rewrite bool_decide_eq_true_2 by done. simpl. by rewrite Hv.
Qed.

Lemma features_handlers_value e :
  issubclass e ValueError = true ->
  run_handlers (features_handlers (S:=S)) e = se_ret (RetJsonTuple (message "Invalid entry_id") 400).
Proof. intros He. unfold features_handlers. by rewrite run_handlers_match. Qed.

Lemma features_handlers_os e :
  issubclass e ValueError = false -> issubclass e OSError = true ->
  run_handlers (features_handlers (S:=S)) e =
    se_ret (RetJsonTuple (message "Error processing QR code") 500).
Proof. intros Hv Ho. unfold features_handlers. by rewrite run_handlers_skip, run_handlers_match. Qed.

Lemma features_handlers_other e :
  issubclass e ValueError = false -> issubclass e OSError = false ->
  run_handlers (features_handlers (S:=S)) e = se_raise e.
Proof. intros Hv Ho. unfold features_handlers. by rewrite !run_handlers_skip. Qed.
End Unfold.

(** ** The error table, for every operating system and encoder *)
Section Errors.
Context {S Img : Type} `{!OS S Img} `{!QREncoder Img}.
Implicit Types (s : S) (r : request).

Lemma features_qrcode_body r data s :
  is_json r = true -> request_json r = inr data ->
  features_qrcode r s =
    match features_try_body data s with
    | (inr rv, s') => (make_response rv, s')
    | (inl e, s') => run_view (run_handlers features_handlers e) s'
    end.
Proof.
  intros Hj Hd. unfold features_qrcode, run_view at 1.
  rewrite (generate_qr_code_json r data s Hj Hd). unfold try_except.
  by destruct (features_try_body data s) as [[e|rv] s'].
Qed.

(** What the [except] clauses and Flask make of an exception raised in
    the [try] block. *)
Definition features_exc_response (c : exc_class) : response :=
  if issubclass c ValueError then Response 400 (BJson (message "Invalid entry_id"))
  else if issubclass c OSError then Response 500 (BJson (message "Error processing QR code"))
  else exception_response c.

Lemma features_handlers_response c s :
  run_view (run_handlers (features_handlers (S:=S)) c) s = (features_exc_response c, s).
Proof.
  unfold features_exc_response.
  destruct (issubclass c ValueError) eqn:Hv; [by rewrite features_handlers_value|].
  destruct (issubclass c OSError) eqn:Ho; [by rewrite features_handlers_os|].
  by rewrite features_handlers_other.
Qed.

(** C8: A request whose content type is not JSON is answered 400
    ["Request must be JSON"] and nothing changes. *)
Theorem features_not_json r s :
  is_json r = false ->
  features_qrcode r s = (Response 400 (BJson (message "Request must be JSON")), s).
Proof. intros Hj. unfold features_qrcode, run_view, generate_qr_code. by rewrite Hj. Qed.

(** C9: A JSON request whose body is not valid JSON fails in
    [request.json], outside the [try]: Flask answers with its own 400
    error page, not with ["Request must be JSON"]. *)
Theorem features_bad_json r s :
  is_json r = true -> req_json r = None ->
  features_qrcode r s = (Response 400 (BHttpError 400), s).
Proof.
  intros Hj Hb. unfold features_qrcode, run_view, generate_qr_code, se_bind, se_lift.
  rewrite Hj. simpl. unfold request_json. by rewrite Hb.
Qed.

(** C10: A JSON object without the key ["_id"] is answered 400
    ["entry_id not provided"] and nothing changes. *)
Theorem features_missing_id r kvs s :
  is_json r = true -> request_json r = inr (PyDict kvs) -> ID_KEY ∉ kvs.*1 ->
  features_qrcode r s = (Response 400 (BJson (message "entry_id not provided")), s).
Proof.
  intros Hj Hd Hn. unfold features_qrcode, run_view.
  rewrite (generate_qr_code_json r _ s Hj Hd).
  unfold try_except, features_try_body, se_bind, se_lift. simpl.
  by rewrite bool_decide_eq_false_2.
Qed.

(** C11: An identifier that prints to the empty string ([{"_id": ""}]) is
    answered 400 ["entry_id is empty"] and nothing changes. *)
Theorem features_empty_id r kvs s :
  is_json r = true -> request_json r = inr (PyDict kvs) ->
  dict_get ID_KEY kvs = Some (PyStr []) ->
  features_qrcode r s = (Response 400 (BJson (message "entry_id is empty")), s).
Proof.
  intros Hj Hd Hv. rewrite (features_qrcode_body r _ s Hj Hd).
  by rewrite (features_try_body_id _ _ _ Hv).
Qed.

(** C12: When the encoder raises, nothing changes and the answer follows
    the class of the exception: a [ValueError] (or subclass) gives 400
    ["Invalid entry_id"]; any other class, such as qrcode's
    [DataOverflowError] for data too long for a QR symbol, escapes both
    [except] clauses and Flask answers 500. *)
Theorem features_encoder_error r kvs v c s :
  is_json r = true -> request_json r = inr (PyDict kvs) ->
  dict_get ID_KEY kvs = Some v -> py_str v ≠ [] -> qr_make (py_str v) = inl c ->
  features_qrcode r s = (features_exc_response c, s).
Proof.
  intros Hj Hd Hv Hne Hc. rewrite (features_qrcode_body r _ s Hj Hd).
  rewrite (features_try_body_id _ _ _ Hv), decide_False by done.
  unfold se_bind, se_lift. rewrite Hc. apply features_handlers_response.
Qed.

(** When creating [imgs] or saving the image raises, the answer follows
    the class of the exception and the state is the one the failing call
    left. *)
Lemma features_save_failed r kvs v img c s s' :
  is_json r = true -> request_json r = inr (PyDict kvs) ->
  dict_get ID_KEY kvs = Some v -> py_str v ≠ [] -> qr_make (py_str v) = inr img ->
  save_under_imgs (py_str v) img s = (inl c, s') ->
  features_qrcode r s = (features_exc_response c, s').
Proof.
  intros Hj Hd Hv Hne Himg Hsave. rewrite (features_qrcode_body r _ s Hj Hd).
  rewrite (features_try_body_id _ _ _ Hv), decide_False by done.
  unfold se_bind at 1, se_lift. rewrite Himg.
  unfold se_bind at 1. rewrite Hsave. apply features_handlers_response.
Qed.

Lemma features_saved r kvs v img s s' :
  is_json r = true -> request_json r = inr (PyDict kvs) ->
  dict_get ID_KEY kvs = Some v -> py_str v ≠ [] -> qr_make (py_str v) = inr img ->
  save_under_imgs (py_str v) img s = (inr tt, s') ->
  features_qrcode r s = (Response 200 (BJson (message "Success")), s').
Proof.
  intros Hj Hd Hv Hne Himg Hsave. rewrite (features_qrcode_body r _ s Hj Hd).
  rewrite (features_try_body_id _ _ _ Hv), decide_False by done.
  unfold se_bind at 1, se_lift. rewrite Himg.
  unfold se_bind at 1. by rewrite Hsave.
Qed.
(** C17: A JSON body that is not an object is not rejected as such:
    [null], a boolean or a number make ["_id" in data] raise [TypeError];
    a list or a string that contains ["_id"] passes that test and makes
    [data["_id"]] raise [TypeError]; both escape the [except] clauses and
    Flask answers 500.  A list or a string without ["_id"] is answered 400
    ["entry_id not provided"].  The state is unchanged in every case. *)
Theorem features_non_object_body r v s :
  is_json r = true -> request_json r = inr v -> (forall kvs, v ≠ PyDict kvs) ->
  features_qrcode r s =
    match py_contains ID_KEY v with
    | inr false => (Response 400 (BJson (message "entry_id not provided")), s)
    | _ => (Response 500 (BHttpError 500), s)
    end.
Proof.
  intros Hj Hd Hv. rewrite (features_qrcode_body r v s Hj Hd).
  destruct v as [| | | |xs|kvs]; [| | | | |by destruct (Hv kvs)]; try reflexivity;
    unfold features_try_body, se_bind, se_lift; simpl;
    [destruct (contains_sub ID_KEY _)|destruct (existsb (is_str_eq ID_KEY) xs)]; reflexivity.
Qed.

(** C18: The handler sees the identifier only through [str()]: two JSON
    objects whose identifiers print alike are answered alike and leave the
    same state, so [{"_id": 1}] and [{"_id": "1"}] name the same file, and
    [{"_id": null}] the file [None.png]. *)
Theorem features_str_coercion r1 r2 kvs1 kvs2 v1 v2 s :
  is_json r1 = true -> request_json r1 = inr (PyDict kvs1) -> dict_get ID_KEY kvs1 = Some v1 ->
  is_json r2 = true -> request_json r2 = inr (PyDict kvs2) -> dict_get ID_KEY kvs2 = Some v2 ->
  py_str v1 = py_str v2 ->
  features_qrcode r1 s = features_qrcode r2 s.
Proof.
  intros Hj1 Hd1 Hv1 Hj2 Hd2 Hv2 Hs.
  rewrite (features_qrcode_body r1 _ s Hj1 Hd1), (features_qrcode_body r2 _ s Hj2 Hd2).
  by rewrite (features_try_body_id _ _ _ Hv1), (features_try_body_id _ _ _ Hv2), Hs.
Qed.
End Errors.

(** ** The handler on the in-memory file system *)
Section OnMemFS.
Context {Img : Type} `{!QREncoder Img}.
Implicit Types (st : memfs Img) (e : pystr).

Definition imgs_dir st : abspath := fs_cwd st ++ [IMGS].
Definition image_path st e : abspath := imgs_dir st ++ [e ++ png_suffix].
Definition ensure_imgs st : memfs Img :=
  if decide (is_dir st (imgs_dir st)) then st else add_dir (imgs_dir st) st.

(** An identifier that names one file directly below [imgs]. *)
Definition plain_name e : Prop := (slash ∉ e) /\ (nul ∉ e) /\ (utf8_len e <= 251).

(** The file system lets the handler create [imgs] and write the file. *)
Definition can_store st e : Prop :=
  (~ is_file st (imgs_dir st)) /\ (~ is_dir st (imgs_dir st) -> fs_cwd st ∉ fs_locked st) /\
  (~ is_dir st (image_path st e)) /\ (imgs_dir st ∉ fs_locked st) /\
  (image_path st e ∉ fs_locked st).

Lemma lookup_imgs st : lookup st IMGS = inr (LEntry (fs_cwd st) IMGS).
Proof. reflexivity. Qed.

Lemma exists_imgs_memfs st :
  mem_exists IMGS st = bool_decide (is_dir st (imgs_dir st) \/ is_file st (imgs_dir st)).
Proof. unfold mem_exists. by rewrite lookup_imgs. Qed.

Lemma png_name_len e : utf8_len (e ++ png_suffix) = utf8_len e + 4.
Proof. by rewrite utf8_len_app. Qed.

Lemma png_name_not_dots e : e ++ png_suffix ≠ dot /\ e ++ png_suffix ≠ dotdot.
Proof. split; intros H; apply (f_equal List.length) in H; rewrite length_app in H; simpl in H; lia. Qed.

Lemma nul_not_in_png e : nul ∉ e -> nul ∉ e ++ png_suffix.
Proof. intros He. rewrite elem_of_app. intros [?|?]; [done|]. revert H. decide_closed. Qed.

Lemma lookup_under_imgs st e :
  plain_name e ->
  lookup st (purepath_str [IMGS; e ++ png_suffix]) =
    match walk st (fs_cwd st) [IMGS] with
    | inl c => inl c
    | inr d => inr (LEntry d (e ++ png_suffix))
    end.
Proof.
  intros (Hs & Hn & Hl).
  change (purepath_str [IMGS; e ++ png_suffix]) with (purepath_str [«"imgs"»; e ++ png_suffix]).
  rewrite imgs_join_plain by done.
  destruct (png_name_not_dots e) as [Hd Hdd].
  rewrite (lookup_comps st _ [IMGS] (e ++ png_suffix)).
  - change (path_start st («"imgs/"» ++ e ++ png_suffix)) with (fs_cwd st).
    destruct (walk st (fs_cwd st) [IMGS]); [done|].
    replace (NAME_MAX <? utf8_len (e ++ png_suffix)) with false
      by (symmetry; apply Nat.ltb_ge; rewrite png_name_len; unfold NAME_MAX; lia).
    by rewrite !decide_False.
  - rewrite elem_of_app. intros [Hi|Hi]; [revert Hi; decide_closed|by apply (nul_not_in_png e)].
  - done.
  - rewrite utf8_len_app, png_name_len. unfold PATH_MAX. simpl. lia.
  - change («"imgs/"» ++ e ++ png_suffix) with (join_with slash [IMGS; e ++ png_suffix]).
    apply path_comps_join; [done|].
    apply Forall_cons; split; [decide_closed|]. apply Forall_cons; split; [|constructor].
    split; [by destruct e|]. by destruct (png_name_kept e Hs) as [_ ?].
Qed.

Lemma lookup_image st e :
  plain_name e -> is_dir st (imgs_dir st) ->
  lookup st (purepath_str [IMGS; e ++ png_suffix]) = inr (LEntry (imgs_dir st) (e ++ png_suffix)).
Proof.
  intros Hp Hdir. rewrite lookup_under_imgs by done.
  rewrite walk_into by (done || (unfold NAME_MAX, utf8_len; simpl; lia)). done.
Qed.

Lemma image_path_ne_imgs st e : image_path st e ≠ imgs_dir st.
Proof. unfold image_path. intros H. apply (f_equal List.length) in H. rewrite length_app in H. simpl in H. lia. Qed.

Lemma save_under_imgs_ok st e img :
  plain_name e -> can_store st e ->
  save_under_imgs e img st = (inr tt, put_file (image_path st e) img (ensure_imgs st)).
Proof.
  intros Hp (Hnf & Hcwd & Hnd & Hil & Hpl).
  unfold save_under_imgs, exists_imgs, ensure_imgs, se_bind. simpl.
  rewrite exists_imgs_memfs.
  destruct (decide (is_dir st (imgs_dir st))) as [Hdir|Hndir].
  - rewrite bool_decide_eq_true_2 by auto. simpl. unfold mem_save.
    rewrite lookup_image by done. fold (image_path st e).
    rewrite decide_False by done.
    case_decide; rewrite !decide_False by done; done.
  - rewrite bool_decide_eq_false_2 by tauto. unfold mem_mkdir. rewrite lookup_imgs.
    fold (imgs_dir st). rewrite decide_False by tauto. rewrite decide_False by auto.
    unfold mem_save. set (st1 := add_dir (imgs_dir st) st).
    rewrite (lookup_image st1) by (done || (unfold is_dir; simpl; set_solver)).
    change (imgs_dir st1) with (imgs_dir st). fold (image_path st e).
    assert (~ is_dir st1 (image_path st e)).
    { unfold is_dir; simpl. rewrite elem_of_union, elem_of_singleton.
      pose proof (image_path_ne_imgs st e). tauto. }
    rewrite decide_False by done.
    case_decide; rewrite !decide_False by done; done.
Qed.

(** C1: On a JSON request whose object carries an identifier [_id] that
    prints to a plain non-empty file name, with an encoder that accepts it
    and a file system that lets the handler write, [POST /qrcode] answers
    200 ["Success"] and the only change to the file system is the
    directory [imgs] (when it was missing) and the image stored at
    [imgs/<id>.png] below the working directory. *)
Theorem features_success r kvs v img st :
  is_json r = true -> request_json r = inr (PyDict kvs) ->
  dict_get ID_KEY kvs = Some v -> py_str v ≠ [] -> plain_name (py_str v) ->
  qr_make (py_str v) = inr img -> can_store st (py_str v) ->
  features_qrcode r st =
    (Response 200 (BJson (message "Success")),
     put_file (image_path st (py_str v)) img (ensure_imgs st)).
Proof.
  intros Hj Hd Hv Hne Hp Henc Hs.
  eapply features_saved; [done..|]. by apply save_under_imgs_ok.
Qed.
Lemma save_under_imgs_existing st e img :
  is_dir st (imgs_dir st) ->
  save_under_imgs e img st = mem_save (purepath_str [IMGS; e ++ png_suffix]) img st.
Proof.
  intros Hdir. unfold save_under_imgs, exists_imgs, se_bind. simpl.
  rewrite exists_imgs_memfs, bool_decide_eq_true_2 by auto. done.
Qed.

Lemma lookup_dotdot st x :
  plain_name x -> is_dir st (imgs_dir st) ->
  lookup st («"imgs/../"» ++ x ++ png_suffix) = inr (LEntry (fs_cwd st) (x ++ png_suffix)).
Proof.
  intros (Hs & Hn & Hl) Hdir. destruct (png_name_not_dots x) as [Hd Hdd].
  rewrite (lookup_comps st _ [IMGS; dotdot] (x ++ png_suffix)).
  - change (path_start st («"imgs/../"» ++ x ++ png_suffix)) with (fs_cwd st).
    rewrite walk_into by (done || (unfold NAME_MAX, utf8_len; simpl; lia)).
    rewrite walk_up. unfold imgs_dir. simpl. rewrite parent_dir_snoc.
    replace (NAME_MAX <? utf8_len (x ++ png_suffix)) with false
      by (symmetry; apply Nat.ltb_ge; rewrite png_name_len; unfold NAME_MAX; lia).
    by rewrite !decide_False.
  - rewrite elem_of_app. intros [Hi|Hi]; [revert Hi; decide_closed|by apply (nul_not_in_png x)].
  - done.
  - rewrite utf8_len_app, png_name_len. unfold PATH_MAX. simpl. lia.
  - change («"imgs/../"» ++ x ++ png_suffix)
      with (join_with slash [IMGS; dotdot; x ++ png_suffix]).
    apply path_comps_join; [done|].
    apply Forall_cons; split; [decide_closed|]. apply Forall_cons; split; [decide_closed|].
    apply Forall_cons; split; [|constructor].
    split; [by destruct x|]. by destruct (png_name_kept x Hs) as [_ ?].
Qed.

Lemma lookup_rooted st x :
  plain_name x -> lookup st (slash :: x ++ png_suffix) = inr (LEntry [] (x ++ png_suffix)).
Proof.
  intros (Hs & Hn & Hl). destruct (png_name_not_dots x) as [Hd Hdd].
  destruct (png_name_kept x Hs) as [[Hne _] Hs'].
  rewrite (lookup_comps st _ [] (x ++ png_suffix)).
  - simpl. replace (NAME_MAX <? utf8_len (x ++ png_suffix)) with false
      by (symmetry; apply Nat.ltb_ge; rewrite png_name_len; unfold NAME_MAX; lia).
    by rewrite !decide_False.
  - apply not_elem_of_cons. split; [done|]. by apply nul_not_in_png.
  - done.
  - change (slash :: x ++ png_suffix) with ([slash] ++ x ++ png_suffix).
    rewrite !utf8_len_app. change (utf8_len png_suffix) with 4.
    change (utf8_len [slash]) with 1. unfold PATH_MAX. lia.
  - unfold path_comps. simpl. rewrite split_on_no_sep by done.
    rewrite filter_cons_False by (intros []; done). by rewrite filter_cons_True.
Qed.

(** C7: An identifier with path syntax leaves [imgs]: with [_id] equal
    to ["../" + x], the image is written next to [imgs], in the working
    directory; with ["/" + x], at the root of the file system.  Nothing
    in the handler restricts the name to the directory. *)
Theorem features_path_escape r kvs x img st :
  is_json r = true -> request_json r = inr (PyDict kvs) -> plain_name x ->
  is_dir st (imgs_dir st) ->
  (dict_get ID_KEY kvs = Some (PyStr («"../"» ++ x)) ->
   qr_make («"../"» ++ x) = inr img ->
   ~ is_dir st (fs_cwd st ++ [x ++ png_suffix]) ->
   fs_cwd st ∉ fs_locked st -> fs_cwd st ++ [x ++ png_suffix] ∉ fs_locked st ->
   features_qrcode r st =
     (Response 200 (BJson (message "Success")), put_file (fs_cwd st ++ [x ++ png_suffix]) img st)) /\
  (dict_get ID_KEY kvs = Some (PyStr (slash :: x)) ->
   qr_make (slash :: x) = inr img ->
   ~ is_dir st [x ++ png_suffix] -> [] ∉ fs_locked st -> [x ++ png_suffix] ∉ fs_locked st ->
   features_qrcode r st =
     (Response 200 (BJson (message "Success")), put_file [x ++ png_suffix] img st)).
Proof.
  intros Hj Hd Hx Hdir. destruct Hx as (Hs & Hn & Hl). split.
  - intros Hv Himg Hnd Hcl Hfl. eapply features_saved; [done|done|exact Hv|by destruct x|done|].
    rewrite save_under_imgs_existing by done. cbn [py_str].
    rewrite imgs_join_dotdot by done. apply mem_save_entry; auto.
    by apply lookup_dotdot.
  - intros Hv Himg Hnd Hcl Hfl. eapply features_saved; [done|done|exact Hv|done|done|].
    rewrite save_under_imgs_existing by done. cbn [py_str].
    rewrite imgs_join_slash by done. apply (mem_save_entry st _ [] (x ++ png_suffix)); auto.
    by apply lookup_rooted.
Qed.
Lemma lookup_long_name st e :
  slash ∉ e -> nul ∉ e -> 251 < utf8_len e -> is_dir st (imgs_dir st) ->
  lookup st («"imgs/"» ++ e ++ png_suffix) = inl OSError.
Proof.
  intros Hs Hn Hl Hdir. set (p := «"imgs/"» ++ e ++ png_suffix).
  assert (Hnul : nul ∉ p).
  { unfold p. rewrite elem_of_app. intros [Hi|Hi]; [revert Hi; decide_closed|by apply (nul_not_in_png e)]. }
  destruct (decide (utf8_len p < PATH_MAX)) as [Hlt|Hge].
  - destruct (png_name_not_dots e) as [Hd Hdd].
    rewrite (lookup_comps st _ [IMGS] (e ++ png_suffix)); [|done|done|done|].
    + change (path_start st p) with (fs_cwd st).
      rewrite walk_into by (done || (unfold NAME_MAX, utf8_len; simpl; lia)). simpl.
      replace (NAME_MAX <? utf8_len (e ++ png_suffix)) with true; [done|].
      symmetry. apply Nat.ltb_lt. rewrite png_name_len. unfold NAME_MAX. lia.
    + change p with (join_with slash [IMGS; e ++ png_suffix]).
      apply path_comps_join; [done|].
      apply Forall_cons; split; [decide_closed|]. apply Forall_cons; split; [|constructor].
      split; [by destruct e|]. by destruct (png_name_kept e Hs) as [_ ?].
  - unfold lookup. rewrite !decide_False by done.
    replace (PATH_MAX <=? utf8_len p) with true; [done|].
    symmetry. apply Nat.leb_le. lia.
Qed.

(** C15: File names are bounded: an identifier whose UTF-8 encoding is
    longer than 251 bytes makes ["<id>.png"] longer than [NAME_MAX] (255
    bytes); saving fails with [ENAMETOOLONG], an [OSError], and the
    request is answered 500 ["Error processing QR code"] with nothing
    written. *)
Theorem features_long_name r kvs v img st :
  is_json r = true -> request_json r = inr (PyDict kvs) ->
  dict_get ID_KEY kvs = Some v -> slash ∉ py_str v -> nul ∉ py_str v ->
  251 < utf8_len (py_str v) -> qr_make (py_str v) = inr img -> is_dir st (imgs_dir st) ->
  features_qrcode r st = (Response 500 (BJson (message "Error processing QR code")), st).
Proof.
  intros Hj Hd Hv Hs Hn Hl Himg Hdir.
  assert (Hne : py_str v ≠ []) by (intros Ha; rewrite Ha in Hl; unfold utf8_len in Hl; simpl in Hl; lia).
  apply (features_save_failed r kvs v img OSError st st); try done.
  rewrite save_under_imgs_existing by done. unfold mem_save.
  unfold IMGS. rewrite imgs_join_plain by done. by rewrite lookup_long_name.
Qed.

(** C14: An identifier holding a NUL character is refused by [open] with
    [ValueError] ("embedded null byte"), which the first [except] clause
    turns into 400 ["Invalid entry_id"]; the encoder accepted it, so this
    is the one path of the [ValueError] clause that does not come from
    the encoder. *)
Theorem features_nul_name r kvs v img st :
  is_json r = true -> request_json r = inr (PyDict kvs) ->
  dict_get ID_KEY kvs = Some v -> slash ∉ py_str v -> nul ∈ py_str v ->
  qr_make (py_str v) = inr img -> is_dir st (imgs_dir st) ->
  features_qrcode r st = (Response 400 (BJson (message "Invalid entry_id")), st).
Proof.
  intros Hj Hd Hv Hs Hn Himg Hdir.
  assert (Hne : py_str v ≠ []) by (intros Ha; rewrite Ha in Hn; set_solver).
  apply (features_save_failed r kvs v img ValueError st st); try done.
  rewrite save_under_imgs_existing by done. unfold mem_save.
  unfold IMGS. rewrite imgs_join_plain by done. rewrite lookup_nul; [done|].
  rewrite !elem_of_app. auto.
Qed.
Lemma save_under_imgs_files st e img res st' :
  save_under_imgs e img st = (res, st') -> res = inr tt \/ fs_files st' = fs_files st.
Proof.
  unfold save_under_imgs, exists_imgs, se_bind. simpl.
  destruct (mem_exists IMGS st); simpl.
  - destruct (mem_save _ img st) as [[c|[]] st1] eqn:E; intros [= <- <-]; [|by left].
    right. by rewrite (mem_save_err _ _ _ _ _ E).
  - destruct (mem_mkdir IMGS st) as [[c|[]] st1] eqn:E1.
    + intros [= <- <-]. right. by rewrite (mem_mkdir_err _ _ _ _ E1).
    + apply mem_mkdir_ok in E1 as (d & n & _ & -> & _).
      destruct (mem_save _ img _) as [[c|[]] st2] eqn:E; intros [= <- <-]; [|by left].
      right. by rewrite (mem_save_err _ _ _ _ _ E).
Qed.

Lemma features_try_body_files data st res st' :
  features_try_body data st = (res, st') ->
  res = inr (RetJsonTuple (message "Success") 200) \/ fs_files st' = fs_files st.
Proof.
  unfold features_try_body, se_bind, se_lift, se_ret.
  destruct (py_contains ID_KEY data) as [c|[]]; simpl; [by intros [= <- <-]; right| |by intros [= <- <-]; right].
  destruct (py_getitem_str data ID_KEY) as [c|v]; [by intros [= <- <-]; right|].
  destruct (decide (py_str v = [])); [by intros [= <- <-]; right|].
  destruct (qr_make (py_str v)) as [c|img]; [by intros [= <- <-]; right|].
  destruct (save_under_imgs (py_str v) img st) as [[c|[]] st1] eqn:E.
  - intros [= <- <-]. apply save_under_imgs_files in E as [?|?]; [done|by right].
  - intros [= <- <-]. by left.
Qed.

(** C6: The handler changes the stored files only when it answers 200:
    every other answer, error or not, leaves every file as it was (at
    most the directory [imgs] has been created). *)
Theorem features_files_only_on_success r st :
  resp_status (features_qrcode r st).1 ≠ 200%Z ->
  fs_files (features_qrcode r st).2 = fs_files st.
Proof.
  destruct (is_json r) eqn:Hj.
  2: { unfold features_qrcode, run_view, generate_qr_code. rewrite Hj. by intros _. }
  destruct (request_json r) as [c|data] eqn:Hd.
  { unfold features_qrcode, run_view, generate_qr_code. rewrite Hj. simpl.
    unfold se_bind, se_lift. rewrite Hd. by intros _. }
  rewrite (features_qrcode_body r data st Hj Hd).
  destruct (features_try_body data st) as [res st'] eqn:E.
  apply features_try_body_files in E as [->|Hf]; [simpl; intros H; exfalso; by apply H|].
  destruct res as [c|rv]; [|by intros _].
  rewrite features_handlers_response. by intros _.
Qed.

Lemma save_under_imgs_err_class st e img c st' :
  save_under_imgs e img st = (inl c, st') -> mem_error (purepath_str [IMGS; e ++ png_suffix]) c.
Proof.
  unfold save_under_imgs, exists_imgs, se_bind. simpl.
  destruct (mem_exists IMGS st); simpl; [apply mem_save_err_class|].
  destruct (mem_mkdir IMGS st) as [[c'|[]] st1] eqn:E1; [|apply mem_save_err_class].
  intros [= <- <-]. apply mem_mkdir_err_class in E1 as [[Hn _]|Ho]; [|by right].
  revert Hn. decide_closed.
Qed.

(** C13: When creating [imgs] or saving the image fails, no file changes
    and the answer is one of the two JSON errors of the [except] clauses:
    400 ["Invalid entry_id"] for a [ValueError], 500 ["Error processing QR
    code"] for an [OSError]; no storage failure reaches Flask's error
    page. *)
Theorem features_storage_error r kvs v img c st st' :
  is_json r = true -> request_json r = inr (PyDict kvs) ->
  dict_get ID_KEY kvs = Some v -> py_str v ≠ [] -> qr_make (py_str v) = inr img ->
  save_under_imgs (py_str v) img st = (inl c, st') ->
  fs_files st' = fs_files st /\
  (features_qrcode r st = (Response 400 (BJson (message "Invalid entry_id")), st') \/
   features_qrcode r st = (Response 500 (BJson (message "Error processing QR code")), st')).
Proof.
  intros Hj Hd Hv Hne Himg Hs.
  rewrite (features_save_failed r kvs v img c st st') by done.
  split; [by destruct (save_under_imgs_files _ _ _ _ _ Hs)|]. unfold features_exc_response.
  destruct (issubclass c ValueError) eqn:Hval; [by left|].
  destruct (save_under_imgs_err_class _ _ _ _ _ Hs) as [[_ ->]|Ho]; [done|].
  rewrite Ho. by right.
Qed.

(** ** What a request does to the stored files *)

Definition png_file (f : abspath) : Prop := exists l, last f = Some (l ++ png_suffix).

(** What a request may do to the files: nothing, or store one encoder image
    under a [.png] name. *)
Definition writes_image st st' : Prop :=
  fs_files st' = fs_files st \/
  exists f e img, png_file f /\ qr_make e = inr img /\ fs_files st' = <[f := img]> (fs_files st).

Lemma path_comps_png u : exists l, last (path_comps (u ++ png_suffix)) = Some (l ++ png_suffix).
Proof.
  destruct (split_on_last_app slash u png_suffix) as [l Hl]; [decide_closed|].
  exists l. unfold path_comps. apply last_filter_kept; [done|]. intros H. destruct l; discriminate H.
Qed.

Lemma mem_save_png st x img st' :
  mem_save (purepath_str [IMGS; x ++ png_suffix]) img st = (inr tt, st') ->
  exists f, png_file f /\ fs_files st' = <[f := img]> (fs_files st).
Proof.
  intros (f & n & Hn & Hf & ->)%mem_save_files. exists f. split; [|done].
  destruct (purepath_png_suffix IMGS x) as [u Hu]. rewrite Hu in Hn.
  destruct (path_comps_png u) as [l Hl]. rewrite Hl in Hn. injection Hn as <-. by exists l.
Qed.

Lemma save_under_imgs_writes st x img res st' :
  save_under_imgs x img st = (res, st') ->
  fs_files st' = fs_files st \/ exists f, png_file f /\ fs_files st' = <[f := img]> (fs_files st).
Proof.
  unfold save_under_imgs, exists_imgs, se_bind. simpl.
  destruct (mem_exists IMGS st); simpl.
  - destruct (mem_save _ img st) as [[c|[]] st1] eqn:E; intros [= <- <-].
    + left. by rewrite (mem_save_err _ _ _ _ _ E).
    + right. by eapply mem_save_png.
  - destruct (mem_mkdir IMGS st) as [[c|[]] st1] eqn:E1.
    + intros [= <- <-]. left. by rewrite (mem_mkdir_err _ _ _ _ E1).
    + rewrite <- (mem_mkdir_files _ _ _ E1).
      destruct (mem_save _ img st1) as [[c|[]] st2] eqn:E; intros [= <- <-].
      * left. by rewrite (mem_save_err _ _ _ _ _ E).
      * right. by eapply mem_save_png.
Qed.

Lemma features_try_body_writes data st res st' :
  features_try_body data st = (res, st') -> writes_image st st'.
Proof.
  unfold features_try_body, se_bind, se_lift, se_ret.
  destruct (py_contains ID_KEY data) as [c|[]]; simpl;
    [by intros [= <- <-]; left| |by intros [= <- <-]; left].
  destruct (py_getitem_str data ID_KEY) as [c|v]; [by intros [= <- <-]; left|].
  destruct (decide (py_str v = [])); [by intros [= <- <-]; left|].
  destruct (qr_make (py_str v)) as [c|img] eqn:Henc; [by intros [= <- <-]; left|].
  destruct (save_under_imgs (py_str v) img st) as [[c|[]] st1] eqn:E; intros [= <- <-];
    (destruct (save_under_imgs_writes _ _ _ _ _ E) as [?|(f & ? & ?)]; [by left|right; eauto 10]).
Qed.

Lemma features_qrcode_writes r st : writes_image st (features_qrcode r st).2.
Proof.
  destruct (is_json r) eqn:Hj.
  2: { left. unfold features_qrcode, run_view, generate_qr_code. by rewrite Hj. }
  destruct (request_json r) as [c|data] eqn:Hd.
  { left. unfold features_qrcode, run_view, generate_qr_code. rewrite Hj. simpl.
    unfold se_bind, se_lift. by rewrite Hd. }
  rewrite (features_qrcode_body r data st Hj Hd).
  destruct (features_try_body data st) as [[c|rv] st'] eqn:E; apply features_try_body_writes in E;
    [rewrite features_handlers_response|]; done.
Qed.

Lemma ensure_imgs_dir st : is_dir (ensure_imgs st) (imgs_dir st).
Proof.
  unfold ensure_imgs. case_decide; [done|]. unfold is_dir, add_dir. simpl. set_solver.
Qed.

Lemma stored_can_store st e img :
  can_store st e -> can_store (put_file (image_path st e) img (ensure_imgs st)) e.
Proof.
  intros (Hnf & Hcwd & Hnd & Hil & Hpl).
  assert (Hcw : fs_cwd (ensure_imgs st) = fs_cwd st) by (unfold ensure_imgs; by case_decide).
  pose proof (image_path_ne_imgs st e) as Hne.
  unfold can_store, image_path, imgs_dir, is_file, is_dir, put_file in *; simpl in *.
  rewrite !Hcw. unfold ensure_imgs; case_decide; simpl;
    rewrite ?dom_insert_L; set_solver.
Qed.

(** C16: Issuing the same successful request twice succeeds both times
    and the second run changes nothing: the file holds the latest image
    (last write wins, and the encoder is a function). *)
Theorem features_idempotent r kvs v img st :
  is_json r = true -> request_json r = inr (PyDict kvs) ->
  dict_get ID_KEY kvs = Some v -> py_str v ≠ [] -> plain_name (py_str v) ->
  qr_make (py_str v) = inr img -> can_store st (py_str v) ->
  features_qrcode r (features_qrcode r st).2 = features_qrcode r st.
Proof.
  intros Hj Hd Hv Hne Hp Henc Hs.
  assert (Hrun : forall st0, can_store st0 (py_str v) ->
            features_qrcode r st0 = (Response 200 (BJson (message "Success")),
               put_file (image_path st0 (py_str v)) img (ensure_imgs st0))).
  { intros st0 Hs0. eapply features_saved; [done..|]. by apply save_under_imgs_ok. }
  rewrite (Hrun st Hs). simpl. rewrite Hrun by (by apply stored_can_store).
  f_equal. set (st2 := ensure_imgs st).
  assert (Hcw : fs_cwd st2 = fs_cwd st) by (unfold st2, ensure_imgs; by case_decide).
  unfold ensure_imgs at 1. rewrite decide_True.
  - unfold image_path at 1, imgs_dir at 1. simpl. rewrite Hcw. apply put_file_idem.
  - unfold is_dir, imgs_dir. simpl. rewrite Hcw. apply ensure_imgs_dir.
Qed.
End OnMemFS.

(** ** Concrete runs

    A server started in [/srv] with an empty store, the same with [imgs]
    already present, and one whose working directory is read-only. *)

Definition SRV : pystr := «"srv"».

Definition demo_fs : memfs pystr := MemFS {[ []; [SRV] ]} ∅ [SRV] ∅.
Definition demo_fs_imgs : memfs pystr := MemFS {[ []; [SRV]; [SRV; IMGS] ]} ∅ [SRV] ∅.
Definition demo_fs_locked : memfs pystr := MemFS {[ []; [SRV] ]} ∅ [SRV] {[ [SRV] ]}.

Definition demo_req (j : option json) : request :=
  Request POST «"/qrcode"» «"application/json"» j [].

Definition id_req (j : json) : request := demo_req (Some (JObj [(ID_KEY, j)])).

Lemma features_success_witness :
  features_qrcode (id_req (JStr «"abc"»)) demo_fs =
  (Response 200 (BJson (message "Success")),
   put_file (image_path demo_fs «"abc"») «"abc"» (ensure_imgs demo_fs)).
Proof.
  apply (features_success _ [(ID_KEY, PyStr «"abc"»)] (PyStr «"abc"»)); try reflexivity.
  - discriminate.
  - unfold plain_name. decide_closed.
  - unfold can_store. decide_closed.
Defined.

Lemma features_files_only_on_success_witness :
  fs_files (features_qrcode (demo_req None) demo_fs).2 = fs_files demo_fs.
Proof. apply features_files_only_on_success. vm_compute. discriminate. Defined.

Lemma features_path_escape_witness :
  features_qrcode (id_req (JStr «"../x"»)) demo_fs_imgs =
    (Response 200 (BJson (message "Success")), put_file ([SRV] ++ [«"x"» ++ png_suffix]) «"../x"» demo_fs_imgs) /\
  features_qrcode (id_req (JStr «"/x"»)) demo_fs_imgs =
    (Response 200 (BJson (message "Success")), put_file [«"x"» ++ png_suffix] «"/x"» demo_fs_imgs).
Proof.
  split.
  - destruct (features_path_escape (id_req (JStr «"../x"»)) [(ID_KEY, PyStr «"../x"»)]
                «"x"» «"../x"» demo_fs_imgs) as [H _];
      [reflexivity|reflexivity|unfold plain_name; decide_closed|decide_closed|].
    apply H; try reflexivity; decide_closed.
  - destruct (features_path_escape (id_req (JStr «"/x"»)) [(ID_KEY, PyStr «"/x"»)]
                «"x"» «"/x"» demo_fs_imgs) as [_ H];
      [reflexivity|reflexivity|unfold plain_name; decide_closed|decide_closed|].
    apply H; try reflexivity; decide_closed.
Defined.

Lemma features_not_json_witness :
  features_qrcode (Request POST «"/qrcode"» «"text/plain"» None []) demo_fs =
  (Response 400 (BJson (message "Request must be JSON")), demo_fs).
Proof. apply features_not_json. reflexivity. Defined.

Lemma features_bad_json_witness :
  features_qrcode (demo_req None) demo_fs = (Response 400 (BHttpError 400), demo_fs).
Proof. apply features_bad_json; reflexivity. Defined.

Lemma features_missing_id_witness :
  features_qrcode (demo_req (Some (JObj [(«"id"», JStr «"abc"»)]))) demo_fs =
  (Response 400 (BJson (message "entry_id not provided")), demo_fs).
Proof. apply (features_missing_id _ [(«"id"», PyStr «"abc"»)]); [reflexivity|reflexivity|decide_closed]. Defined.

Lemma features_empty_id_witness :
  features_qrcode (id_req (JStr [])) demo_fs =
  (Response 400 (BJson (message "entry_id is empty")), demo_fs).
Proof. apply (features_empty_id _ [(ID_KEY, PyStr [])]); reflexivity. Defined.

Lemma features_encoder_error_witness :
  features_qrcode (id_req (JStr (replicate 2332 "a"%char))) demo_fs =
  (features_exc_response DataOverflowError, demo_fs).
Proof.
  apply (features_encoder_error _ [(ID_KEY, PyStr (replicate 2332 "a"%char))]
           (PyStr (replicate 2332 "a"%char))); try reflexivity.
  discriminate.
Defined.

Lemma features_storage_error_witness :
  fs_files demo_fs_locked = fs_files demo_fs_locked /\
  (features_qrcode (id_req (JStr «"abc"»)) demo_fs_locked =
     (Response 400 (BJson (message "Invalid entry_id")), demo_fs_locked) \/
   features_qrcode (id_req (JStr «"abc"»)) demo_fs_locked =
     (Response 500 (BJson (message "Error processing QR code")), demo_fs_locked)).
Proof.
  apply (features_storage_error _ [(ID_KEY, PyStr «"abc"»)] (PyStr «"abc"») «"abc"» PermissionError);
    try reflexivity.
  discriminate.
Defined.

Lemma features_long_name_witness :
  features_qrcode (id_req (JStr (replicate 252 "a"%char))) demo_fs_imgs =
  (Response 500 (BJson (message "Error processing QR code")), demo_fs_imgs).
Proof.
  apply (features_long_name _ [(ID_KEY, PyStr (replicate 252 "a"%char))]
           (PyStr (replicate 252 "a"%char)) (replicate 252 "a"%char)); try reflexivity.
  all: decide_closed.
Defined.

Lemma features_nul_name_witness :
  features_qrcode (id_req (JStr [nul])) demo_fs_imgs =
  (Response 400 (BJson (message "Invalid entry_id")), demo_fs_imgs).
Proof.
  apply (features_nul_name _ [(ID_KEY, PyStr [nul])] (PyStr [nul]) [nul]); try reflexivity.
  all: decide_closed.
Defined.

Lemma features_idempotent_witness :
  features_qrcode (id_req (JStr «"abc"»)) (features_qrcode (id_req (JStr «"abc"»)) demo_fs).2 =
  features_qrcode (id_req (JStr «"abc"»)) demo_fs.
Proof.
  apply (features_idempotent _ [(ID_KEY, PyStr «"abc"»)] (PyStr «"abc"») «"abc"»); try reflexivity.
  - discriminate.
  - unfold plain_name. decide_closed.
  - unfold can_store. decide_closed.
Defined.

Lemma features_non_object_body_witness :
  features_qrcode (demo_req (Some (JArr [JStr ID_KEY]))) demo_fs =
  (Response 500 (BHttpError 500), demo_fs).
Proof.
  apply (features_non_object_body _ (PyList [PyStr ID_KEY])); [reflexivity|reflexivity|discriminate].
Defined.

Lemma features_str_coercion_witness :
  features_qrcode (id_req (JNum 1)) demo_fs_imgs = features_qrcode (id_req (JStr «"1"»)) demo_fs_imgs.
Proof.
  apply (features_str_coercion _ _ [(ID_KEY, PyInt 1)] [(ID_KEY, PyStr «"1"»)] (PyInt 1) (PyStr «"1"»));
    reflexivity.
Defined.

End Features.
