(* ===== verification/Checkpoint.v ===== *)
(** * The checkpoint draft: [src/project-root/features/.ipynb_checkpoints/backend-checkpoint.py]

    [generate_qr_code] of the draft (lines 7-19) differs from the current
    handler in four ways that the theorems below make precise:
    - it reads the identifier from [request.form] ([form.get("_id")]), so a
      JSON request never carries one;
    - it answers with a [dict] whose ["status"] field says 500 while the
      HTTP status is 200;
    - it never creates [imgs], so saving fails while the directory is
      missing;
    - its [except ValueError():] clause names an instance: whenever an
      exception reaches it, evaluating the clause raises [TypeError], so
      every error of the [try] block becomes an HTTP 500. *)

From S2P Require Import Prelude PyExc PyValue PurePath FileSystem Flask Features.
From Stdlib Require Import Ascii String ZArith.
Import PyExc PyValue PurePath FileSystem Flask Features.

Module Checkpoint.

(** [{"status": code, "message": m}]. *)
Definition status_message (code : Z) (m : string) : pyval :=
  PyDict [(«"status"», PyInt code); («"message"», PyStr (lit m))].

Section Handler.
Context {S Img : Type} `{!OS S Img} `{!QREncoder Img}.

(** Lines 11-17, the body of the [try]. *)
Definition checkpoint_try_body (r : request) : SE exc_class S view_ret :=
  let entry_id := form_get r ID_KEY in
  match entry_id with
  | PyNone => se_ret (RetDict (status_message 500 "entry_id not provided"))
  | _ =>
      let entry_id := py_str entry_id in
      img <- se_lift (qr_make entry_id) ;;
      image_save (purepath_str [IMGS; entry_id ++ png_suffix]) img ;;;
      se_ret (RetDict (status_message 200 "Success"))
  end.

(** Lines 18-19, [except ValueError():]. *)
Definition checkpoint_handlers : list (except_spec * SE exc_class S view_ret) :=
  [(ExceptInstance ValueError, se_ret (RetDict (status_message 500 "Invalid entry_id")))].

(** Lines 8-19.  The route only admits [POST], so the test of line 9 holds
    whenever Flask calls the view; were it false, the view would return
    [None], which Flask rejects with [TypeError]. *)
Definition checkpoint_generate_qr_code (r : request) : SE exc_class S view_ret :=
  if decide (req_method r = POST) then
    PyExc.try_except (checkpoint_try_body r) checkpoint_handlers
  else se_raise TypeError.

Definition checkpoint_qrcode (r : request) (s : S) : response * S :=
  run_view (checkpoint_generate_qr_code r) s.
End Handler.

Section Generic.
Context {S Img : Type} `{!OS S Img} `{!QREncoder Img}.

Lemma checkpoint_qrcode_post r s :
  req_method r = POST ->
  checkpoint_qrcode r s =
    match checkpoint_try_body r s with
    | (inr rv, s') => (make_response rv, s')
    | (inl e, s') => run_view (run_handlers checkpoint_handlers e) s'
    end.
Proof.
  intros Hp. unfold checkpoint_qrcode, run_view at 1, checkpoint_generate_qr_code.
  rewrite decide_True by done. unfold try_except.
  by destruct (checkpoint_try_body r s) as [[e|rv] s'].
Qed.

(** The single clause raises [TypeError] whatever reaches it. *)
Lemma checkpoint_handlers_typeerror c s :
  run_view (run_handlers (checkpoint_handlers (S:=S)) c) s = (Response 500 (BHttpError 500), s).
Proof. done. Qed.

(** C27: Without ["_id"] in the form (in particular for every JSON
    request), the draft answers HTTP 200 with a body whose ["status"] field
    says 500: the HTTP status does not report the error. *)
Theorem checkpoint_missing_id r s :
  req_method r = POST -> multidict_first ID_KEY (request_form r) = None ->
  checkpoint_qrcode r s =
    (Response 200 (BJson (status_message 500 "entry_id not provided")), s).
Proof.
  intros Hp Hf. rewrite checkpoint_qrcode_post by done.
  unfold checkpoint_try_body, form_get. by rewrite Hf.
Qed.

(** C28: [except ValueError():] catches nothing: whatever the [try] block
    raises, a [ValueError] included, evaluating the clause raises
    [TypeError] and Flask answers 500 with its error page; the state is
    the one the failing call left. *)
Theorem checkpoint_exception_500 r s c s' :
  req_method r = POST -> checkpoint_try_body r s = (inl c, s') ->
  checkpoint_qrcode r s = (Response 500 (BHttpError 500), s').
Proof.
  intros Hp Hb. rewrite checkpoint_qrcode_post by done. rewrite Hb.
  apply checkpoint_handlers_typeerror.
Qed.
End Generic.

Section OnMemFS.
Context {Img : Type} `{!QREncoder Img}.
Implicit Types (st : memfs Img) (e : pystr).

Lemma checkpoint_try_body_id r e :
  multidict_first ID_KEY (request_form r) = Some e ->
  checkpoint_try_body (S:=memfs Img) r =
    (img <- se_lift (qr_make e) ;;
     image_save (purepath_str [IMGS; e ++ png_suffix]) img ;;;
     se_ret (RetDict (status_message 200 "Success"))).
Proof. intros Hf. unfold checkpoint_try_body, form_get. by rewrite Hf. Qed.

Lemma lookup_image_no_imgs st e :
  plain_name e -> ~ is_dir st (imgs_dir st) -> ~ is_file st (imgs_dir st) ->
  lookup st (purepath_str [IMGS; e ++ png_suffix]) = inl FileNotFoundError.
Proof.
  intros Hp Hnd Hnf. rewrite lookup_under_imgs by done.
  simpl. by rewrite !decide_False.
Qed.

(** C29: The draft never creates [imgs]: while the directory is missing,
    saving fails with [FileNotFoundError], which the broken [except]
    clause turns into a 500; nothing is written and the directory stays
    missing. *)
Theorem checkpoint_no_mkdir r e img st :
  req_method r = POST -> multidict_first ID_KEY (request_form r) = Some e ->
  plain_name e -> qr_make e = inr img ->
  ~ is_dir st (imgs_dir st) -> ~ is_file st (imgs_dir st) ->
  checkpoint_qrcode r st = (Response 500 (BHttpError 500), st).
Proof.
  intros Hp Hf Hpl Himg Hnd Hnf. rewrite checkpoint_qrcode_post by done.
  rewrite (checkpoint_try_body_id r e Hf). unfold se_bind, se_lift. rewrite Himg.
  simpl. unfold mem_save. rewrite lookup_image_no_imgs by done.
  exact (checkpoint_handlers_typeerror FileNotFoundError st).
Qed.
(** C30: With [imgs] present and writable, the draft stores the image at
    [imgs/<id>.png] and answers 200; the empty identifier is accepted too
    (it writes [imgs/.png]), since the draft has no emptiness check. *)
Theorem checkpoint_success r e img st :
  req_method r = POST -> multidict_first ID_KEY (request_form r) = Some e ->
  plain_name e -> qr_make e = inr img -> is_dir st (imgs_dir st) ->
  ~ is_dir st (image_path st e) -> image_path st e ∉ fs_locked st -> imgs_dir st ∉ fs_locked st ->
  checkpoint_qrcode r st =
    (Response 200 (BJson (status_message 200 "Success")), put_file (image_path st e) img st).
Proof.
  intros Hp Hf Hpl Himg Hdir Hnd Hfl Hil. rewrite checkpoint_qrcode_post by done.
  rewrite (checkpoint_try_body_id r e Hf). unfold se_bind, se_lift. rewrite Himg. simpl.
  rewrite (mem_save_entry st _ (imgs_dir st) (e ++ png_suffix)); [done| |done|done|auto].
  by apply lookup_image.
Qed.
Lemma encode_and_save_writes x (rv : view_ret) st res st' :
  (img <- se_lift (qr_make x) ;;
   image_save (purepath_str [IMGS; x ++ png_suffix]) img ;;; se_ret rv) st = (res, st') ->
  writes_image st st'.
Proof.
  unfold se_bind, se_lift, se_ret. destruct (qr_make x) as [c|img] eqn:Henc; [by intros [= <- <-]; left|].
  simpl. destruct (mem_save _ img st) as [[c|[]] st1] eqn:E; intros [= <- <-].
  - left. by rewrite (mem_save_err _ _ _ _ _ E).
  - apply mem_save_png in E as (f & ? & ?). right. eauto 10.
Qed.

Lemma checkpoint_qrcode_writes r st : writes_image st (checkpoint_qrcode r st).2.
Proof.
  destruct (decide (req_method r = POST)) as [Hp|Hp].
  - rewrite checkpoint_qrcode_post by done.
    destruct (checkpoint_try_body r st) as [[c|rv] st'] eqn:E;
      [rewrite checkpoint_handlers_typeerror|];
      (revert E; unfold checkpoint_try_body; destruct (form_get r ID_KEY);
       try (intros [= <- <-]; by left); apply encode_and_save_writes).
  - left. unfold checkpoint_qrcode, run_view, checkpoint_generate_qr_code. by rewrite decide_False.
Qed.

End OnMemFS.

(** ** Concrete runs *)

Definition form_req (fields : list (pystr * pystr)) : request :=
  Request POST «"/qrcode"» «"application/x-www-form-urlencoded"» None fields.

Lemma checkpoint_missing_id_witness :
  checkpoint_qrcode (id_req (JStr «"abc"»)) demo_fs =
  (Response 200 (BJson (status_message 500 "entry_id not provided")), demo_fs).
Proof. apply checkpoint_missing_id; reflexivity. Defined.

Lemma checkpoint_exception_500_witness :
  checkpoint_qrcode (form_req [(ID_KEY, «"abc"»)]) demo_fs = (Response 500 (BHttpError 500), demo_fs).
Proof. apply (checkpoint_exception_500 _ _ FileNotFoundError); reflexivity. Defined.

Lemma checkpoint_no_mkdir_witness :
  checkpoint_qrcode (form_req [(ID_KEY, «"abc"»)]) demo_fs = (Response 500 (BHttpError 500), demo_fs).
Proof.
  apply (checkpoint_no_mkdir _ «"abc"» «"abc"»); try reflexivity.
  all: try (unfold plain_name); decide_closed.
Defined.

Lemma checkpoint_success_witness :
  checkpoint_qrcode (form_req [(ID_KEY, [])]) demo_fs_imgs =
  (Response 200 (BJson (status_message 200 "Success")),
   put_file (image_path demo_fs_imgs []) [] demo_fs_imgs).
Proof.
  apply checkpoint_success; try reflexivity.
  all: try (unfold plain_name); decide_closed.
Defined.

End Checkpoint.
