(* ===== verification/Legacy.v ===== *)
(** * The first draft: [src/backend.py]

    The draft's view reads names that its module does not bind as it
    expects, so the model keeps the module's global namespace explicit:
    - line 1 binds [qrcode] to the module, line 2 [Flask], line 4 [app];
    - lines 6-7 [def qrcode()] rebind [qrcode] to the view function itself
      ([app.route] returns the function it registers);
    - lines 17-18 bind [main].
    [request] is never imported, and [status] and [message] (the keys of
    the returned dicts) are never bound.  The view ([legacy_view], lines
    8-15) looks every name up in a namespace [g], so the theorems can state
    what happens with the module's namespace and with a repaired import.
    The objects and [load_global] are those of Namespace.v. *)

From S2P Require Import Prelude PyExc PyValue Namespace PurePath FileSystem Flask Features Checkpoint.
From Stdlib Require Import Ascii String ZArith.
Import PyExc PyValue Namespace PurePath FileSystem Flask Features.

Module Legacy.

(** The bindings of the module's top-level statements, in order. *)
Definition module_bindings : list (pystr * gobj) :=
  [(«"qrcode"», GModule «"qrcode"»);
   («"Flask"», GClass «"Flask"»);
   («"app"», GFlaskApp);
   («"qrcode"», GFunction «"qrcode"»);
   («"main"», GFunction «"main"»)].

(** The module's namespace after it has run. *)
Definition legacy_globals : list (pystr * gobj) := dict_of_pairs module_bindings.

(** [request.method]. *)
Definition get_method (o : gobj) (r : request) : exc_class + http_method :=
  match o with
  | GRequestProxy => inr (req_method r)
  | _ => inl AttributeError
  end.

(** [request.form["_id"]]. *)
Definition get_form_item (o : gobj) (r : request) (k : pystr) : exc_class + pystr :=
  match o with
  | GRequestProxy => form_getitem r k
  | _ => inl AttributeError
  end.

Section Handler.
Context {S Img : Type} `{!OS S Img} `{!QREncoder Img}.

(** [qrcode.make(entry_id)] on whatever [qrcode] denotes. *)
Definition call_make (o : gobj) (s : pystr) : exc_class + Img :=
  match o with
  | GModule m => if decide (m = «"qrcode"») then qr_make s else inl AttributeError
  | _ => inl AttributeError
  end.

(** The dict display [{status: code, message: m}]: both key names are
    looked up first; Flask serialises the dict only when its keys are
    strings, and raises [TypeError] otherwise. *)
Definition dict_display (g : list (pystr * gobj)) (code : Z) (m : string) : SE exc_class S view_ret :=
  k1 <- se_lift (load_global g «"status"») ;;
  k2 <- se_lift (load_global g «"message"») ;;
  match k1, k2 with
  | GStr s1, GStr s2 => se_ret (RetDict (PyDict (dict_of_pairs [(s1, PyInt code); (s2, PyStr (lit m))])))
  | _, _ => se_raise TypeError
  end.

(** Lines 10-13, the body of the [try]. *)
Definition legacy_try_body (g : list (pystr * gobj)) (r : request) : SE exc_class S view_ret :=
  rq <- se_lift (load_global g «"request"») ;;
  entry_id <- se_lift (get_form_item rq r ID_KEY) ;;
  q <- se_lift (load_global g «"qrcode"») ;;
  img <- se_lift (call_make q entry_id) ;;
  image_save (entry_id ++ png_suffix) img ;;;
  dict_display g 200 "Success".

(** Lines 14-15, [except ValueError():]. *)
Definition legacy_handlers (g : list (pystr * gobj)) : list (except_spec * SE exc_class S view_ret) :=
  [(ExceptInstance ValueError, dict_display g 500 "Invalid entry_id")].

(** Lines 7-15: the view [qrcode]. *)
Definition legacy_view (g : list (pystr * gobj)) (r : request) : SE exc_class S view_ret :=
  rq <- se_lift (load_global g «"request"») ;;
  m <- se_lift (get_method rq r) ;;
  if decide (m = POST) then PyExc.try_except (legacy_try_body g r) (legacy_handlers g)
  else se_raise TypeError.

Definition legacy_qrcode (g : list (pystr * gobj)) (r : request) (s : S) : response * S :=
  run_view (legacy_view g r) s.
End Handler.

(** [from flask import Flask, request]: the import the view needs. *)
Definition repaired_globals : list (pystr * gobj) :=
  dict_of_pairs ((«"request"», GRequestProxy) :: module_bindings).

Lemma legacy_globals_names :
  dict_get «"qrcode"» legacy_globals = Some (GFunction «"qrcode"») /\
  dict_get «"request"» legacy_globals = None /\
  dict_get «"qrcode"» repaired_globals = Some (GFunction «"qrcode"») /\
  dict_get «"request"» repaired_globals = Some GRequestProxy.
Proof. vm_compute. auto. Qed.

Section Theorems.
Context {S Img : Type} `{!OS S Img} `{!QREncoder Img}.

(** C31: The first draft answers every request with 500 and never touches
    the state: its view reads [request], which the module never imports,
    and the [NameError] is raised before any other statement runs. *)
Theorem legacy_always_500 r (s : S) :
  legacy_qrcode (Img:=Img) legacy_globals r s = (Response 500 (BHttpError 500), s).
Proof.
  unfold legacy_qrcode, run_view, legacy_view, se_bind, se_lift, load_global.
  by rewrite (proj1 (proj2 legacy_globals_names)).
Qed.

(** C32: Repairing the import does not make the draft work: the name
    [qrcode] denotes the view function (its [def] rebinds it), so
    [qrcode.make] raises [AttributeError]; a form without ["_id"] raises
    [BadRequestKeyError]; and [except ValueError():] turns both into
    [TypeError].  Every [POST] is answered 500 and nothing is written. *)
Theorem legacy_repaired_import_500 r (s : S) :
  req_method r = POST ->
  legacy_qrcode (Img:=Img) repaired_globals r s = (Response 500 (BHttpError 500), s).
Proof.
  intros Hp. destruct legacy_globals_names as (_ & _ & Hq & Hr).
  unfold legacy_qrcode, run_view, legacy_view, se_bind at 1 2, se_lift, load_global.
  rewrite Hr. simpl. rewrite Hp, decide_True by done. unfold try_except, legacy_try_body.
  unfold se_bind, se_lift, load_global. rewrite Hr. simpl.
  destruct (form_getitem r ID_KEY) as [c|e]; [done|]. simpl. by rewrite ?Hq.
Qed.
End Theorems.

Lemma legacy_repaired_import_500_witness :
  legacy_qrcode (Img:=pystr) repaired_globals (Checkpoint.form_req [(ID_KEY, «"abc"»)]) demo_fs =
  (Response 500 (BHttpError 500), demo_fs).
Proof. apply legacy_repaired_import_500. reflexivity. Defined.

End Legacy.
