(* ===== verification/App.v ===== *)
(** * The three applications as servers

    Each of the three files builds a Flask application with two routes,
    [POST /qrcode] and [GET /] ([main], which returns a constant HTML
    fragment).  This file models:
    - werkzeug's routing ([Map.bind_to_environ().match]: [NotFound] when no
      rule has the path, [MethodNotAllowed] when one has it but not the
      method; [HEAD] is allowed with [GET], [OPTIONS] everywhere) and
      Flask's dispatch ([Flask.dispatch_request], with its automatic
      [OPTIONS] answer), in [dispatch];
    - the three applications [features_app], [checkpoint_app] and
      [legacy_app];
    - the server as a step relation on the in-memory file system: a request
      is answered, or the operator deletes [imgs] ([server_step]);
    - the specification's validation table (section 4.1) as an abstract
      relation [spec_handle] on a request in a state, and the refinement
      of it by [features_app].

    The theorems: [GET /] answers 200 in every state; routing errors; the
    store only ever holds encoder images under names ending in [".png"]
    (an invariant of [server_step], by rule induction); [imgs] is created
    again after it is deleted; [features_app] refines the table. *)

From S2P Require Import Prelude PyExc PyValue PurePath FileSystem Flask Features Checkpoint Legacy.
From Stdlib Require Import Ascii String ZArith.
Import PyExc PyValue PurePath FileSystem Flask Features Checkpoint Legacy.

Module App.

(** ** The main page *)

Definition nl : ascii := "010"%char.
Definition dq : ascii := "034"%char.

(** The string literal of [main] (features lines 32-35, checkpoint lines
    23-26, first draft lines 19-22): a newline, two indented lines and the
    indentation of the closing quotes. *)
Definition main_html : pystr :=
  nl :: «"        <h1 style="» ++ dq :: «"text-align:center;"» ++ dq :: «">Main Page</h1>"» ++
  nl :: «"        <p style="» ++ dq :: «"text-align:center;"» ++ dq ::
  «">This is the main page of the backend use other routes to make requests</p>"» ++
  nl :: «"        "».

Definition main_view {S} : SE exc_class S view_ret := se_ret (RetStr main_html).

(** ** Routing *)

Inductive endpoint := EQrcode | EMain.

Record rule := Rule { rule_path : pystr; rule_methods : list http_method; rule_endpoint : endpoint }.

(** The methods a rule accepts: those given to [app.route], [HEAD] when
    [GET] is one of them (werkzeug's [Rule]), and [OPTIONS] (Flask's
    [provide_automatic_options]). *)
Definition rule_allows (ru : rule) (m : http_method) : bool :=
  bool_decide (m ∈ rule_methods ru \/ (m = HEAD /\ GET ∈ rule_methods ru) \/ m = OPTIONS).

(** [@app.route("/qrcode", methods=['POST'])] and [@app.route("/")], the
    same in the three files. *)
Definition app_rules : list rule :=
  [Rule «"/qrcode"» [POST] EQrcode; Rule «"/"» [GET] EMain].

(** [MapAdapter.match]: the first rule with the path and the method;
    [MethodNotAllowed] when some rule has the path, [NotFound] otherwise. *)
Definition match_request (rules : list rule) (r : request) : exc_class + rule :=
  let cands := filter (fun ru => rule_path ru = req_path r) rules in
  match List.find (fun ru => rule_allows ru (req_method r)) cands with
  | Some ru => inr ru
  | None => inl (if decide (cands = []) then NotFound else MethodNotAllowed)
  end.

(** [Flask.full_dispatch_request]: a routing error becomes its error page,
    [OPTIONS] gets the default answer (an empty 200 with an [Allow]
    header), any other method runs the view of the rule. *)
Definition dispatch {S} (views : endpoint -> request -> S -> response * S)
    (r : request) (s : S) : response * S :=
  match match_request app_rules r with
  | inl e => (exception_response e, s)
  | inr ru =>
      if decide (req_method r = OPTIONS) then (Response 200 (BHtml []), s)
      else views (rule_endpoint ru) r s
  end.

Section Apps.
Context {S Img : Type} `{!OS S Img} `{!QREncoder Img}.

Definition features_views (ep : endpoint) : request -> S -> response * S :=
  match ep with
  | EQrcode => features_qrcode
  | EMain => fun _ => run_view main_view
  end.

Definition checkpoint_views (ep : endpoint) : request -> S -> response * S :=
  match ep with
  | EQrcode => checkpoint_qrcode
  | EMain => fun _ => run_view main_view
  end.

Definition legacy_views (ep : endpoint) : request -> S -> response * S :=
  match ep with
  | EQrcode => legacy_qrcode (Img:=Img) legacy_globals
  | EMain => fun _ => run_view main_view
  end.

Definition features_app : request -> S -> response * S := dispatch features_views.
Definition checkpoint_app : request -> S -> response * S := dispatch checkpoint_views.
Definition legacy_app : request -> S -> response * S := dispatch legacy_views.
End Apps.

(** ** Routing lemmas *)

Lemma dispatch_qrcode {S} views r (s : S) :
  req_path r = «"/qrcode"» -> req_method r = POST -> dispatch views r s = views EQrcode r s.
Proof. intros Hp Hm. unfold dispatch, match_request. rewrite Hp, Hm. reflexivity. Qed.

Lemma dispatch_main {S} views r (s : S) :
  req_path r = «"/"» -> req_method r = GET \/ req_method r = HEAD ->
  dispatch views r s = views EMain r s.
Proof. intros Hp [Hm|Hm]; unfold dispatch, match_request; rewrite Hp, Hm; reflexivity. Qed.

Section Routing.
Context {S Img : Type} `{!OS S Img} `{!QREncoder Img}.

(** C23: [GET /] (and [HEAD /]) answers 200 with the page of [main] in
    every state and changes nothing, in each of the three applications. *)
Theorem main_page_always_200 r (s : S) :
  req_path r = «"/"» -> req_method r = GET \/ req_method r = HEAD ->
  features_app r s = (Response 200 (BHtml main_html), s) /\
  checkpoint_app r s = (Response 200 (BHtml main_html), s) /\
  legacy_app (Img:=Img) r s = (Response 200 (BHtml main_html), s).
Proof. intros Hp Hm. unfold features_app, checkpoint_app, legacy_app. by rewrite !dispatch_main. Qed.

(** C24: Routing errors never reach a view: a path other than [/qrcode]
    and [/] is answered 404, a method a route does not accept 405 (in
    particular [GET /qrcode]), and the state is unchanged. *)
Theorem routing_errors views r (s : S) :
  (req_path r ≠ «"/qrcode"» -> req_path r ≠ «"/"» ->
   dispatch views r s = (Response 404 (BHttpError 404), s)) /\
  (req_path r = «"/qrcode"» -> req_method r ∉ [POST; OPTIONS] ->
   dispatch views r s = (Response 405 (BHttpError 405), s)) /\
  (req_path r = «"/"» -> req_method r ∉ [GET; HEAD; OPTIONS] ->
   dispatch views r s = (Response 405 (BHttpError 405), s)).
Proof.
  unfold dispatch, match_request. split_and!.
  - intros H1 H2. unfold app_rules. rewrite !filter_cons_False, filter_nil by (cbn [rule_path]; naive_solver).
    reflexivity.
  - intros Hp Hm. rewrite Hp. destruct (req_method r); try set_solver; reflexivity.
  - intros Hp Hm. rewrite Hp. destruct (req_method r); try set_solver; reflexivity.
Qed.
End Routing.

(** ** The server over the in-memory file system *)

Section Server.
Context {Img : Type}.
Variable app : request -> memfs Img -> response * memfs Img.

(** One step of the running server: it answers a request, or the operator
    deletes [imgs] with everything below it. *)
Inductive server_step : memfs Img -> memfs Img -> Prop :=
| step_request r st : server_step st (app r st).2
| step_remove_imgs st : server_step st (remove_tree (imgs_dir st) st).
End Server.

Section Store.
Context {Img : Type} `{!QREncoder Img}.
Implicit Types (st : memfs Img).

(** Every stored file is named [<something>.png] and holds an image the
    encoder produced. *)
Definition store_ok st : Prop :=
  map_Forall (fun f img => png_file f /\ exists e, qr_make e = inr img) (fs_files st).

Lemma dispatch_writes views :
  (forall ep r st, writes_image st (views ep r st).2) ->
  forall r st, writes_image st (dispatch views r st).2.
Proof.
  intros Hv r st. unfold dispatch. destruct (match_request app_rules r) as [c|ru]; [by left|].
  case_decide; [by left|]. apply Hv.
Qed.

Lemma store_ok_writes st st' : store_ok st -> writes_image st st' -> store_ok st'.
Proof.
  intros Hok [Heq|(f & e & img & Hf & He & Heq)]; unfold store_ok; rewrite Heq; [done|].
  apply map_Forall_insert_2; eauto.
Qed.

Lemma store_ok_remove st d : store_ok st -> store_ok (remove_tree d st).
Proof.
  intros Hok f img Hl. apply map_lookup_filter_Some in Hl as [Hl _]. by apply (Hok f img).
Qed.

Lemma app_store_invariant (app : request -> memfs Img -> response * memfs Img) st st' :
  (forall r st, writes_image st (app r st).2) ->
  store_ok st -> rtc (server_step app) st st' -> store_ok st'.
Proof.
  intros Happ Hok Hsteps. induction Hsteps as [st|st st1 st' Hstep _ IH]; [done|].
  apply IH. destruct Hstep as [r st|st]; [|by apply store_ok_remove].
  eapply store_ok_writes; [done|]. apply Happ.
Qed.

(** C5: Whatever requests arrive, in whatever order, and whenever the
    operator deletes [imgs], the current handler and the checkpoint draft
    keep the store clean: if every file is named [<something>.png] and
    holds an image the encoder produced, this stays true.  Even an
    identifier with [../] or a leading slash, which writes outside [imgs],
    can only create or overwrite a [.png] file with a QR image. *)
Theorem store_invariant st st' :
  store_ok st ->
  (rtc (server_step features_app) st st' -> store_ok st') /\
  (rtc (server_step checkpoint_app) st st' -> store_ok st').
Proof.
  intros Hok. split; intros Hsteps; (eapply app_store_invariant; [|exact Hok|exact Hsteps]);
    apply dispatch_writes; (intros []; [|by left]);
    [apply features_qrcode_writes|apply checkpoint_qrcode_writes].
Qed.

(** ** Deleting [imgs] *)

Lemma removed_absent st d x :
  d `prefix_of` x -> ~ is_dir (remove_tree d st) x /\ ~ is_file (remove_tree d st) x.
Proof.
  intros Hp. unfold is_dir, is_file, remove_tree; simpl. split.
  - rewrite elem_of_filter. tauto.
  - rewrite elem_of_dom. intros [img Hl]. apply map_lookup_filter_Some in Hl as [_ Hl]. done.
Qed.

(** C19: Directory auto-creation: after the operator deletes [imgs] and
    everything below it, a valid [POST /qrcode] creates the directory
    again, stores the image in it and answers 200. *)
Theorem features_recreates_imgs r kvs v img st :
  req_path r = «"/qrcode"» -> req_method r = POST ->
  is_json r = true -> request_json r = inr (PyDict kvs) ->
  dict_get ID_KEY kvs = Some v -> py_str v ≠ [] -> plain_name (py_str v) ->
  qr_make (py_str v) = inr img ->
  fs_cwd st ∉ fs_locked st -> imgs_dir st ∉ fs_locked st -> image_path st (py_str v) ∉ fs_locked st ->
  features_app r (remove_tree (imgs_dir st) st) =
    (Response 200 (BJson (message "Success")),
     put_file (image_path st (py_str v)) img
       (add_dir (imgs_dir st) (remove_tree (imgs_dir st) st))).
Proof.
  intros Hp Hm Hj Hd Hv Hne Hpl Henc Hc Hi Hl. set (st1 := remove_tree (imgs_dir st) st).
  assert (Hdir : ~ is_dir st1 (imgs_dir st) /\ ~ is_file st1 (imgs_dir st)) by by apply removed_absent.
  assert (Himg : ~ is_dir st1 (image_path st (py_str v))) by (apply removed_absent; by eexists).
  unfold features_app. rewrite dispatch_qrcode by done.
  eapply features_saved; [done..|]. rewrite (save_under_imgs_ok st1 _ img Hpl).
  - unfold ensure_imgs. by rewrite decide_False by (apply Hdir).
  - unfold can_store. change (imgs_dir st1) with (imgs_dir st).
    change (image_path st1 (py_str v)) with (image_path st (py_str v)). naive_solver.
Qed.
End Store.

(** ** The specification's validation table

    Section 4.1 of the specification classifies every request into one
    outcome, each with its status and message.  The encoder ([encode]) is
    the environment: it decides between [InvalidIdentifier] and the
    storage step.  The state of the file system decides the storage step:
    [StorageFailure] when creating [imgs] or writing [imgs/<id>.png]
    fails, [Success] when both succeed ([spec_can_write]).  On success the
    image is stored at the path the identifier names; on any failure no
    file changes. *)

Inductive outcome :=
| InvalidBody | MissingIdentifier | EmptyIdentifier | InvalidIdentifier | StorageFailure | Success.

Definition outcome_status (o : outcome) : Z :=
  match o with
  | StorageFailure => 500
  | Success => 200
  | _ => 400
  end.

Definition outcome_message (o : outcome) : string :=
  match o with
  | InvalidBody => "Request must be JSON"
  | MissingIdentifier => "entry_id not provided"
  | EmptyIdentifier => "entry_id is empty"
  | InvalidIdentifier => "Invalid entry_id"
  | StorageFailure => "Error processing QR code"
  | Success => "Success"
  end.

Definition spec_response (o : outcome) : response :=
  Response (outcome_status o) (BJson (message (outcome_message o))).

Section Spec.
Context {Img : Type} `{!QREncoder Img}.
Implicit Types (st : memfs Img).

(** What the table calls a filesystem create and write that succeed, for
    the file [imgs/<x>.png] below the working directory: [imgs] is a
    directory, or it is absent and can be created in the working
    directory; the file is no directory, and it is an existing writable
    file or a new one that [imgs] lets the server create. *)
Definition spec_can_write st x : Prop :=
  (is_dir st (imgs_dir st) \/ (~ is_file st (imgs_dir st) /\ fs_cwd st ∉ fs_locked st)) /\
  ~ is_dir st (image_path st x) /\
  (is_file st (image_path st x) -> image_path st x ∉ fs_locked st) /\
  (~ is_file st (image_path st x) -> imgs_dir st ∉ fs_locked st).

(** The outcomes the table allows for a request in a state.  Whether a
    valid request ends in [StorageFailure] or [Success] is fixed by the
    state for an identifier that names one file of [imgs]
    ([plain_name]); where a name with a slash lands the table does not
    say, and either is allowed there. *)
Inductive spec_handle st (r : request) : outcome -> Prop :=
| spec_invalid_body :
    is_json r = false -> spec_handle st r InvalidBody
| spec_missing kvs :
    is_json r = true -> request_json r = inr (PyDict kvs) -> ID_KEY ∉ kvs.*1 ->
    spec_handle st r MissingIdentifier
| spec_empty kvs v :
    is_json r = true -> request_json r = inr (PyDict kvs) -> dict_get ID_KEY kvs = Some v ->
    py_str v = [] -> spec_handle st r EmptyIdentifier
| spec_rejected kvs v c :
    is_json r = true -> request_json r = inr (PyDict kvs) -> dict_get ID_KEY kvs = Some v ->
    py_str v ≠ [] -> qr_make (py_str v) = inl c -> spec_handle st r InvalidIdentifier
| spec_storage kvs v img :
    is_json r = true -> request_json r = inr (PyDict kvs) -> dict_get ID_KEY kvs = Some v ->
    py_str v ≠ [] -> qr_make (py_str v) = inr img ->
    (plain_name (py_str v) -> ~ spec_can_write st (py_str v)) -> spec_handle st r StorageFailure
| spec_success kvs v img :
    is_json r = true -> request_json r = inr (PyDict kvs) -> dict_get ID_KEY kvs = Some v ->
    py_str v ≠ [] -> qr_make (py_str v) = inr img ->
    (plain_name (py_str v) -> spec_can_write st (py_str v)) -> spec_handle st r Success.

(** The effect the table allows: on success the encoded image is readable
    at [imgs/<id>.png] and it is the one file written, at
    [<cwd>/imgs/<id>.png] for a plain name; otherwise no file changed. *)
Definition spec_effect (r : request) (o : outcome) st st' : Prop :=
  match o with
  | Success =>
      exists kvs v img, request_json r = inr (PyDict kvs) /\ dict_get ID_KEY kvs = Some v /\
        qr_make (py_str v) = inr img /\
        mem_read (purepath_str [IMGS; py_str v ++ png_suffix]) st' = Some img /\
        exists f, fs_files st' = <[f := img]> (fs_files st) /\
                  (plain_name (py_str v) -> f = image_path st (py_str v))
  | _ => fs_files st' = fs_files st
  end.

(** The requests the table speaks of: a body that is not JSON, or a JSON
    object whose identifier holds no NUL character. *)
Definition spec_domain (r : request) : Prop :=
  is_json r = false \/
  (is_json r = true /\ exists kvs, request_json r = inr (PyDict kvs) /\
     forall v, dict_get ID_KEY kvs = Some v -> nul ∉ py_str v).

(** The encoder rejects data only with a [ValueError]. *)
Definition encoder_value_errors : Prop :=
  forall e c, qr_make e = inl c -> issubclass c ValueError = true.

Lemma save_under_imgs_read st x img st' :
  save_under_imgs x img st = (inr tt, st') ->
  mem_read (purepath_str [IMGS; x ++ png_suffix]) st' = Some img.
Proof.
  unfold save_under_imgs, exists_imgs, se_bind. simpl.
  destruct (mem_exists IMGS st); simpl; [apply mem_save_read|].
  destruct (mem_mkdir IMGS st) as [[c|[]] st1]; [done|apply mem_save_read].
Qed.

Lemma nul_not_in_target x : nul ∉ x -> nul ∉ purepath_str [IMGS; x ++ png_suffix].
Proof.
  intros Hx Hn. apply purepath_str_chars in Hn as [Hn|[Hn|[Hn|Hn]]]; try (revert Hn; decide_closed).
  apply elem_of_app in Hn as [Hn|Hn]; [done|revert Hn; decide_closed].
Qed.

Lemma walk_imgs st :
  walk st (fs_cwd st) [IMGS] =
    if decide (is_dir st (imgs_dir st)) then inr (imgs_dir st)
    else if decide (is_file st (imgs_dir st)) then inl NotADirectoryError else inl FileNotFoundError.
Proof. reflexivity. Qed.

(** [spec_can_write] is exactly when lines 21-23 succeed for a plain
    name: then they write the image at [image_path] and nothing else ... *)
Lemma save_under_imgs_can_write st x img :
  plain_name x -> spec_can_write st x ->
  exists st', save_under_imgs x img st = (inr tt, st') /\
              fs_files st' = <[image_path st x := img]> (fs_files st).
Proof.
  intros Hp (Hd & Hnd & Hf & Hn). unfold save_under_imgs, exists_imgs, se_bind. simpl.
  rewrite exists_imgs_memfs. destruct (decide (is_dir st (imgs_dir st))) as [Hdir|Hndir].
  - rewrite bool_decide_eq_true_2 by auto. simpl. unfold mem_save.
    rewrite lookup_image by done. fold (image_path st x). rewrite decide_False by done.
    case_decide; rewrite decide_False by auto; by eexists.
  - destruct Hd as [?|[Hnf Hcwd]]; [done|]. rewrite bool_decide_eq_false_2 by tauto.
    unfold mem_mkdir. rewrite lookup_imgs. fold (imgs_dir st).
    rewrite decide_False by tauto. rewrite decide_False by done.
    unfold mem_save. set (st1 := add_dir (imgs_dir st) st).
    rewrite (lookup_image st1) by (done || (unfold is_dir; simpl; set_solver)).
    change (imgs_dir st1) with (imgs_dir st). fold (image_path st x).
    change (is_file st1 (image_path st x)) with (is_file st (image_path st x)).
    rewrite decide_False.
    2: { unfold is_dir; simpl. rewrite elem_of_union, elem_of_singleton.
         pose proof (image_path_ne_imgs st x). tauto. }
    case_decide; rewrite decide_False by auto; by eexists.
Qed.

(** ... and only then. *)
Lemma save_under_imgs_can_write_inv st x img st' :
  plain_name x -> save_under_imgs x img st = (inr tt, st') -> spec_can_write st x.
Proof.
  intros Hp. unfold save_under_imgs, exists_imgs, se_bind. simpl.
  rewrite exists_imgs_memfs. unfold spec_can_write.
  destruct (decide (is_dir st (imgs_dir st))) as [Hdir|Hndir].
  - rewrite bool_decide_eq_true_2 by auto. simpl. unfold mem_save.
    rewrite lookup_image by done. fold (image_path st x).
    repeat case_decide; intros; simplify_eq; split_and!; auto.
  - destruct (decide (is_file st (imgs_dir st))) as [Hf|Hnf].
    { rewrite bool_decide_eq_true_2 by auto. simpl. unfold mem_save.
      rewrite lookup_under_imgs, walk_imgs by done. by rewrite decide_False, decide_True. }
    rewrite bool_decide_eq_false_2 by tauto.
    unfold mem_mkdir. rewrite lookup_imgs. fold (imgs_dir st).
    rewrite decide_False by tauto. case_decide as Hcwd; [done|].
    unfold mem_save. set (st1 := add_dir (imgs_dir st) st).
    rewrite (lookup_image st1) by (done || (unfold is_dir; simpl; set_solver)).
    change (imgs_dir st1) with (imgs_dir st). fold (image_path st x).
    change (is_file st1 (image_path st x)) with (is_file st (image_path st x)).
    assert (Hnd : ~ is_dir st1 (image_path st x) <-> ~ is_dir st (image_path st x)).
    { unfold is_dir; simpl. rewrite elem_of_union, elem_of_singleton.
      pose proof (image_path_ne_imgs st x). tauto. }
    repeat case_decide; intros; simplify_eq; split_and!; tauto.
Qed.

(** A successful save writes exactly one file. *)
Lemma save_under_imgs_one_file st x img st' :
  save_under_imgs x img st = (inr tt, st') -> exists f, fs_files st' = <[f := img]> (fs_files st).
Proof.
  unfold save_under_imgs, exists_imgs, se_bind. simpl.
  destruct (mem_exists IMGS st); simpl.
  - intros (f & n & _ & _ & Hf)%mem_save_files. eauto.
  - destruct (mem_mkdir IMGS st) as [[c|[]] st1] eqn:E1; [done|].
    rewrite <- (mem_mkdir_files _ _ _ E1). intros (f & n & _ & _ & Hf)%mem_save_files. eauto.
Qed.

(** A storage failure for an identifier without NUL is an [OSError]. *)
Lemma save_under_imgs_os_error st x img c st' :
  nul ∉ x -> save_under_imgs x img st = (inl c, st') ->
  features_exc_response c = spec_response StorageFailure.
Proof.
  intros Hx Hs. destruct (save_under_imgs_err_class _ _ _ _ _ Hs) as [[Hn _]|Ho].
  - by apply nul_not_in_target in Hn.
  - unfold features_exc_response. by rewrite os_error_not_value, Ho.
Qed.

Lemma features_try_body_missing kvs st :
  ID_KEY ∉ kvs.*1 ->
  features_try_body (PyDict kvs) st = (inr (RetJsonTuple (message "entry_id not provided") 400), st).
Proof. intros Hn. unfold features_try_body, se_bind, se_lift. simpl. by rewrite bool_decide_eq_false_2. Qed.

(** The refinement for a JSON object with an identifier. *)
Lemma features_try_refines r kvs v st :
  encoder_value_errors -> is_json r = true -> request_json r = inr (PyDict kvs) ->
  dict_get ID_KEY kvs = Some v -> nul ∉ py_str v ->
  exists o, spec_handle st r o /\ (features_qrcode r st).1 = spec_response o /\
            spec_effect r o st (features_qrcode r st).2.
Proof.
  intros Henc Hj Hd Hv Hn. rewrite (features_qrcode_body r _ st Hj Hd), (features_try_body_id _ _ _ Hv).
  destruct (decide (py_str v = [])) as [He|Hne].
  { exists EmptyIdentifier. split; [by eapply spec_empty|done]. }
  unfold se_bind, se_lift. destruct (qr_make (py_str v)) as [c|img] eqn:Hq.
  { exists InvalidIdentifier. rewrite !features_handlers_response. split; [by eapply spec_rejected|].
    split; [|done]. simpl. unfold features_exc_response. by rewrite (Henc _ _ Hq). }
  destruct (save_under_imgs (py_str v) img st) as [[c|[]] st'] eqn:Hs.
  - exists StorageFailure. rewrite !features_handlers_response. split.
    { eapply spec_storage; [done..|]. intros Hp Hw.
      destruct (save_under_imgs_can_write st _ img Hp Hw) as (? & Hs' & _). congruence. }
    split; [by eapply save_under_imgs_os_error|].
    by destruct (save_under_imgs_files _ _ _ _ _ Hs).
  - exists Success. split.
    { eapply spec_success; [done..|]. intros Hp. by eapply save_under_imgs_can_write_inv. }
    split; [done|]. exists kvs, v, img. split_and!; [done..|by eapply save_under_imgs_read|].
    destruct (decide (plain_name (py_str v))) as [Hp|Hnp].
    + destruct (save_under_imgs_can_write st _ img Hp) as (st1 & Hs1 & Hf1);
        [by eapply save_under_imgs_can_write_inv|].
      rewrite Hs in Hs1. injection Hs1 as ->. by exists (image_path st (py_str v)).
    + destruct (save_under_imgs_one_file _ _ _ _ Hs) as [f Hf]. by exists f.
Qed.

(** C2: Refinement of the specification's table: on the requests the
    table speaks of, and with an encoder that rejects data only with
    [ValueError], every answer of [POST /qrcode] in every state is the row
    of an outcome the table allows for that request in that state, with
    the status and message of that row, and the file system changes as
    that outcome says.  For an identifier that names a file of [imgs] the
    outcome is fixed: [Success] exactly when [imgs] exists or can be
    created and [imgs/<id>.png] can be written, with that file the only
    one written, and [StorageFailure] with no file changed otherwise. *)
Theorem features_refines_spec r st :
  req_path r = «"/qrcode"» -> req_method r = POST -> spec_domain r -> encoder_value_errors ->
  exists o, spec_handle st r o /\ (features_app r st).1 = spec_response o /\
            spec_effect r o st (features_app r st).2.
Proof.
  intros Hp Hm Hdom Henc. unfold features_app. rewrite dispatch_qrcode by done. cbn [features_views].
  destruct Hdom as [Hj|(Hj & kvs & Hd & Hnul)].
  { exists InvalidBody. unfold features_qrcode, run_view, generate_qr_code. rewrite Hj.
    split; [by constructor|done]. }
  destruct (decide (ID_KEY ∈ kvs.*1)) as [Hin|Hout].
  - apply dict_get_elem in Hin as [v Hv]. by apply (features_try_refines r kvs v), Hnul.
  - exists MissingIdentifier. rewrite (features_qrcode_body r _ st Hj Hd), features_try_body_missing by done.
    split; [by eapply spec_missing|done].
Qed.

Lemma json_not_form r : is_json r = true -> request_form r = [].
Proof.
  unfold request_form, form_mimetype. intros Hj. rewrite bool_decide_eq_false_2; [done|].
  intros [Hm|Hm]; unfold is_json in Hj; rewrite Hm in Hj; vm_compute in Hj; discriminate.
Qed.

(** C25: The checkpoint draft does not implement the table on any JSON
    request: it reads the identifier from [request.form], which is empty
    for a JSON body, and answers HTTP 200 with [{"status": 500, "message":
    "entry_id not provided"}], a body that is no row of the table. *)
Theorem checkpoint_violates_spec r st :
  req_path r = «"/qrcode"» -> req_method r = POST -> is_json r = true ->
  checkpoint_app r st = (Response 200 (BJson (status_message 500 "entry_id not provided")), st) /\
  forall o, (checkpoint_app r st).1 ≠ spec_response o.
Proof.
  intros Hp Hm Hj.
  assert (Hc : checkpoint_app r st =
                 (Response 200 (BJson (status_message 500 "entry_id not provided")), st)).
  { unfold checkpoint_app. rewrite dispatch_qrcode by done. cbn [checkpoint_views].
    rewrite checkpoint_qrcode_post by done. unfold checkpoint_try_body, form_get.
    by rewrite json_not_form. }
  split; [done|]. rewrite Hc. intros []; unfold spec_response, message, status_message; simpl; congruence.
Qed.
End Spec.

(** ** Concrete runs *)

Definition get_req (path : pystr) (m : http_method) : request := Request m path «"text/html"» None [].

(** An encoder that rejects data with [ValueError], as the table assumes. *)
Definition strict_encoder : QREncoder pystr := {|
  qr_make s := if utf8_len s <=? 2331 then inr s else inl ValueError
|}.

Lemma main_page_always_200_witness :
  features_app (get_req «"/"» GET) demo_fs = (Response 200 (BHtml main_html), demo_fs) /\
  checkpoint_app (get_req «"/"» GET) demo_fs = (Response 200 (BHtml main_html), demo_fs) /\
  legacy_app (Img:=pystr) (get_req «"/"» GET) demo_fs = (Response 200 (BHtml main_html), demo_fs).
Proof. apply main_page_always_200; [reflexivity|left; reflexivity]. Defined.

Lemma routing_errors_witness :
  dispatch features_views (get_req «"/qrcode"» GET) demo_fs = (Response 405 (BHttpError 405), demo_fs) /\
  dispatch features_views (get_req «"/img"» GET) demo_fs = (Response 404 (BHttpError 404), demo_fs).
Proof.
  split.
  - destruct (routing_errors features_views (get_req «"/qrcode"» GET) demo_fs) as (_ & H & _).
    apply H; [reflexivity|decide_closed].
  - destruct (routing_errors features_views (get_req «"/img"» GET) demo_fs) as (H & _ & _).
    apply H; decide_closed.
Defined.

Lemma store_invariant_witness :
  store_ok (features_app (id_req (JStr «"abc"»)) demo_fs).2 /\
  store_ok (checkpoint_app (form_req [(ID_KEY, «"abc"»)]) demo_fs).2.
Proof.
  assert (H0 : store_ok demo_fs) by (unfold store_ok; apply map_Forall_empty).
  split; [apply (proj1 (store_invariant demo_fs _ H0))|apply (proj2 (store_invariant demo_fs _ H0))];
    apply rtc_once; constructor.
Defined.

Lemma features_recreates_imgs_witness :
  features_app (id_req (JStr «"abc"»)) (remove_tree (imgs_dir demo_fs_imgs) demo_fs_imgs) =
    (Response 200 (BJson (message "Success")),
     put_file (image_path demo_fs_imgs «"abc"») «"abc"»
       (add_dir (imgs_dir demo_fs_imgs) (remove_tree (imgs_dir demo_fs_imgs) demo_fs_imgs))).
Proof.
  apply (features_recreates_imgs _ [(ID_KEY, PyStr «"abc"»)] (PyStr «"abc"»)); try reflexivity.
  all: try (unfold plain_name); try discriminate; decide_closed.
Defined.

Lemma features_refines_spec_witness :
  exists o, spec_handle (QREncoder0:=strict_encoder) demo_fs (id_req (JStr «"abc"»)) o /\
    (features_app (QREncoder0:=strict_encoder) (id_req (JStr «"abc"»)) demo_fs).1 = spec_response o /\
    spec_effect (QREncoder0:=strict_encoder) (id_req (JStr «"abc"»)) o demo_fs
      (features_app (QREncoder0:=strict_encoder) (id_req (JStr «"abc"»)) demo_fs).2.
Proof.
  apply (features_refines_spec (QREncoder0:=strict_encoder)); [reflexivity|reflexivity| |].
  - right. split; [reflexivity|]. exists [(ID_KEY, PyStr «"abc"»)]. split; [reflexivity|].
    intros v Hv. vm_compute in Hv. injection Hv as <-. decide_closed.
  - intros e c. cbn. destruct (_ <=? _); intros [= <-]. reflexivity.
Defined.

Lemma checkpoint_violates_spec_witness :
  checkpoint_app (id_req (JStr «"abc"»)) demo_fs =
    (Response 200 (BJson (status_message 500 "entry_id not provided")), demo_fs) /\
  forall o, (checkpoint_app (id_req (JStr «"abc"»)) demo_fs).1 ≠ spec_response o.
Proof. apply checkpoint_violates_spec; reflexivity. Defined.

End App.
