(* ===== verification/Typing.v ===== *)
(** * The type of the answers

    What each application can answer, for every request and every
    operating system: the response type of the API that section 6 of the
    spec describes ([api_response]: a JSON object [{"message": m}] whose
    HTTP status is the status of [m]'s row of the table), and the type of
    the checkpoint draft's answers ([draft_response]: a dict
    [{"status": c, "message": m}] always sent with HTTP status 200).  Both
    include the pages Flask builds itself ([flask_page]): an error page of
    status 400, 404, 405 or 500, the main page, and the empty answer to
    [OPTIONS].

    The proofs are type derivations: [se_returns] (Prelude) is the typing
    judgement of a view's computation, with one rule per construct of the
    monad and of [try] (PyExc), [run_view_typed] (Flask) lifts it to
    Flask's answer, and [dispatch_typed] to the application.

    On the wire, a JSON answer is the text [jsonify] writes (Json.v); the
    messages of the table need no escape, so every JSON answer of the
    current application is [{"message":"m"}] and a client's [json.loads]
    reads [m] back. *)

From S2P Require Import Prelude PyExc PyValue Json PurePath FileSystem Flask Features Checkpoint Legacy App.
From Stdlib Require Import Ascii String ZArith.
Import PyExc PyValue Json PurePath FileSystem Flask Features Checkpoint Legacy App.

Module Typing.

(** ** The response types *)

(** The answers Flask builds without a view's value. *)
Inductive flask_page : response -> Prop :=
| ErrorPage c : c ∈ [400; 404; 405; 500]%Z -> flask_page (Response c (BHttpError c))
| HtmlPage h : h = main_html \/ h = [] -> flask_page (Response 200 (BHtml h)).

(** The rows of the table of section 4.1 of the spec, with the success
    row, in the wording of [features/backend.py]. *)
Definition api_table : list (string * Z) :=
  [("Request must be JSON", 400); ("entry_id not provided", 400); ("entry_id is empty", 400);
   ("Invalid entry_id", 400); ("Error processing QR code", 500); ("Success", 200)]%Z.

Definition api_ret (rv : view_ret) : Prop :=
  exists m c, (m, c) ∈ api_table /\ rv = RetJsonTuple (message m) c.

Definition api_response (resp : response) : Prop :=
  (exists m c, (m, c) ∈ api_table /\ resp = Response c (BJson (message m))) \/ flask_page resp.

(** The dicts the checkpoint draft returns. *)
Definition draft_table : list (Z * string) :=
  [(500, "entry_id not provided"); (200, "Success"); (500, "Invalid entry_id")]%Z.

Definition draft_ret (rv : view_ret) : Prop :=
  exists c m, (c, m) ∈ draft_table /\ rv = RetDict (status_message c m).

Definition draft_response (resp : response) : Prop :=
  (exists c m, (c, m) ∈ draft_table /\ resp = Response 200 (BJson (status_message c m))) \/ flask_page resp.

(** ** Typing rules *)

Lemma flask_page_exception e : flask_page (exception_response e).
Proof. constructor. apply exception_status_codes. Qed.

Lemma flask_page_main {S} (s : S) : flask_page (run_view main_view s).1.
Proof. constructor. by left. Qed.

Lemma flask_page_options : flask_page (Response 200 (BHtml [])).
Proof. constructor. by right. Qed.

Lemma api_ret_row m c : (m, c) ∈ api_table -> api_ret (RetJsonTuple (message m) c).
Proof. intros Hin. by exists m, c. Qed.

Lemma draft_ret_row c m : (c, m) ∈ draft_table -> draft_ret (RetDict (status_message c m)).
Proof. intros Hin. by exists c, m. Qed.

#[export] Hint Resolve flask_page_exception flask_page_main flask_page_options : se_typing.
#[export] Hint Extern 1 (api_ret _) => apply api_ret_row; decide_closed : se_typing.
#[export] Hint Extern 1 (draft_ret _) => apply draft_ret_row; decide_closed : se_typing.

(** An application answers within [Q] when its routing errors, its answer
    to [OPTIONS] and each of its views do. *)
Lemma dispatch_typed {S} (Q : response -> Prop) views r (s : S) :
  (forall e, Q (exception_response e)) -> Q (Response 200 (BHtml [])) ->
  (forall ep, Q (views ep r s).1) -> Q (dispatch views r s).1.
Proof.
  intros He Ho Hv. unfold dispatch.
  destruct (match_request app_rules r) as [e|ru]; [apply He|]. case_decide; [apply Ho|apply Hv].
Qed.

Section Views.
Context {S Img : Type} `{!OS S Img} `{!QREncoder Img}.

Lemma generate_qr_code_typed r : se_returns api_ret (generate_qr_code (S:=S) r).
Proof.
  unfold generate_qr_code, features_try_body, features_handlers, save_under_imgs.
  eauto 20 with se_typing.
Qed.

Lemma checkpoint_generate_qr_code_typed r : se_returns draft_ret (checkpoint_generate_qr_code (S:=S) r).
Proof.
  unfold checkpoint_generate_qr_code, checkpoint_try_body, checkpoint_handlers.
  apply se_returns_decide; [|auto with se_typing].
  apply se_returns_try; [destruct (form_get r ID_KEY)|]; eauto 10 with se_typing.
Qed.
End Views.

Section Apps.
Context {S Img : Type} `{!OS S Img} `{!QREncoder Img}.

(** C3: Every answer of the current application, to every request and in
    every state of every operating system, has the API's response type: a
    JSON object [{"message": m}] sent with the HTTP status of [m]'s row of
    the table (400 for the four validation messages, 500 for a storage
    failure, 200 for success), or a page Flask builds: an error page of
    status 400, 404, 405 or 500, the main page, or the empty answer to
    [OPTIONS].  In particular every JSON body is [{"message": m}] with one
    of the six messages. *)
Theorem features_app_typed r (s : S) : api_response (features_app r s).1.
Proof.
  apply (dispatch_typed api_response); [right; auto with se_typing|right; auto with se_typing|].
  intros []; [|right; apply flask_page_main].
  cbn [features_views]. unfold features_qrcode. apply (run_view_typed api_ret); [apply generate_qr_code_typed| |right; auto with se_typing].
  intros rv (m & c & Hin & ->). left. by exists m, c.
Qed.

(** C26: Every answer of the checkpoint draft is a page Flask builds or a
    dict [{"status": c, "message": m}] sent with HTTP status 200, whatever
    [c] says: the status duplication that section 6 of the spec asks not
    to reproduce, for every request and every state. *)
Theorem checkpoint_app_typed r (s : S) : draft_response (checkpoint_app r s).1.
Proof.
  apply (dispatch_typed draft_response); [right; auto with se_typing|right; auto with se_typing|].
  intros []; [|right; apply flask_page_main].
  cbn [checkpoint_views]. unfold checkpoint_qrcode. apply (run_view_typed draft_ret); [apply checkpoint_generate_qr_code_typed| |right; auto with se_typing].
  intros rv (c & m & Hin & ->). left. by exists c, m.
Qed.
End Apps.

(** ** On the wire *)

(** The six messages are printable ASCII without quotes or backslashes:
    [jsonify] writes them as they are. *)
Lemma api_table_plain : Forall (fun mc => flat_map esc_char (lit mc.1) = lit mc.1) api_table.
Proof. decide_closed. Qed.

Section Wire.
Context {S Img : Type} `{!OS S Img} `{!QREncoder Img}.

(** C4: On the wire, every JSON answer of the current application, to
    every request in every state, is the text [{"message":"m"}] followed
    by a newline, for [m] the message of the row of the table whose status
    the answer carries, and a client's [json.loads] reads that text back
    as the object [{"message": m}] (for any recursion budget). *)
Theorem features_app_wire r (s : S) c v :
  (features_app r s).1 = Response c (BJson v) ->
  exists m, (m, c) ∈ api_table /\
    jsonify v =
      "{"%char :: dquote :: «"message"» ++ dquote :: ":"%char :: dquote :: lit m ++ [dquote; "}"%char; newline] /\
    forall b, 1 <= b -> json_loads b (jsonify v) = JOk (JObj [(«"message"», JStr (lit m))]).
Proof.
  revert c v.
  apply (dispatch_typed (fun resp => forall c v, resp = Response c (BJson v) -> _)); [done|done|].
  intros []; [|done].
  cbn [features_views]. unfold features_qrcode.
  apply (run_view_typed api_ret); [apply generate_qr_code_typed| |done].
  intros rv (m & c' & Hin & ->) c v [= <- <-]. exists m. split; [done|].
  pose proof (proj1 (Forall_forall _ _) api_table_plain (m, c') Hin) as Hm. cbn [fst] in Hm. split.
  - unfold jsonify, message. cbn [to_json map fst snd sort_items foldr insert_item json_dumps join_with].
    unfold dump_str. rewrite Hm. change (flat_map esc_char «"message"») with «"message"».
    simpl. by rewrite <- !app_assoc.
  - intros b Hb. unfold jsonify. apply json_loads_dumps_ws; [reflexivity|simpl; lia|repeat constructor].
Qed.
End Wire.

Lemma features_app_wire_witness :
  exists m, (m, 400%Z) ∈ api_table /\
    jsonify (message "Request must be JSON") =
      "{"%char :: dquote :: «"message"» ++ dquote :: ":"%char :: dquote :: lit m ++ [dquote; "}"%char; newline] /\
    forall b, 1 <= b -> json_loads b (jsonify (message "Request must be JSON")) = JOk (JObj [(«"message"», JStr (lit m))]).
Proof.
  apply (features_app_wire (S:=memfs pystr) (Img:=pystr) (get_req «"/qrcode"» POST) demo_fs).
  reflexivity.
Defined.

End Typing.
