(* ===== verification/Concurrency.v ===== *)
(** * Concurrent requests: lines 21-23 of [features/backend.py]

    Flask's development server answers requests in threads, so the three
    OS calls of lines 21-23 ([os.path.exists("imgs")], [os.mkdir("imgs")],
    [img.save(path)]) of several requests can interleave.  Each call is
    atomic in the kernel; nothing else of the handler touches shared state.
    This file models a request between those calls as a [thread] at a
    program point ([phase]), one call as [save_step], the requests in
    flight as a list of threads, and a run as a schedule, the list of the
    indices of the requests that make the successive calls ([run_sched]).

    The theorems: when [imgs] is missing, one schedule of two requests
    makes the second fail with [FileExistsError] (answered 500), although
    each alone succeeds; when [imgs] exists, no schedule of any number of
    requests makes one fail, and none loses its file to another: a request
    whose identifier no other request shares finds its image in its file
    at the end of every run. *)

From S2P Require Import Prelude PyExc PyValue PurePath FileSystem Flask Features.
From Stdlib Require Import Ascii String ZArith Lia.
Import PyExc PyValue PurePath FileSystem Flask Features.

Module Race.

(** The program point of a request within lines 21-23. *)
Inductive phase :=
| PCheck                      (* before [os.path.exists("imgs")] *)
| PMkdir                      (* before [os.mkdir("imgs")] *)
| PSave                       (* before [img.save(path)] *)
| PDone (res : exc_class + unit).

Section Steps.
Context {Img : Type} `{!QREncoder Img}.
Implicit Types (st : memfs Img).

(** One atomic call of lines 21-23 for the identifier [e]. *)
Definition save_step (e : pystr) (img : Img) (ph : phase) st : phase * memfs Img :=
  match ph with
  | PCheck => (if mem_exists IMGS st then PSave else PMkdir, st)
  | PMkdir =>
      match mem_mkdir IMGS st with
      | (inl c, st') => (PDone (inl c), st')
      | (inr _, st') => (PSave, st')
      end
  | PSave =>
      let '(r, st') := mem_save (purepath_str [IMGS; e ++ png_suffix]) img st in (PDone r, st')
  | PDone r => (PDone r, st)
  end.

Record thread := Thread { th_id : pystr; th_img : Img; th_phase : phase }.

Definition thread_step (t : thread) st : thread * memfs Img :=
  (Thread (th_id t) (th_img t) (save_step (th_id t) (th_img t) (th_phase t) st).1,
   (save_step (th_id t) (th_img t) (th_phase t) st).2).

(** A schedule names, call by call, the request that makes the next call,
    by its index; an index that names no request is skipped. *)
Fixpoint run_sched (sch : list nat) (ts : list thread) st : list thread * memfs Img :=
  match sch with
  | [] => (ts, st)
  | i :: sch' =>
      match ts !! i with
      | Some t => run_sched sch' (<[i := (thread_step t st).1]> ts) (thread_step t st).2
      | None => run_sched sch' ts st
      end
  end.

(** The answer of a request that has finished lines 21-23. *)
Definition thread_response (t : thread) : option response :=
  match th_phase t with
  | PDone (inl c) => Some (features_exc_response c)
  | PDone (inr _) => Some (Response 200 (BJson (message "Success")))
  | _ => None
  end.

(** The file system lets a request write the file of [e] below an existing
    [imgs]. *)
Definition can_write st (e : pystr) : Prop :=
  (~ is_dir st (image_path st e)) /\ (image_path st e ∉ fs_locked st) /\ (imgs_dir st ∉ fs_locked st).

(** The program point after [k] calls of a request that finds [imgs]. *)
Definition phase_after (k : nat) : phase :=
  match k with
  | 0 => PCheck
  | 1 => PSave
  | _ => PDone (inr tt)
  end.
End Steps.

Arguments thread : clear implicits.

Section Lemmas.
Context {Img : Type} `{!QREncoder Img}.
Implicit Types (st : memfs Img) (e : pystr) (ts : list (thread Img)).

Lemma run_sched_cons i sch ts st t :
  ts !! i = Some t ->
  run_sched (i :: sch) ts st = run_sched sch (<[i := (thread_step t st).1]> ts) (thread_step t st).2.
Proof. intros Hi. simpl. by rewrite Hi. Qed.

Lemma run_sched_skip i sch ts st :
  ts !! i = None -> run_sched (i :: sch) ts st = run_sched sch ts st.
Proof. intros Hi. simpl. by rewrite Hi. Qed.

(** The three calls, one equation each. *)
Lemma save_step_check e img st :
  save_step e img PCheck st = (if mem_exists IMGS st then PSave else PMkdir, st).
Proof. reflexivity. Qed.

Lemma save_step_mkdir e img st :
  save_step e img PMkdir st =
    match mem_mkdir IMGS st with (inl c, st') => (PDone (inl c), st') | (inr _, st') => (PSave, st') end.
Proof. reflexivity. Qed.

Lemma save_step_save e img st :
  save_step e img PSave st =
    let '(r, st') := mem_save (purepath_str [IMGS; e ++ png_suffix]) img st in (PDone r, st').
Proof. reflexivity. Qed.

(** One call of request [i], given what [save_step] does. *)
Lemma run_sched_step i sch ts e img ph ph' st st' :
  ts !! i = Some (Thread e img ph) -> save_step e img ph st = (ph', st') ->
  run_sched (i :: sch) ts st = run_sched sch (<[i := Thread e img ph']> ts) st'.
Proof. intros Hi Hs. rewrite (run_sched_cons _ _ _ _ _ Hi). unfold thread_step. cbn [th_id th_img th_phase]. by rewrite Hs. Qed.

(** A request at [phase_after k] has not failed, and has succeeded after
    two calls. *)
Lemma phase_after_response (t : thread Img) k :
  th_phase t = phase_after k ->
  (forall c, th_phase t ≠ PDone (inl c)) /\
  (2 <= k -> thread_response t = Some (Response 200 (BJson (message "Success")))).
Proof.
  unfold thread_response. intros ->. split; [by destruct k as [|[|k]]|].
  intros Hk. by destruct k as [|[|k]]; [lia|lia|].
Qed.

Lemma save_image_ok st e img :
  plain_name e -> is_dir st (imgs_dir st) -> can_write st e ->
  mem_save (purepath_str [IMGS; e ++ png_suffix]) img st = (inr tt, put_file (image_path st e) img st).
Proof. intros Hp Hd (Hnd & Hl & Hil). apply mem_save_entry; [by apply lookup_image|done|done|auto]. Qed.

Lemma can_write_put st f img e : can_write st e -> can_write (put_file f img st) e.
Proof. done. Qed.

Lemma imgs_dir_put st f img :
  is_dir st (imgs_dir st) -> is_dir (put_file f img st) (imgs_dir (put_file f img st)).
Proof. done. Qed.

Lemma exists_imgs_present st : is_dir st (imgs_dir st) -> mem_exists IMGS st = true.
Proof. intros Hd. rewrite exists_imgs_memfs. apply bool_decide_eq_true_2. by left. Qed.

(** One call of a request that finds [imgs] and may write its file. *)
Lemma step_with_imgs st e img k :
  plain_name e -> is_dir st (imgs_dir st) -> can_write st e ->
  save_step e img (phase_after k) st = (phase_after (S k), st) \/
  save_step e img (phase_after k) st = (phase_after (S k), put_file (image_path st e) img st).
Proof.
  intros Hp Hd Hw. destruct k as [|[|k]]; simpl.
  - left. by rewrite exists_imgs_present.
  - right. by rewrite save_image_ok.
  - by left.
Qed.
End Lemmas.

(** ** The race on [imgs] *)

Section NoImgs.
Context {Img : Type} `{!QREncoder Img}.
Context (st : memfs Img) (e1 e2 : pystr) (img1 img2 : Img).
Hypothesis Hnd : ~ is_dir st (imgs_dir st).
Hypothesis Hnf : ~ is_file st (imgs_dir st).
Hypothesis Hcwd : fs_cwd st ∉ fs_locked st.

Lemma exists_imgs_missing : mem_exists IMGS st = false.
Proof using Hnd Hnf. rewrite exists_imgs_memfs. apply bool_decide_eq_false_2. tauto. Qed.

Lemma mkdir_imgs_ok : mem_mkdir IMGS st = (inr tt, add_dir (imgs_dir st) st).
Proof using Hnd Hnf Hcwd. unfold mem_mkdir. rewrite lookup_imgs. by rewrite !decide_False by tauto. Qed.

Lemma mkdir_imgs_again :
  mem_mkdir IMGS (add_dir (imgs_dir st) st) = (inl FileExistsError, add_dir (imgs_dir st) st).
Proof.
  unfold mem_mkdir. rewrite lookup_imgs. rewrite decide_True; [done|]. left.
  unfold is_dir, add_dir; simpl. by apply elem_of_union_l, elem_of_singleton.
Qed.

(** Run one after the other, two requests both succeed. *)
Lemma sequential_ok :
  plain_name e1 -> plain_name e2 ->
  can_write (add_dir (imgs_dir st) st) e1 -> can_write (add_dir (imgs_dir st) st) e2 ->
  run_sched [0; 0; 0; 1; 1; 1] [Thread e1 img1 PCheck; Thread e2 img2 PCheck] st =
    ([Thread e1 img1 (PDone (inr tt)); Thread e2 img2 (PDone (inr tt))],
     put_file (image_path st e2) img2 (put_file (image_path st e1) img1 (add_dir (imgs_dir st) st))).
Proof using Hnd Hnf Hcwd.
  intros Hp1 Hp2 Hw1 Hw2. set (st1 := add_dir (imgs_dir st) st).
  assert (Hd1 : is_dir st1 (imgs_dir st1)).
  { unfold st1, is_dir, add_dir. cbn [fs_dirs]. by apply elem_of_union_l, elem_of_singleton. }
  set (st2 := put_file (image_path st1 e1) img1 st1).
  assert (Hd2 : is_dir st2 (imgs_dir st2)) by (by apply imgs_dir_put).
  rewrite (run_sched_step 0 _ _ e1 img1 PCheck PMkdir st st); [|done|by rewrite save_step_check, exists_imgs_missing].
  rewrite (run_sched_step 0 _ _ e1 img1 PMkdir PSave st st1); [|done|by rewrite save_step_mkdir, mkdir_imgs_ok].
  rewrite (run_sched_step 0 _ _ e1 img1 PSave (PDone (inr tt)) st1 st2);
    [|done|by rewrite save_step_save, save_image_ok].
  rewrite (run_sched_step 1 _ _ e2 img2 PCheck PSave st2 st2); [|done|by rewrite save_step_check, exists_imgs_present].
  set (st3 := put_file (image_path st2 e2) img2 st2).
  rewrite (run_sched_step 1 _ _ e2 img2 PSave (PDone (inr tt)) st2 st3);
    [|done|rewrite save_step_save, save_image_ok; [done|done|done|by apply can_write_put]].
  by rewrite (run_sched_step 1 _ _ e2 img2 (PDone (inr tt)) (PDone (inr tt)) st3 st3).
Qed.

(** C20: The check-then-create of lines 21-22 is a race.  When [imgs] is
    missing, two requests for plain names that may write their files both
    succeed when run one after the other; but when both check before
    either creates the directory, the second [os.mkdir] raises
    [FileExistsError] and that request is answered 500 ["Error processing
    QR code"], while the first goes on to save. *)
Theorem mkdir_race :
  plain_name e1 -> plain_name e2 ->
  can_write (add_dir (imgs_dir st) st) e1 -> can_write (add_dir (imgs_dir st) st) e2 ->
  run_sched [0; 0; 0; 1; 1; 1] [Thread e1 img1 PCheck; Thread e2 img2 PCheck] st =
    ([Thread e1 img1 (PDone (inr tt)); Thread e2 img2 (PDone (inr tt))],
     put_file (image_path st e2) img2 (put_file (image_path st e1) img1 (add_dir (imgs_dir st) st))) /\
  run_sched [0; 1; 0; 1] [Thread e1 img1 PCheck; Thread e2 img2 PCheck] st =
    ([Thread e1 img1 PSave; Thread e2 img2 (PDone (inl FileExistsError))], add_dir (imgs_dir st) st) /\
  thread_response (Thread e2 img2 (PDone (inl FileExistsError))) =
    Some (Response 500 (BJson (message "Error processing QR code"))).
Proof using Hnd Hnf Hcwd.
  intros Hp1 Hp2 Hw1 Hw2. split; [by apply sequential_ok|]. split; [|done].
  rewrite (run_sched_step 0 _ _ e1 img1 PCheck PMkdir st st); [|done|by rewrite save_step_check, exists_imgs_missing].
  rewrite (run_sched_step 1 _ _ e2 img2 PCheck PMkdir st st); [|done|by rewrite save_step_check, exists_imgs_missing].
  rewrite (run_sched_step 0 _ _ e1 img1 PMkdir PSave st (add_dir (imgs_dir st) st));
    [|done|by rewrite save_step_mkdir, mkdir_imgs_ok].
  rewrite (run_sched_step 1 _ _ e2 img2 PMkdir (PDone (inl FileExistsError)) _ (add_dir (imgs_dir st) st));
    [done|done|by rewrite save_step_mkdir, mkdir_imgs_again].
Qed.
End NoImgs.

(** ** No race once [imgs] exists *)

Section WithImgs.
Context {Img : Type} `{!QREncoder Img}.
Implicit Types (st : memfs Img) (ts : list (thread Img)).

(** [imgs] exists, every request may write its file, and request [i] has
    made [k i] calls. *)
Definition race_free ts st (k : nat -> nat) : Prop :=
  is_dir st (imgs_dir st) /\
  forall i t, ts !! i = Some t ->
    plain_name (th_id t) /\ can_write st (th_id t) /\ th_phase t = phase_after (k i).

Definition bump (k : nat -> nat) (i : nat) : nat -> nat :=
  fun j => if decide (j = i) then S (k i) else k j.

Lemma race_free_ext ts st k k' :
  (forall i, is_Some (ts !! i) -> k i = k' i) -> race_free ts st k -> race_free ts st k'.
Proof.
  intros Hk [Hd Hall]. split; [done|]. intros i t Hi. rewrite <- Hk by eauto. by apply Hall.
Qed.

Lemma race_free_step ts st k i t :
  race_free ts st k -> ts !! i = Some t ->
  race_free (<[i := (thread_step t st).1]> ts) (thread_step t st).2 (bump k i).
Proof.
  intros [Hd Hall] Hi. destruct (Hall i t Hi) as (Hp & Hw & Hph).
  pose proof (lookup_lt_Some _ _ _ Hi) as Hlt. unfold thread_step. rewrite Hph.
  destruct (step_with_imgs st (th_id t) (th_img t) (k i) Hp Hd Hw) as [H|H]; rewrite H; cbn [fst snd];
    (split; [done|]); intros j tj Hj; unfold bump;
    (destruct (decide (j = i)) as [->|Hne];
     [rewrite list_lookup_insert_eq in Hj by done; injection Hj as <-; done
     |rewrite list_lookup_insert_ne in Hj by congruence; by apply Hall]).
Qed.

Lemma run_sched_race_free sch ts st k :
  race_free ts st k ->
  race_free (run_sched sch ts st).1 (run_sched sch ts st).2 (fun j => k j + count_occ Nat.eq_dec sch j).
Proof.
  revert ts st k. induction sch as [|i sch IH]; intros ts st k Hrf.
  { eapply race_free_ext; [|exact Hrf]. intros j _. simpl. lia. }
  destruct (ts !! i) as [t|] eqn:Hi.
  - rewrite (run_sched_cons _ _ _ _ _ Hi).
    eapply race_free_ext; [|apply IH, (race_free_step _ _ _ _ _ Hrf Hi)].
    intros j _. unfold bump. simpl. destruct (Nat.eq_dec i j), (decide (j = i)); subst; lia.
  - rewrite (run_sched_skip _ _ _ _ Hi).
    eapply race_free_ext; [|apply IH, (race_free_ext ts st k (bump k i)); [|exact Hrf]].
    + intros j _. unfold bump. simpl. destruct (Nat.eq_dec i j), (decide (j = i)); subst; lia.
    + intros j [tj Hj]. unfold bump. destruct (decide (j = i)); [congruence|done].
Qed.

(** C21: Once [imgs] exists, requests for plain names that may write their
    files never race, however many there are: whatever the schedule of
    their calls, no request fails, and a request that has made its two
    calls has succeeded. *)
Theorem no_race_with_imgs sch ts st :
  is_dir st (imgs_dir st) ->
  Forall (fun t => plain_name (th_id t) /\ can_write st (th_id t) /\ th_phase t = PCheck) ts ->
  forall i t, (run_sched sch ts st).1 !! i = Some t ->
    (forall c, th_phase t ≠ PDone (inl c)) /\
    (2 <= count_occ Nat.eq_dec sch i -> thread_response t = Some (Response 200 (BJson (message "Success")))).
Proof.
  intros Hd Hall i t Hi.
  assert (H0 : race_free ts st (fun _ => 0)).
  { split; [done|]. intros j tj Hj. by apply (Forall_lookup_1 _ _ _ _ Hall Hj). }
  destruct (run_sched_race_free sch ts st _ H0) as [_ Hfin].
  destruct (Hfin i t Hi) as (_ & _ & Hph). by apply phase_after_response.
Qed.
End WithImgs.

(** ** No lost write *)

Section NoLostWrite.
Context {Img : Type} `{!QREncoder Img}.
Implicit Types (st : memfs Img) (ts : list (thread Img)).

(** The call of a request that finds [imgs] writes its file exactly when
    it is the second call. *)
Lemma step_with_imgs_exact st e img k :
  plain_name e -> is_dir st (imgs_dir st) -> can_write st e ->
  save_step e img (phase_after k) st =
    (phase_after (S k), if decide (k = 1) then put_file (image_path st e) img st else st).
Proof.
  intros Hp Hd Hw. destruct k as [|[|k]]; simpl.
  - by rewrite exists_imgs_present.
  - by rewrite save_image_ok.
  - done.
Qed.

Lemma image_path_inj st e1 e2 : image_path st e1 = image_path st e2 -> e1 = e2.
Proof. unfold image_path. intros [= H]%app_inv_head. by apply app_inv_tail in H. Qed.

(** Along a run from [ts0] in [st0]: the working directory is kept, every
    request keeps its identifier and image, and a request that has made
    [k i >= 2] calls and shares its identifier with no other request
    finds its image in its file. *)
Definition own_files ts0 st0 ts st (k : nat -> nat) : Prop :=
  fs_cwd st = fs_cwd st0 /\
  (forall j, (λ t, (th_id t, th_img t)) <$> ts !! j = (λ t, (th_id t, th_img t)) <$> ts0 !! j) /\
  forall i t0, ts0 !! i = Some t0 -> 2 <= k i ->
    (forall j t', j ≠ i -> ts0 !! j = Some t' -> th_id t' ≠ th_id t0) ->
    fs_files st !! image_path st0 (th_id t0) = Some (th_img t0).

Lemma own_files_ext ts0 st0 ts st k k' :
  (forall i, is_Some (ts0 !! i) -> k i = k' i) -> own_files ts0 st0 ts st k -> own_files ts0 st0 ts st k'.
Proof.
  intros Hk (Hc & Hid & Hf). split_and!; [done|done|]. intros i t0 Hi. rewrite <- Hk by eauto. by apply Hf.
Qed.

Lemma own_files_step ts0 st0 ts st k j tj :
  race_free ts st k -> own_files ts0 st0 ts st k -> ts !! j = Some tj ->
  own_files ts0 st0 (<[j := (thread_step tj st).1]> ts) (thread_step tj st).2 (bump k j).
Proof.
  intros [Hd Hall] (Hc & Hid & Hf) Hj. destruct (Hall j tj Hj) as (Hp & Hw & Hph).
  pose proof (lookup_lt_Some _ _ _ Hj) as Hlt.
  destruct (ts0 !! j) as [tj0|] eqn:Hj0; [|by specialize (Hid j); rewrite Hj, Hj0 in Hid].
  assert (Hsame : th_id tj = th_id tj0 /\ th_img tj = th_img tj0).
  { specialize (Hid j). rewrite Hj, Hj0 in Hid. by injection Hid. }
  assert (Hpath : forall e, image_path st e = image_path st0 e).
  { intros e. unfold image_path, imgs_dir. by rewrite Hc. }
  unfold thread_step. rewrite Hph, step_with_imgs_exact by done. cbn [fst snd th_id th_img].
  split_and!.
  - by case_decide.
  - intros i. destruct (decide (i = j)) as [->|Hne].
    + rewrite list_lookup_insert_eq by done. rewrite <- Hid, Hj. done.
    + rewrite list_lookup_insert_ne by congruence. apply Hid.
  - intros i t0 Hi Hk Hu. unfold bump in Hk.
    destruct (decide (i = j)) as [->|Hne].
    + rewrite Hi in Hj0. injection Hj0 as <-.
      destruct (decide (k j = 1)); cbn [fs_files put_file]; [|apply (Hf j t0); [done|lia|done]].
      rewrite <- (proj1 Hsame), <- (proj2 Hsame), Hpath. apply lookup_insert_eq.
    + destruct (decide (k j = 1)); cbn [fs_files put_file]; [|by apply (Hf i t0)].
      rewrite Hpath, lookup_insert_ne; [by apply (Hf i t0)|].
      intros Heq%image_path_inj. apply (Hu j tj0); [done|done|]. by rewrite <- (proj1 Hsame).
Qed.

Lemma run_sched_own_files sch ts0 st0 ts st k :
  race_free ts st k -> own_files ts0 st0 ts st k ->
  own_files ts0 st0 (run_sched sch ts st).1 (run_sched sch ts st).2
    (fun j => k j + count_occ Nat.eq_dec sch j).
Proof.
  revert ts st k. induction sch as [|i sch IH]; intros ts st k Hrf Hown.
  { eapply own_files_ext; [|exact Hown]. intros j _. simpl. lia. }
  destruct (ts !! i) as [t|] eqn:Hi.
  - rewrite (run_sched_cons _ _ _ _ _ Hi).
    eapply own_files_ext; [|apply IH; [apply (race_free_step _ _ _ _ _ Hrf Hi)|apply (own_files_step _ _ _ _ _ _ _ Hrf Hown Hi)]].
    intros j _. unfold bump. simpl. destruct (Nat.eq_dec i j), (decide (j = i)); subst; lia.
  - rewrite (run_sched_skip _ _ _ _ Hi).
    assert (Hb : forall j, j ≠ i -> bump k i j = k j) by (intros j Hj; unfold bump; by rewrite decide_False).
    eapply own_files_ext; [|apply (IH ts st (bump k i))].
    + intros j _. unfold bump. simpl. destruct (Nat.eq_dec i j), (decide (j = i)); subst; lia.
    + eapply race_free_ext; [|exact Hrf]. intros j [tj Hj]. rewrite Hb; congruence.
    + eapply own_files_ext; [|exact Hown]. intros j [tj Hj]. rewrite Hb; [done|]. intros ->.
      destruct Hown as (_ & Hid & _). specialize (Hid i). by rewrite Hi, Hj in Hid.
Qed.

(** C22: No write is lost: once [imgs] exists, whatever the schedule of
    the calls of any number of requests for plain names that may write
    their files, a request that has made its two calls finds its image in
    [imgs/<id>.png] at the end of the run, unless another request has the
    same identifier (the last write wins there, as the specification
    accepts): no request overwrites or removes the file of another. *)
Theorem no_lost_write sch ts st :
  is_dir st (imgs_dir st) ->
  Forall (fun t => plain_name (th_id t) /\ can_write st (th_id t) /\ th_phase t = PCheck) ts ->
  forall i t, ts !! i = Some t ->
    (forall j t', j ≠ i -> ts !! j = Some t' -> th_id t' ≠ th_id t) ->
    2 <= count_occ Nat.eq_dec sch i ->
    fs_files (run_sched sch ts st).2 !! image_path st (th_id t) = Some (th_img t).
Proof.
  intros Hd Hall i t Hi Hu Hc.
  assert (H0 : race_free ts st (fun _ => 0)).
  { split; [done|]. intros j tj Hj. by apply (Forall_lookup_1 _ _ _ _ Hall Hj). }
  assert (Hown0 : own_files ts st ts st (fun _ => 0)) by (split_and!; [done|done|intros; lia]).
  destruct (run_sched_own_files sch ts st ts st _ H0 Hown0) as (_ & _ & Hf).
  apply (Hf i t); [done|simpl; lia|done].
Qed.
End NoLostWrite.

(** ** Concrete runs *)

Definition ida : pystr := «"a"».
Definition idb : pystr := «"b"».

Lemma mkdir_race_witness :
  run_sched [0; 0; 0; 1; 1; 1] [Thread ida ida PCheck; Thread idb idb PCheck] demo_fs =
    ([Thread ida ida (PDone (inr tt)); Thread idb idb (PDone (inr tt))],
     put_file (image_path demo_fs idb) idb
       (put_file (image_path demo_fs ida) ida (add_dir (imgs_dir demo_fs) demo_fs))) /\
  run_sched [0; 1; 0; 1] [Thread ida ida PCheck; Thread idb idb PCheck] demo_fs =
    ([Thread ida ida PSave; Thread idb idb (PDone (inl FileExistsError))], add_dir (imgs_dir demo_fs) demo_fs) /\
  thread_response (Thread idb idb (PDone (inl FileExistsError))) =
    Some (Response 500 (BJson (message "Error processing QR code"))).
Proof. apply mkdir_race; try (unfold plain_name); unfold can_write; decide_closed. Defined.

Definition demo_threads : list (thread pystr) :=
  [Thread ida ida PCheck; Thread idb idb PCheck; Thread ida ida PCheck].

Lemma demo_run_first :
  (run_sched [0; 1; 2; 2; 1; 0] demo_threads demo_fs_imgs).1 !! 0 = Some (Thread ida ida (PDone (inr tt))).
Proof. vm_compute. reflexivity. Qed.

Lemma no_race_with_imgs_witness :
  (run_sched [0; 1; 2; 2; 1; 0] demo_threads demo_fs_imgs).1 !! 0 = Some (Thread ida ida (PDone (inr tt))) /\
  thread_response (Thread ida ida (PDone (inr tt))) = Some (Response 200 (BJson (message "Success"))).
Proof.
  split; [exact demo_run_first|].
  refine (proj2 (no_race_with_imgs _ _ _ _ _ 0 _ demo_run_first) _); [decide_closed| |vm_compute; lia].
  repeat constructor; try (unfold plain_name; decide_closed); unfold can_write; decide_closed.
Defined.

Lemma no_lost_write_witness :
  fs_files (run_sched [0; 1; 2; 2; 1; 0] demo_threads demo_fs_imgs).2 !! image_path demo_fs_imgs idb = Some idb.
Proof.
  refine (no_lost_write [0; 1; 2; 2; 1; 0] demo_threads demo_fs_imgs _ _ 1 (Thread idb idb PCheck) _ _ _);
    [decide_closed| |reflexivity| |vm_compute; lia].
  - repeat constructor; try (unfold plain_name; decide_closed); unfold can_write; decide_closed.
  - intros j t' Hj Ht'. unfold demo_threads in Ht'.
    destruct j as [|[|[|j]]]; cbn in Ht'; [| done | |discriminate];
      injection Ht' as <-; cbn; decide_closed.
Defined.

End Race.
